(** * Leave management system: the leave-request lifecycle and its guards

    A shallow embedding of the Express/Mongoose backend.  In the sources
    at hand the code sits in two files:

    - [backend/middleware/auth.js]: the middleware (authenticateToken,
      requireRole, canApproveLeave), followed by the LeaveRequest model
      (schema validators, pre-save hooks, approve, reject) and the User
      model (canApproveLeaves, pre-save hooks);
    - [unnamed/part_000]: the auth routes (PUT /profile), the leave routes
      (POST /apply, PUT /:id/approve, PUT /:id/reject, GET /:id,
      DELETE /:id) and the user routes (PUT /profile).

    The two collections are finite maps keyed by [_id].  A handler is a
    function from the request, the clock readings it takes and the
    collection to the response it sends and the collection it leaves.
    Text is ASCII; an instant is its number of milliseconds since the
    epoch; a text field of a body is absent or a string.
    Not modelled: the [timestamps] option, [attachments], failures of the
    connection to the database, and [populate] except where a handler
    reads what it loaded (GET /:id). *)

From Stdlib Require Import ZArith NArith String Ascii List Bool Lia DecimalString.
From stdpp Require Import base option gmap strings list fin_maps.

Open Scope string_scope.
Open Scope Z_scope.

(** ** JavaScript values and the library predicates the routes call *)

Module Js.

(** A parsed JSON body value ([JUndefined] : the key is absent). *)
#[local] Unset Elimination Schemes.
Inductive JsValue :=
| JUndefined
| JNull
| JBool (b : bool)
| JNum (n : Z)
| JStr (s : string)
| JObj (fields : list (string * JsValue)).
#[local] Set Elimination Schemes.

(** [v[key]] *)
Definition field (v : JsValue) (key : string) : JsValue :=
  match v with
  | JObj fields =>
      match List.find (fun kv => String.eqb (fst kv) key) fields with
      | Some kv => snd kv
      | None => JUndefined
      end
  | _ => JUndefined
  end.

(** [v[key] = x] on an object; nothing is written on another value. *)
Definition setField (v : JsValue) (key : string) (x : JsValue) : JsValue :=
  match v with
  | JObj fields =>
      JObj ((key, x) :: List.filter (fun kv => negb (String.eqb (fst kv) key)) fields)
  | _ => v
  end.

(** [!!v] *)
Definition truthy (v : JsValue) : bool :=
  match v with
  | JUndefined | JNull => false
  | JBool b => b
  | JNum n => negb (n =? 0)%Z
  | JStr s => negb (String.eqb s "")
  | JObj _ => true
  end.

(** [v !== undefined] *)
Definition defined (v : JsValue) : bool :=
  match v with JUndefined => false | _ => true end.

(** The value a validator sees: express-validator turns whatever it is
    given into a string, [undefined] and [null] into the empty one. *)
Definition toString (v : JsValue) : string :=
  match v with
  | JStr s => s
  | JBool true => "true"
  | JBool false => "false"
  | JNum n => NilZero.string_of_int (Z.to_int n)
  | JUndefined | JNull => ""
  | JObj _ => "[object Object]"
  end.

Definition isSpace (c : ascii) : bool :=
  let n := nat_of_ascii c in
  (Nat.eqb n 32 || (Nat.leb 9 n && Nat.leb n 13))%bool.

Fixpoint ltrim (s : string) : string :=
  match s with
  | String c s' => if isSpace c then ltrim s' else s
  | EmptyString => EmptyString
  end.

(** Drops the white space at the end: a character stays when it is not
    white space or when something stays after it. *)
Fixpoint rtrim (s : string) : string :=
  match s with
  | EmptyString => EmptyString
  | String c s' =>
      match rtrim s' with
      | EmptyString => if isSpace c then EmptyString else String c EmptyString
      | r => String c r
      end
  end.

(** [.trim()] *)
Definition trim (s : string) : string := rtrim (ltrim s).

(** [.isLength({ min, max })] *)
Definition isLength (min max : nat) (s : string) : bool :=
  (Nat.leb min (String.length s) && Nat.leb (String.length s) max)%bool.

Definition isDigit (c : ascii) : bool :=
  let n := nat_of_ascii c in (Nat.leb 48 n && Nat.leb n 57)%bool.

Fixpoint allChars (p : ascii -> bool) (s : string) : bool :=
  match s with
  | EmptyString => true
  | String c s' => (p c && allChars p s')%bool
  end.

(** [/^[0-9]{10}$/] *)
Definition isPhone (s : string) : bool :=
  (Nat.eqb (String.length s) 10 && allChars isDigit s)%bool.

Definition hexDigit (c : ascii) : option N :=
  let n := N_of_ascii c in
  if ((48 <=? n) && (n <=? 57))%N then Some (n - 48)%N
  else if ((97 <=? n) && (n <=? 102))%N then Some (n - 87)%N
  else if ((65 <=? n) && (n <=? 70))%N then Some (n - 55)%N
  else None.

Definition isHexDigit (c : ascii) : bool :=
  match hexDigit c with Some _ => true | None => false end.

(** [.isMongoId()]: twenty-four hexadecimal digits. *)
Definition isMongoId (s : string) : bool :=
  (Nat.eqb (String.length s) 24 && allChars isHexDigit s)%bool.

Fixpoint hexValue (acc : N) (s : string) : N :=
  match s with
  | EmptyString => acc
  | String c s' =>
      hexValue (acc * 16 + match hexDigit c with Some d => d | None => 0 end)%N s'
  end.

(** [.isIn([...])] *)
Definition isIn (allowed : list string) (s : string) : bool :=
  existsb (String.eqb s) allowed.

(** [.isBoolean()] *)
Definition isBoolean (s : string) : bool := isIn ["true"; "false"; "1"; "0"] s.

End Js.

(** An [ObjectId] is its 96-bit value. *)
Definition ObjectId := N.

(** Mongoose's cast of a route parameter to an [ObjectId].  The castable
    strings are taken to be those [isMongoId] accepts; on any other the
    query throws a [CastError]. *)
Definition castObjectId (s : string) : option ObjectId :=
  if Js.isMongoId s then Some (Js.hexValue 0%N s) else None.

(** ** Responses *)

Module Http.

(** One entry of [errors.array()]. *)
Record FieldError := { path : string; msg : string }.

Inductive Body (A : Type) :=
| Errors (errs : list FieldError)        (* { errors: errors.array() } *)
| Error (message : string)               (* { error: '...' } *)
| Message (message : string) (doc : A)   (* { message: '...', leaveRequest | user } *)
| Payload (doc : A)                      (* { leaveRequest: {...} } *)
| MessageOnly (message : string).        (* { message: '...' } *)
Arguments Errors {A} errs.
Arguments Error {A} message.
Arguments Message {A} message doc.
Arguments Payload {A} doc.
Arguments MessageOnly {A} message.

Record Response (A : Type) := { status : Z; body : Body A }.
Arguments status {A} r.
Arguments body {A} r.

Definition respond {A} (code : Z) (b : Body A) : Response A :=
  {| status := code; body := b |}.

(** The error taxonomy the status codes and messages map to. *)
Inductive Outcome :=
| Success
| ValidationError
| InvalidTransition
| Forbidden
| NotFound
| Unauthenticated
| InternalFailure.

#[global] Instance Outcome_eq_dec : EqDecision Outcome.
Proof. solve_decision. Defined.

Definition transitionMessages : list string :=
  ["Leave request is not pending";
   "Only pending leave requests can be cancelled"].

Definition outcome {A} (r : Response A) : Outcome :=
  let code := status r in
  if ((code =? 200) || (code =? 201))%bool then Success
  else if code =? 400 then
    match body r with
    | Error m => if Js.isIn transitionMessages m then InvalidTransition
                 else ValidationError
    | _ => ValidationError
    end
  else if code =? 401 then Unauthenticated
  else if code =? 403 then Forbidden
  else if code =? 404 then NotFound
  else InternalFailure.

End Http.

Import Js Http.

(** Early return: a step either sends the response ([inl]) or hands its
    result to the rest of the chain ([inr]); [x ← m; k] runs [k] only in
    the second case. *)
#[export] Instance early_return {R} : MBind (sum R) :=
  fun A B (k : A -> R + B) (m : R + A) =>
    match m with
    | inl r => inl r
    | inr a => k a
    end.

(** [if (cond) return res...] *)
Definition returnIf {R} (cond : bool) (r : R) : R + unit :=
  if cond then inl r else inr tt.

(** The successive values of [new Date()] while one request is handled:
    in the route or the model method, in the schema validator of
    [fromDate], and in the pre-save hook. *)
Record Clock := { t_route : Z; t_validator : Z; t_hook : Z }.

Definition monotone (clk : Clock) : Prop :=
  t_route clk <= t_validator clk /\ t_validator clk <= t_hook clk.

(** ** models/User.js *)

Module User.

(** A user document: its [_id] and the values at its paths.  Paths are
    assigned by name ([user[key] = ...]), so they are kept in a map. *)
Record t := { _id : ObjectId; doc : gmap string JsValue }.

Definition get (u : t) (key : string) : JsValue :=
  default JUndefined (doc u !! key).

(** [user[key] = value] *)
Definition set (u : t) (key : string) (value : JsValue) : t :=
  {| _id := _id u; doc := <[key := value]> (doc u) |}.

Definition role (u : t) : JsValue := get u "role".

(** [roles.includes(user.role)] *)
Definition roleIn (roles : list string) (u : t) : bool :=
  match role u with
  | JStr r => isIn roles r
  | _ => false
  end.

Definition isAdmin (u : t) : bool := roleIn ["admin"] u.

Definition canApproveLeaves (u : t) : bool :=
  roleIn ["caretaker"; "warden"; "admin"] u.

Definition isStudent (u : t) : bool := roleIn ["student"] u.

Definition isActive (u : t) : bool := truthy (get u "isActive").

Fixpoint endsWith (suffix s : string) : bool :=
  (String.eqb s suffix ||
   match s with
   | EmptyString => false
   | String _ s' => endsWith suffix s'
   end)%bool.

(** Pre-save middleware to validate email domain. *)
Definition preSaveEmail (u : t) : option string :=
  match get u "email" with
  | JStr e =>
      if (negb (String.eqb e "") && negb (endsWith "@nitgoa.ac.in" e))%bool
      then Some "Only NIT Goa email addresses are allowed"
      else None
  | _ => None
  end.

(** Pre-save middleware to validate student-specific fields.  [year] is
    a Number path: what is stored there is a number or nothing. *)
Definition preSaveStudent (u : t) : option string :=
  if isStudent u then
    if negb (truthy (get u "studentId"))
    then Some "Student ID is required for students"
    else
      match get u "year" with
      | JNum y =>
          if ((y =? 0) || (y <? 1) || (4 <? y))%bool
          then Some "Valid year (1-4) is required for students"
          else None
      | _ => Some "Valid year (1-4) is required for students"
      end
  else None.

(** The users collection. *)
Abbreviation Collection := (gmap ObjectId (gmap string JsValue)).

Definition findById (users : Collection) (id : ObjectId) : option t :=
  (fun d => {| _id := id; doc := d |}) <$> users !! id.

End User.

(** ** middleware/auth.js *)

Module Auth.

(** What [jwt.verify] makes of the Authorization header. *)
Inductive Token :=
| NoToken
| JsonWebTokenError
| TokenExpiredError
| OtherVerifyError
| Signed (userId : ObjectId).

Section Middleware.
Context {A : Type}.

Definition authenticateToken (users : User.Collection) (tok : Token)
  : Response A + User.t :=
  match tok with
  | NoToken => inl (respond 401 (Error "Access denied. No token provided."))
  | JsonWebTokenError => inl (respond 401 (Error "Invalid token."))
  | TokenExpiredError => inl (respond 401 (Error "Token expired."))
  | OtherVerifyError => inl (respond 500 (Error "Token verification failed."))
  | Signed userId =>
      match User.findById users userId with
      | None => inl (respond 401 (Error "Invalid token. User not found."))
      | Some user =>
          if negb (User.isActive user)
          then inl (respond 401 (Error "Account is deactivated."))
          else inr user
      end
  end.

Definition requireRole (roles : list string) (user : User.t)
  : Response A + unit :=
  returnIf (negb (User.roleIn roles user))
    (respond 403 (Error "Access denied. Insufficient permissions.")).

Definition requireStudent := requireRole ["student"].
Definition requireApprover := requireRole ["caretaker"; "warden"; "admin"].
Definition requireAdmin := requireRole ["admin"].

Definition canApproveLeave (user : User.t) : Response A + unit :=
  returnIf (negb (User.canApproveLeaves user))
    (respond 403 (Error "Access denied. You cannot approve leave requests.")).

End Middleware.

End Auth.

(** ** models/LeaveRequest.js *)

Module LeaveRequest.

Inductive Status := pending | approved | rejected.
Inductive LeaveType := day | home.

#[global] Instance Status_eq_dec : EqDecision Status.
Proof. solve_decision. Defined.

Record EmergencyContact :=
  { name : string; relationship : string; ecPhone : string }.

Record ContactDetails :=
  { address : string; phone : string; emergencyContact : EmergencyContact }.

(** The paths of a document; its [_id] is the key it is stored under. *)
Record t := {
  student : ObjectId;
  fromDate : Z;
  toDate : Z;
  reason : string;
  type : LeaveType;
  status : Status;
  remarks : option string;
  approvedBy : option ObjectId;
  approvedAt : option Z;
  contactDetails : ContactDetails;
  isUrgent : bool;
  urgentReason : option string
}.

Definition msPerDay : Z := 1000 * 60 * 60 * 24.

(** Virtual for leave duration in days. *)
Definition duration (d : t) : Z :=
  let diffTime := Z.abs (toDate d - fromDate d) in
  let diffDays := (diffTime + msPerDay - 1) / msPerDay in   (* Math.ceil *)
  diffDays + 1.

(** Virtual for isOverdue. *)
Definition isOverdue (now : Z) (d : t) : bool :=
  (bool_decide (status d = pending) && (fromDate d <? now))%bool.

(** [!v] on an optional string: absent or empty. *)
Definition blank (v : option string) : bool :=
  match v with
  | None => true
  | Some s => String.eqb s ""
  end.

Definition longerThan (n : nat) (v : string) : bool :=
  Nat.ltb n (String.length v).

(** The validators of the schema, in the order of its paths; each gives
    the message of its path when the value fails.  A validator other
    than [required] is skipped on an absent value. *)
Definition schemaValidators (clk : Clock) (d : t) : list (bool * string) :=
  [ (fromDate d <? t_validator clk, "From date cannot be in the past");
    (toDate d <? fromDate d, "To date must be after or equal to from date");
    (String.eqb (reason d) "", "Reason is required");
    (longerThan 500 (reason d), "Reason cannot exceed 500 characters");
    (match remarks d with Some r => longerThan 200 r | None => false end,
      "Remarks cannot exceed 200 characters");
    (String.eqb (address (contactDetails d)) "",
      "Address during leave is required");
    (longerThan 300 (address (contactDetails d)),
      "Address cannot exceed 300 characters");
    (negb (isPhone (phone (contactDetails d))),
      "Phone number must be 10 digits");
    (String.eqb (name (emergencyContact (contactDetails d))) "",
      "Emergency contact name is required");
    (longerThan 100 (name (emergencyContact (contactDetails d))),
      "Emergency contact name cannot exceed 100 characters");
    (String.eqb (relationship (emergencyContact (contactDetails d))) "",
      "Emergency contact relationship is required");
    (longerThan 50 (relationship (emergencyContact (contactDetails d))),
      "Relationship cannot exceed 50 characters");
    (negb (isPhone (ecPhone (emergencyContact (contactDetails d)))),
      "Emergency contact phone must be 10 digits");
    (match urgentReason d with Some r => longerThan 200 r | None => false end,
      "Urgent reason cannot exceed 200 characters");
    (match urgentReason d with
     | Some r => if isUrgent d then String.eqb r "" else false
     | None => false
     end, "Urgent reason is required when marking as urgent") ].

Definition validate (clk : Clock) (d : t) : list string :=
  snd <$> filter (fun c => fst c = true) (schemaValidators clk d).

(** Pre-save middleware to validate dates. *)
Definition preSaveDates (clk : Clock) (d : t) : option string :=
  if fromDate d <? t_hook clk then Some "From date cannot be in the past"
  else if toDate d <? fromDate d
       then Some "To date must be after or equal to from date"
       else None.

(** Pre-save middleware to validate urgent requests. *)
Definition preSaveUrgent (d : t) : option string :=
  if (isUrgent d && blank (urgentReason d))%bool
  then Some "Urgent reason is required when marking as urgent"
  else None.

(** What runs before a [save()] writes: validation first, then the two
    hooks in the order they were registered.  [inl] is the error
    [save()] rejects with. *)
Definition preSave (clk : Clock) (d : t) : string + unit :=
  match validate clk d with
  | e :: _ => inl e
  | [] =>
      match preSaveDates clk d with
      | Some e => inl e
      | None =>
          match preSaveUrgent d with
          | Some e => inl e
          | None => inr tt
          end
      end
  end.

(** The leave-requests collection. *)
Abbreviation Collection := (gmap ObjectId t).

(** [save()] of a new document, [id] being its [_id]. *)
Definition create (clk : Clock) (db : Collection) (id : ObjectId) (d : t)
  : string + Collection :=
  _ ← preSave clk d;
  match db !! id with
  | Some _ => inl "E11000 duplicate key error"
  | None => inr (<[id := d]> db)
  end.

(** The paths [approve] and [reject] assign are the modified ones, and
    the only ones the update writes. *)
Definition setModified (d stored : t) : t :=
  {| student := student stored;
     fromDate := fromDate stored; toDate := toDate stored;
     reason := reason stored; type := type stored;
     status := status d; remarks := remarks d;
     approvedBy := approvedBy d; approvedAt := approvedAt d;
     contactDetails := contactDetails stored;
     isUrgent := isUrgent stored; urgentReason := urgentReason stored |}.

(** [save()] of a document that was loaded from the collection under
    [id]. *)
Definition save (clk : Clock) (db : Collection) (id : ObjectId) (d : t)
  : string + Collection :=
  _ ← preSave clk d;
  match db !! id with
  | None => inl "No document found for query"
  | Some stored => inr (<[id := setModified d stored]> db)
  end.

(** The four assignments [approve] and [reject] share;
    [remarks = ''] : the default stands in for [undefined] only. *)
Definition assign (verdict : Status) (clk : Clock) (d : t)
    (approvedBy_ : ObjectId) (remarks_ : option string) : t :=
  {| student := student d;
     fromDate := fromDate d; toDate := toDate d;
     reason := reason d; type := type d;
     status := verdict;
     remarks := Some (default "" remarks_);
     approvedBy := Some approvedBy_;
     approvedAt := Some (t_route clk);
     contactDetails := contactDetails d;
     isUrgent := isUrgent d; urgentReason := urgentReason d |}.

(** Method to approve leave. *)
Definition approve (clk : Clock) (db : Collection) (id : ObjectId) (d : t)
    (approvedBy_ : ObjectId) (remarks_ : option string)
  : string + Collection * t :=
  let d' := assign approved clk d approvedBy_ remarks_ in
  db' ← save clk db id d'; inr (db', d').

(** Method to reject leave. *)
Definition reject (clk : Clock) (db : Collection) (id : ObjectId) (d : t)
    (approvedBy_ : ObjectId) (remarks_ : option string)
  : string + Collection * t :=
  let d' := assign rejected clk d approvedBy_ remarks_ in
  db' ← save clk db id d'; inr (db', d').

(** [LeaveRequest.findById(id)]: [None] when the cast of [id] throws,
    otherwise the [_id] and, if there is one, the document. *)
Definition findById (db : Collection) (id : string)
  : option (ObjectId * option t) :=
  (fun oid => (oid, db !! oid)) <$> castObjectId id.

(** [LeaveRequest.find(query)] *)
Definition find (db : Collection) (query : t -> bool) : list t :=
  filter (fun d => query d = true) (snd <$> map_to_list db).

(** [LeaveRequest.findByIdAndDelete(id)] *)
Definition findByIdAndDelete (db : Collection) (id : ObjectId) : Collection :=
  delete id db.

End LeaveRequest.

(** ** routes/leave.js *)

Module Leave.

(** What [isISO8601()] and [new Date(...)] make of a date field: the
    string fails the validator, or passes it and is no date
    ([new Date] gives an invalid one), or is an instant. *)
Inductive DateInput :=
| NotISO8601
| InvalidDate
| Instant (ms : Z).

Definition isISO8601 (v : DateInput) : bool :=
  match v with NotISO8601 => false | _ => true end.

(** [new Date(v)]: [None] is the invalid date. *)
Definition newDate (v : DateInput) : option Z :=
  match v with Instant ms => Some ms | _ => None end.

(** [a < b] on dates: false as soon as one of them is invalid. *)
Definition dateLt (a b : option Z) : bool :=
  match a, b with
  | Some x, Some y => x <? y
  | _, _ => false
  end.

(** The body of POST /apply.  A text field is absent or a string. *)
Record ApplyBody := {
  fromDate : DateInput;
  toDate : DateInput;
  reason : option string;
  type : option string;
  address : option string;
  phone : option string;
  ecName : option string;
  ecRelationship : option string;
  ecPhone : option string;
  isUrgent : JsValue;
  urgentReason : option string
}.

(** The body of PUT /:id/approve and PUT /:id/reject, with the route
    parameter. *)
Record DecisionRequest := { id : string; remarks : option string }.

Definition str (v : option string) : string := default "" v.

(** One validator of a chain: the error it records when the check fails. *)
Definition check (ok : bool) (field message : string) : list FieldError :=
  if ok then [] else [ {| path := field; msg := message |} ].

(** [.optional()]: the rest of the chain is skipped on an absent field. *)
Definition optional {V} (v : option V) (rest : V -> list FieldError)
  : list FieldError :=
  match v with
  | None => []
  | Some x => rest x
  end.

Definition present (v : JsValue) : option JsValue :=
  if defined v then Some v else None.

Definition applyValidators (b : ApplyBody) : list FieldError :=
  check (isISO8601 (fromDate b)) "fromDate" "Valid from date is required" ++
  check (isISO8601 (toDate b)) "toDate" "Valid to date is required" ++
  check (isLength 10 500 (trim (str (reason b)))) "reason"
    "Reason must be between 10 and 500 characters" ++
  check (isIn ["day"; "home"] (str (type b))) "type"
    "Valid leave type is required" ++
  check (isLength 10 300 (trim (str (address b)))) "contactDetails.address"
    "Address must be between 10 and 300 characters" ++
  check (isPhone (str (phone b))) "contactDetails.phone"
    "Valid phone number is required" ++
  check (isLength 2 100 (trim (str (ecName b))))
    "contactDetails.emergencyContact.name"
    "Emergency contact name is required" ++
  check (isLength 2 50 (trim (str (ecRelationship b))))
    "contactDetails.emergencyContact.relationship"
    "Emergency contact relationship is required" ++
  check (isPhone (str (ecPhone b))) "contactDetails.emergencyContact.phone"
    "Valid emergency contact phone is required" ++
  optional (present (isUrgent b))
    (fun v => check (isBoolean (toString v)) "isUrgent" "Invalid value") ++
  optional (urgentReason b)
    (fun v => check (isLength 0 200 (trim v)) "urgentReason" "Invalid value").

Definition approveValidators (r : DecisionRequest) : list FieldError :=
  check (isMongoId (id r)) "id" "Valid leave request ID is required" ++
  optional (remarks r)
    (fun v => check (isLength 0 200 (trim v)) "remarks" "Invalid value").

Definition rejectValidators (r : DecisionRequest) : list FieldError :=
  check (isMongoId (id r)) "id" "Valid leave request ID is required" ++
  check (isLength 5 200 (trim (str (remarks r)))) "remarks"
    "Rejection remarks are required (5-200 characters)".

(** [const errors = validationResult(req); if (!errors.isEmpty()) ...] *)
Definition validationResult {A} (errs : list FieldError) : Response A + unit :=
  match errs with
  | [] => inr tt
  | _ => inl (respond 400 (Errors errs))
  end.

(** Mongoose's cast to Boolean. *)
Definition castBoolean (v : JsValue) : option bool :=
  match v with
  | JBool b => Some b
  | JNum 1 => Some true
  | JNum 0 => Some false
  | JStr s =>
      if isIn ["true"; "1"; "yes"] s then Some true
      else if isIn ["false"; "0"; "no"] s then Some false
      else None
  | _ => None
  end.

Definition castType (s : string) : option LeaveRequest.LeaveType :=
  if String.eqb s "day" then Some LeaveRequest.day
  else if String.eqb s "home" then Some LeaveRequest.home
  else None.

(** The query of POST /apply:
    [{ student, status: { $in: ['pending', 'approved'] },
       $or: [{ fromDate: { $lte: to }, toDate: { $gte: from } }] }] *)
Definition overlapQuery (studentId : ObjectId) (from to : Z)
    (d : LeaveRequest.t) : bool :=
  ((LeaveRequest.student d =? studentId)%N &&
   bool_decide (LeaveRequest.status d ∈
                  [LeaveRequest.pending; LeaveRequest.approved]) &&
   (LeaveRequest.fromDate d <=? to) &&
   (LeaveRequest.toDate d >=? from))%bool.

(** What a handler sends and what it leaves in the collection; the
    collection is untouched when a step returned early. *)
Definition finish {A} (db : LeaveRequest.Collection)
    (m : Response A + Response A * LeaveRequest.Collection)
  : Response A * LeaveRequest.Collection :=
  match m with
  | inl r => (r, db)
  | inr out => out
  end.

(** A document as a response shows it: with its id. *)
Abbreviation Shown := (ObjectId * LeaveRequest.t)%type.

(** [new LeaveRequest({...})] of POST /apply; the casts of [type] and
    [isUrgent] fail on what the schema cannot hold. *)
Definition newLeaveRequest (studentId : ObjectId) (from to : Z)
    (b : ApplyBody) : option LeaveRequest.t :=
  ty ← castType (str (type b));
  urgent ← castBoolean (if truthy (isUrgent b) then isUrgent b else JBool false);
  Some {| LeaveRequest.student := studentId;
          LeaveRequest.fromDate := from;
          LeaveRequest.toDate := to;
          LeaveRequest.reason := trim (str (reason b));
          LeaveRequest.type := ty;
          LeaveRequest.status := LeaveRequest.pending;
          LeaveRequest.remarks := None;
          LeaveRequest.approvedBy := None;
          LeaveRequest.approvedAt := None;
          LeaveRequest.contactDetails :=
            {| LeaveRequest.address := trim (str (address b));
               LeaveRequest.phone := trim (str (phone b));
               LeaveRequest.emergencyContact :=
                 {| LeaveRequest.name := trim (str (ecName b));
                    LeaveRequest.relationship := trim (str (ecRelationship b));
                    LeaveRequest.ecPhone := trim (str (ecPhone b)) |} |};
          LeaveRequest.isUrgent := urgent;
          LeaveRequest.urgentReason :=
            if truthy (isUrgent b) then trim <$> urgentReason b else None |}.

(** The error responses of POST /apply. *)
Definition applyFailed : Response Shown :=
  respond 500 (Error "Failed to submit leave request").

Definition fromDateError {A} : Response A :=
  respond 400 (Error "From date cannot be in the past").

Definition toDateError {A} : Response A :=
  respond 400 (Error "To date must be after or equal to from date").

Definition overlapError : Response Shown :=
  respond 400 (Error "You have overlapping leave requests for these dates").

(** The date checks of POST /apply, on [fromDateObj], [toDateObj] and
    [now]. *)
Definition dateChecks {A} (from to : option Z) (now : Z) : Response A + unit :=
  _ ← returnIf (dateLt from (Some now)) fromDateError;
  returnIf (dateLt to from) toDateError.

(** Apply for leave (Student only).  [newId] is the [_id] the new
    document is given. *)
Definition apply (clk : Clock) (newId : ObjectId) (users : User.Collection)
    (db : LeaveRequest.Collection) (token : Auth.Token) (b : ApplyBody)
  : Response Shown * LeaveRequest.Collection :=
  finish db (
    user ← Auth.authenticateToken users token;
    _ ← Auth.requireStudent user;
    _ ← validationResult (applyValidators b);
    let studentId := User._id user in
    let fromDateObj := newDate (fromDate b) in
    let toDateObj := newDate (toDate b) in
    let now := t_route clk in
    _ ← dateChecks fromDateObj toDateObj now;
    match fromDateObj, toDateObj with
    | Some from, Some to =>
        let overlappingLeaves :=
          LeaveRequest.find db (overlapQuery studentId from to) in
        _ ← returnIf (0 <? length overlappingLeaves)%nat overlapError;
        match newLeaveRequest studentId from to b with
        | None => inl applyFailed
        | Some leaveRequest =>
            match LeaveRequest.create clk db newId leaveRequest with
            | inl _ => inl applyFailed
            | inr db' =>
                inr (respond 201
                       (Message "Leave request submitted successfully"
                          (newId, leaveRequest)), db')
            end
        end
    | _, _ => inl applyFailed   (* the query cannot cast an invalid date *)
    end).

(** *** PUT /:id/approve and PUT /:id/reject

    Each handler awaits twice on the collection: [findById], then the
    [save()] inside the model method.  The part up to the status check
    and the part from the model method on are kept apart, so that the
    handler is their composition and two requests can be interleaved
    between them. *)

(** What the first part hands to the second: the approver, the [_id],
    the loaded document and the remarks of the body. *)
Record Loaded := {
  approverId : ObjectId;
  leaveId : ObjectId;
  leaveRequest : LeaveRequest.t;
  givenRemarks : option string
}.

Definition notPending {A} : Response A :=
  respond 400 (Error "Leave request is not pending").

Definition loadPending {A} (validators : DecisionRequest -> list FieldError)
    (failed : Response A)
    (users : User.Collection) (db : LeaveRequest.Collection)
    (token : Auth.Token) (r : DecisionRequest) : Response A + Loaded :=
  user ← Auth.authenticateToken users token;
  _ ← Auth.canApproveLeave user;
  _ ← validationResult (validators r);
  match LeaveRequest.findById db (id r) with
  | None => inl failed
  | Some (_, None) => inl (respond 404 (Error "Leave request not found"))
  | Some (oid, Some doc) =>
      _ ← returnIf (negb (bool_decide (LeaveRequest.status doc = LeaveRequest.pending)))
            notPending;
      inr {| approverId := User._id user; leaveId := oid;
             leaveRequest := doc; givenRemarks := remarks r |}
  end.

Definition approveFailed : Response Shown :=
  respond 500 (Error "Failed to approve leave request").

Definition rejectFailed : Response Shown :=
  respond 500 (Error "Failed to reject leave request").

(** From the start of the handler to after the status check; the
    remarks are trimmed by the validation chain when present. *)
Definition approveLoad (users : User.Collection) (db : LeaveRequest.Collection)
    (token : Auth.Token) (r : DecisionRequest) : Response Shown + Loaded :=
  l ← loadPending approveValidators approveFailed users db token r;
  inr {| approverId := approverId l; leaveId := leaveId l;
         leaveRequest := leaveRequest l;
         givenRemarks := trim <$> givenRemarks l |}.

(** [await leaveRequest.approve(approverId, remarks)] and the response. *)
Definition approveStore (clk : Clock) (db : LeaveRequest.Collection)
    (l : Loaded) : Response Shown * LeaveRequest.Collection :=
  match LeaveRequest.approve clk db (leaveId l) (leaveRequest l)
          (approverId l) (givenRemarks l) with
  | inl _ => (approveFailed, db)
  | inr (db', doc) =>
      (respond 200 (Message "Leave request approved successfully"
                      (leaveId l, doc)), db')
  end.

(** Approve leave request. *)
Definition approve (clk : Clock) (users : User.Collection)
    (db : LeaveRequest.Collection) (token : Auth.Token) (r : DecisionRequest)
  : Response Shown * LeaveRequest.Collection :=
  match approveLoad users db token r with
  | inl res => (res, db)
  | inr l => approveStore clk db l
  end.

Definition rejectLoad (users : User.Collection) (db : LeaveRequest.Collection)
    (token : Auth.Token) (r : DecisionRequest) : Response Shown + Loaded :=
  l ← loadPending rejectValidators rejectFailed users db token r;
  inr {| approverId := approverId l; leaveId := leaveId l;
         leaveRequest := leaveRequest l;
         givenRemarks := Some (trim (str (givenRemarks l))) |}.

(** [await leaveRequest.reject(approverId, remarks)] and the response. *)
Definition rejectStore (clk : Clock) (db : LeaveRequest.Collection)
    (l : Loaded) : Response Shown * LeaveRequest.Collection :=
  match LeaveRequest.reject clk db (leaveId l) (leaveRequest l)
          (approverId l) (givenRemarks l) with
  | inl _ => (rejectFailed, db)
  | inr (db', doc) =>
      (respond 200 (Message "Leave request rejected successfully"
                      (leaveId l, doc)), db')
  end.

(** Reject leave request. *)
Definition reject (clk : Clock) (users : User.Collection)
    (db : LeaveRequest.Collection) (token : Auth.Token) (r : DecisionRequest)
  : Response Shown * LeaveRequest.Collection :=
  match rejectLoad users db token r with
  | inl res => (res, db)
  | inr l => rejectStore clk db l
  end.

(** Get leave request details.  The result of the [isMongoId] check on
    the parameter is never read.  [populate] leaves [student] null when
    the user is gone, and the access check dereferences it only after
    its first two conjuncts hold. *)
Definition view (users : User.Collection) (db : LeaveRequest.Collection)
    (token : Auth.Token) (id_ : string) : Response Shown :=
  let failed := respond 500 (Error "Failed to fetch leave request") in
  let res :=
    user ← Auth.authenticateToken users token;
    match LeaveRequest.findById db id_ with
    | None => inl failed
    | Some (_, None) => inl (respond 404 (Error "Leave request not found"))
    | Some (oid, Some doc) =>
        if (negb (User.isAdmin user) && negb (User.canApproveLeaves user))%bool
        then
          match users !! LeaveRequest.student doc with
          | None => inl failed
          | Some _ =>
              if negb (LeaveRequest.student doc =? User._id user)%N
              then inl (respond 403 (Error "Access denied"))
              else inr (respond 200 (Payload (oid, doc)))
          end
        else inr (respond 200 (Payload (oid, doc)))
    end in
  match res with inl r => r | inr r => r end.

(** Cancel leave request (Student only, if pending).  Here too the
    result of the [isMongoId] check is never read. *)
Definition cancel (users : User.Collection) (db : LeaveRequest.Collection)
    (token : Auth.Token) (id_ : string)
  : Response Shown * LeaveRequest.Collection :=
  finish db (
    user ← Auth.authenticateToken users token;
    _ ← Auth.requireStudent user;
    let studentId := User._id user in
    match LeaveRequest.findById db id_ with
    | None => inl (respond 500 (Error "Failed to cancel leave request"))
    | Some (_, None) => inl (respond 404 (Error "Leave request not found"))
    | Some (oid, Some doc) =>
        _ ← returnIf (negb (LeaveRequest.student doc =? studentId)%N)
              (respond 403 (Error "You can only cancel your own leave requests"));
        _ ← returnIf (negb (bool_decide (LeaveRequest.status doc = LeaveRequest.pending)))
              (respond 400 (Error "Only pending leave requests can be cancelled"));
        inr (respond 200 (MessageOnly "Leave request cancelled successfully"),
             LeaveRequest.findByIdAndDelete db oid)
    end).

End Leave.

(** ** PUT /profile of routes/auth.js and of routes/users.js *)

Module Profile.

(** The parsed body: an object, by key. *)
Abbreviation Body := (gmap string JsValue).

(** A field a validation chain names: [body('name')] or
    [body('emergencyContact.name')]. *)
Inductive Path :=
| Top (key : string)
| Nested (key sub : string).

Definition pathName (p : Path) : string :=
  match p with
  | Top key => key
  | Nested key sub => (key ++ "." ++ sub)%string
  end.

Definition getPath (b : Body) (p : Path) : JsValue :=
  match p with
  | Top key => default JUndefined (b !! key)
  | Nested key sub => field (default JUndefined (b !! key)) sub
  end.

Definition setPath (b : Body) (p : Path) (x : JsValue) : Body :=
  match p with
  | Top key => <[key := x]> b
  | Nested key sub =>
      match b !! key with
      | Some o => <[key := setField o sub x]> b
      | None => b
      end
  end.

(** [body(p).optional().trim().isLength({ min, max })]: the trimmed
    string replaces the field. *)
Definition trimLength (p : Path) (min max : nat)
    (st : Body * list FieldError) : Body * list FieldError :=
  match Leave.present (getPath st.1 p) with
  | None => st
  | Some v =>
      let s := trim (toString v) in
      (setPath st.1 p (JStr s),
       (st.2 ++ Leave.check (isLength min max s) (pathName p) "Invalid value")%list)
  end.

(** [body(p).optional().matches(/^[0-9]{10}$/)] *)
Definition matchesPhone (p : Path)
    (st : Body * list FieldError) : Body * list FieldError :=
  match Leave.present (getPath st.1 p) with
  | None => st
  | Some v =>
      (st.1,
       (st.2 ++ Leave.check (isPhone (toString v)) (pathName p) "Invalid value")%list)
  end.

(** The chain of both routes, first validator first. *)
Definition profileValidators (b : Body) : Body * list FieldError :=
  let st := trimLength (Top "name") 2 100 (b, []) in
  let st := matchesPhone (Top "contactNumber") st in
  let st := trimLength (Top "department") 0 100 st in
  let st := trimLength (Top "hostel") 0 100 st in
  let st := trimLength (Top "roomNumber") 0 20 st in
  let st := trimLength (Nested "emergencyContact" "name") 0 100 st in
  let st := trimLength (Nested "emergencyContact" "relationship") 0 50 st in
  matchesPhone (Nested "emergencyContact" "phone") st.

(** The paths of the user schema; a key outside them names no path of
    the document and assigning it stores nothing.  The properties a
    Mongoose document has of its own ([_id], its methods, its internal
    state) are not modelled as keys. *)
Definition schemaPaths : list string :=
  ["name"; "email"; "role"; "studentId"; "department"; "year"; "hostel";
   "roomNumber"; "contactNumber"; "emergencyContact"; "googleId";
   "profilePicture"; "isActive"; "lastLogin"; "createdAt"; "updatedAt"].

Section Routes.

(** Mongoose's part, which the routes do not depend on: what the cast
    and the setters of a path make of an assigned value, and whether
    the validators of the schema accept a document. *)
Variable castPath : string -> JsValue -> JsValue.
Variable schemaValid : User.t -> bool.

(** [if (updateData[key] !== undefined) { user[key] = updateData[key]; }] *)
Definition assignKey (kv : string * JsValue) (user : User.t) : User.t :=
  if defined kv.2 then
    if isIn schemaPaths kv.1
    then User.set user kv.1 (castPath kv.1 kv.2)
    else user
  else user.

(** [Object.keys(updateData).forEach(...)] *)
Definition assignAll (updateData : Body) (user : User.t) : User.t :=
  foldr assignKey user (map_to_list updateData).

(** [user.save()]: validation, then the two hooks. *)
Definition save (users : User.Collection) (user : User.t)
  : string + User.Collection :=
  if negb (schemaValid user) then inl "User validation failed"
  else
    match User.preSaveEmail user with
    | Some e => inl e
    | None =>
        match User.preSaveStudent user with
        | Some e => inl e
        | None => inr (<[User._id user := User.doc user]> users)
        end
    end.

(** The body of both handlers, [strip] being their [delete]s. *)
Definition updateProfile (strip : Body -> Body)
    (users : User.Collection) (token : Auth.Token) (b : Body)
  : Response User.t * User.Collection :=
  let res :=
    user ← Auth.authenticateToken users token;
    _ ← Leave.validationResult (profileValidators b).2;
    let updateData := strip (profileValidators b).1 in
    let user' := assignAll updateData user in
    match save users user' with
    | inl _ => inl (respond 500 (Error "Profile update failed"))
    | inr users' =>
        inr (respond 200 (Message "Profile updated successfully" user'), users')
    end in
  match res with
  | inl r => (r, users)
  | inr out => out
  end.

(** routes/auth.js *)
Definition authStrip (updateData : Body) : Body :=
  delete "googleId" (delete "role" (delete "email" updateData)).

Definition authUpdateProfile := updateProfile authStrip.

(** routes/users.js *)
Definition usersStrip (updateData : Body) : Body :=
  delete "year" (delete "studentId"
    (delete "googleId" (delete "role" (delete "email" updateData)))).

Definition usersUpdateProfile := updateProfile usersStrip.

End Routes.

(** What a profile update must not touch: the email, the role and the
    external identity id of a stored user. *)
Definition identity (doc : gmap string JsValue)
  : option JsValue * option JsValue * option JsValue :=
  (doc !! "email", doc !! "role", doc !! "googleId").

End Profile.

(** ** Two decisions in flight

    Node runs one handler at a time and switches between handlers only
    where one awaits.  A decision handler touches the collection at two
    such points, so a call is in one of three phases and a schedule says
    whose turn it is. *)

Module Interleaving.

Inductive Verdict := Approve | Reject.

Record Call := {
  verdict : Verdict;
  clock : Clock;
  token : Auth.Token;
  request : Leave.DecisionRequest
}.

Inductive Phase :=
| Start
| Holding (l : Leave.Loaded)              (* [findById] has resolved *)
| Sent (res : Response Leave.Shown).

Definition load (users : User.Collection) (db : LeaveRequest.Collection)
    (c : Call) : Response Leave.Shown + Leave.Loaded :=
  match verdict c with
  | Approve => Leave.approveLoad users db (token c) (request c)
  | Reject => Leave.rejectLoad users db (token c) (request c)
  end.

Definition store (db : LeaveRequest.Collection) (c : Call) (l : Leave.Loaded)
  : Response Leave.Shown * LeaveRequest.Collection :=
  match verdict c with
  | Approve => Leave.approveStore (clock c) db l
  | Reject => Leave.rejectStore (clock c) db l
  end.

(** The handler of a call, run without interruption. *)
Definition handler (users : User.Collection) (db : LeaveRequest.Collection)
    (c : Call) : Response Leave.Shown * LeaveRequest.Collection :=
  match verdict c with
  | Approve => Leave.approve (clock c) users db (token c) (request c)
  | Reject => Leave.reject (clock c) users db (token c) (request c)
  end.

(** One turn of a call: up to its next await on the collection. *)
Definition step (users : User.Collection) (c : Call)
    (st : Phase * LeaveRequest.Collection) : Phase * LeaveRequest.Collection :=
  match st.1 with
  | Start =>
      match load users st.2 c with
      | inl res => (Sent res, st.2)
      | inr l => (Holding l, st.2)
      end
  | Holding l => let out := store st.2 c l in (Sent out.1, out.2)
  | Sent _ => st
  end.

Inductive Turn := First | Second.

Record World := {
  first : Phase;
  second : Phase;
  db : LeaveRequest.Collection
}.

Definition turn (users : User.Collection) (c1 c2 : Call)
    (w : World) (t : Turn) : World :=
  match t with
  | First =>
      let st := step users c1 (first w, db w) in
      {| first := st.1; second := second w; db := st.2 |}
  | Second =>
      let st := step users c2 (second w, db w) in
      {| first := first w; second := st.1; db := st.2 |}
  end.

Definition run (users : User.Collection) (c1 c2 : Call)
    (schedule : list Turn) (db0 : LeaveRequest.Collection) : World :=
  foldl (turn users c1 c2) {| first := Start; second := Start; db := db0 |}
    schedule.

(** The response a phase has sent, if it has. *)
Definition sent (p : Phase) : option (Response Leave.Shown) :=
  match p with
  | Sent res => Some res
  | _ => None
  end.

Definition succeeded (p : Phase) : bool :=
  match sent p with
  | Some res => bool_decide (outcome res = Success)
  | None => false
  end.

(** The status a call asks for, and the validation chain of its route. *)
Definition asked (c : Call) : LeaveRequest.Status :=
  match verdict c with
  | Approve => LeaveRequest.approved
  | Reject => LeaveRequest.rejected
  end.

Definition validatorsOf (c : Call) : list FieldError :=
  match verdict c with
  | Approve => Leave.approveValidators (request c)
  | Reject => Leave.rejectValidators (request c)
  end.

(** Each call runs to its end before the other starts. *)
Definition oneAfterTheOther : list Turn := [First; First; Second; Second].

(** Both calls have loaded the request before either saves. *)
Definition readsBeforeWrites : list Turn := [First; Second; First; Second].

End Interleaving.

(** ** The actor of a request *)

(** [token] is a session token of [user], who is in the directory and
    active: what [authenticateToken] lets through. *)
Definition authenticated (users : User.Collection) (token : Auth.Token)
    (user : User.t) : Prop :=
  token = Auth.Signed (User._id user) /\
  User.findById users (User._id user) = Some user /\
  User.isActive user = true.

(** ** The rules of a submission

    The specification speaks of the rules a submission violates and of
    the rules a response names; both are spelled out here, the first
    after the specification, the second after the bodies the handler
    sends. *)

Module Rules.

Inductive Rule :=
| Field (path : string)        (* the validation chain of a body field *)
| FromDateInPast
| ToDateBeforeFromDate
| Overlapping.

#[global] Instance Rule_eq_dec : EqDecision Rule.
Proof. solve_decision. Defined.

Definition fieldRules (errs : list FieldError) : list Rule :=
  (fun e => Field (path e)) <$> errs.

(** The business rules a submission violates, in the order the handler
    looks at them. *)
Definition businessViolated (now : Z) (db : LeaveRequest.Collection)
    (studentId : ObjectId) (b : Leave.ApplyBody) : list Rule :=
  let from := Leave.newDate (Leave.fromDate b) in
  let to := Leave.newDate (Leave.toDate b) in
  (if Leave.dateLt from (Some now) then [FromDateInPast] else []) ++
  (if Leave.dateLt to from then [ToDateBeforeFromDate] else []) ++
  match from, to with
  | Some f, Some t =>
      if (0 <? length (LeaveRequest.find db (Leave.overlapQuery studentId f t)))%nat
      then [Overlapping] else []
  | _, _ => []
  end.

(** Every rule a submission violates. *)
Definition violated (now : Z) (db : LeaveRequest.Collection)
    (studentId : ObjectId) (b : Leave.ApplyBody) : list Rule :=
  fieldRules (Leave.applyValidators b) ++ businessViolated now db studentId b.

(** The rules a response names. *)
Definition reported {A} (res : Response A) : list Rule :=
  match body res with
  | Errors errs => fieldRules errs
  | Error m =>
      if String.eqb m "From date cannot be in the past" then [FromDateInPast]
      else if String.eqb m "To date must be after or equal to from date"
           then [ToDateBeforeFromDate]
      else if String.eqb m "You have overlapping leave requests for these dates"
           then [Overlapping]
      else []
  | _ => []
  end.

End Rules.

(** ** Sample data *)

Module Sample.

Definition person (role_ : string) (email_ : string) : gmap string JsValue :=
  {[ "role" := JStr role_; "email" := JStr email_; "isActive" := JBool true;
     "studentId" := JStr "21CS1001"; "year" := JNum 2;
     "googleId" := JStr "g-100" ]}.

(** Two students, a caretaker and an admin, under the ids 1 to 4. *)
Definition users : User.Collection :=
  {[ 1%N := person "student" "asha@nitgoa.ac.in";
     2%N := person "student" "ravi@nitgoa.ac.in";
     3%N := person "caretaker" "care@nitgoa.ac.in";
     4%N := person "admin" "admin@nitgoa.ac.in" ]}.

Definition asha : User.t :=
  {| User._id := 1%N; User.doc := person "student" "asha@nitgoa.ac.in" |}.
Definition ravi : User.t :=
  {| User._id := 2%N; User.doc := person "student" "ravi@nitgoa.ac.in" |}.
Definition caretaker : User.t :=
  {| User._id := 3%N; User.doc := person "caretaker" "care@nitgoa.ac.in" |}.

Definition contact : LeaveRequest.ContactDetails :=
  {| LeaveRequest.address := "12 Beach Road, Panaji";
     LeaveRequest.phone := "9876543210";
     LeaveRequest.emergencyContact :=
       {| LeaveRequest.name := "Meera"; LeaveRequest.relationship := "Mother";
          LeaveRequest.ecPhone := "9123456780" |} |}.

(** A leave of [owner] from instant 1000 to instant 2000. *)
Definition leave (owner : ObjectId) (st : LeaveRequest.Status) : LeaveRequest.t :=
  {| LeaveRequest.student := owner;
     LeaveRequest.fromDate := 1000; LeaveRequest.toDate := 2000;
     LeaveRequest.reason := "Family function at home";
     LeaveRequest.type := LeaveRequest.home;
     LeaveRequest.status := st;
     LeaveRequest.remarks := None;
     LeaveRequest.approvedBy := None; LeaveRequest.approvedAt := None;
     LeaveRequest.contactDetails := contact;
     LeaveRequest.isUrgent := false; LeaveRequest.urgentReason := None |}.

(** The ids 10, 11 and 12 as route parameters, and one of no document. *)
Definition idA : string := "00000000000000000000000a".
Definition idB : string := "00000000000000000000000b".
Definition idC : string := "00000000000000000000000c".
Definition idNone : string := "0000000000000000000000ff".

(** Asha has a pending, an approved and a rejected request. *)
Definition db : LeaveRequest.Collection :=
  {[ 10%N := leave 1%N LeaveRequest.pending;
     11%N := leave 1%N LeaveRequest.approved;
     12%N := leave 1%N LeaveRequest.rejected ]}.

(** All three readings of the clock at the same instant. *)
Definition at_ (now : Z) : Clock :=
  {| t_route := now; t_validator := now; t_hook := now |}.

Definition decision (id_ : string) (remarks_ : option string)
  : Leave.DecisionRequest :=
  {| Leave.id := id_; Leave.remarks := remarks_ |}.

(** A draft that passes every validator of POST /apply. *)
Definition draft (from to : Leave.DateInput) : Leave.ApplyBody :=
  {| Leave.fromDate := from; Leave.toDate := to;
     Leave.reason := Some "Family function at home";
     Leave.type := Some "home";
     Leave.address := Some "12 Beach Road, Panaji";
     Leave.phone := Some "9876543210";
     Leave.ecName := Some "Meera";
     Leave.ecRelationship := Some "Mother";
     Leave.ecPhone := Some "9123456780";
     Leave.isUrgent := JUndefined;
     Leave.urgentReason := None |}.

(** The same draft marked urgent, with no reason given. *)
Definition urgentDraft : Leave.ApplyBody :=
  {| Leave.fromDate := Leave.Instant 3000; Leave.toDate := Leave.Instant 4000;
     Leave.reason := Some "Family function at home";
     Leave.type := Some "home";
     Leave.address := Some "12 Beach Road, Panaji";
     Leave.phone := Some "9876543210";
     Leave.ecName := Some "Meera";
     Leave.ecRelationship := Some "Mother";
     Leave.ecPhone := Some "9123456780";
     Leave.isUrgent := JBool true;
     Leave.urgentReason := None |}.

(** The caretaker and the admin approve request 10, both before the
    leave starts. *)
Definition caretakerApproves : Interleaving.Call :=
  {| Interleaving.verdict := Interleaving.Approve;
     Interleaving.clock := at_ 500;
     Interleaving.token := Auth.Signed 3%N;
     Interleaving.request := decision idA None |}.

Definition adminApproves : Interleaving.Call :=
  {| Interleaving.verdict := Interleaving.Approve;
     Interleaving.clock := at_ 600;
     Interleaving.token := Auth.Signed 4%N;
     Interleaving.request := decision idA (Some "Approved, safe travels") |}.

Definition adminRejects : Interleaving.Call :=
  {| Interleaving.verdict := Interleaving.Reject;
     Interleaving.clock := at_ 600;
     Interleaving.token := Auth.Signed 4%N;
     Interleaving.request := decision idA (Some "Exams that week") |}.

End Sample.

From stdpp Require Import sorting.

Open Scope Z_scope.

(** ** What the leave handlers keep *)

Module Invariants.

(** A request that counts against new submissions. *)
Definition blocking (d : LeaveRequest.t) : Prop :=
  LeaveRequest.status d = LeaveRequest.pending \/
  LeaveRequest.status d = LeaveRequest.approved.

(** The dates of two requests meet, both ends included. *)
Definition meet (d1 d2 : LeaveRequest.t) : Prop :=
  LeaveRequest.fromDate d1 <= LeaveRequest.toDate d2 /\
  LeaveRequest.fromDate d2 <= LeaveRequest.toDate d1.

(** No student has two pending or approved requests whose dates meet. *)
Definition noOverlap (db : LeaveRequest.Collection) : Prop :=
  forall k1 k2 d1 d2,
    k1 <> k2 ->
    db !! k1 = Some d1 ->
    db !! k2 = Some d2 ->
    LeaveRequest.student d1 = LeaveRequest.student d2 ->
    blocking d1 -> blocking d2 -> ~ meet d1 d2.

(** A document as the handlers leave it: the dates in order, an urgent
    request with its reason, a pending request with no decision recorded
    and a decided one with remarks, approver and instant. *)
Definition consistent (d : LeaveRequest.t) : Prop :=
  LeaveRequest.fromDate d <= LeaveRequest.toDate d /\
  (LeaveRequest.isUrgent d = true ->
   LeaveRequest.blank (LeaveRequest.urgentReason d) = false) /\
  match LeaveRequest.status d with
  | LeaveRequest.pending =>
      LeaveRequest.remarks d = None /\
      LeaveRequest.approvedBy d = None /\
      LeaveRequest.approvedAt d = None
  | _ =>
      is_Some (LeaveRequest.remarks d) /\
      is_Some (LeaveRequest.approvedBy d) /\
      is_Some (LeaveRequest.approvedAt d)
  end.

Definition allConsistent (db : LeaveRequest.Collection) : Prop :=
  forall k d, db !! k = Some d -> consistent d.

(** The paths of a request that no decision may touch. *)
Definition submitted (d : LeaveRequest.t) :=
  (LeaveRequest.student d, LeaveRequest.fromDate d, LeaveRequest.toDate d,
   LeaveRequest.reason d, LeaveRequest.type d, LeaveRequest.contactDetails d,
   LeaveRequest.isUrgent d, LeaveRequest.urgentReason d).

End Invariants.

(** ** More on profiles *)

Module Enrolment.

(** What the user routes, unlike the auth routes, also keep from a
    profile update: the student id and the year. *)
Definition enrolment (doc : gmap string JsValue)
  : option JsValue * option JsValue :=
  (doc !! "studentId", doc !! "year").

End Enrolment.

(** ** The admin routes on users

    PUT /users/:id/role and PUT /users/:id/status of
    [backend/routes/admin.js]. *)

Module Admin.

Definition allRoles : list string := ["student"; "caretaker"; "warden"; "admin"].

Definition roleValidators (id_ : string) (role : JsValue) : list FieldError :=
  Leave.check (isMongoId id_) "id" "Valid user ID is required" ++
  Leave.check (isIn allRoles (toString role)) "role" "Valid role is required".

Definition statusValidators (id_ : string) (isActive : JsValue)
  : list FieldError :=
  Leave.check (isMongoId id_) "id" "Valid user ID is required" ++
  Leave.check (isBoolean (toString isActive)) "isActive" "Valid status is required".

(** What a handler sends and what it leaves in the users collection. *)
Definition finish {A} (users : User.Collection)
    (m : Response A + Response A * User.Collection)
  : Response A * User.Collection :=
  match m with
  | inl r => (r, users)
  | inr out => out
  end.

(** [User.findById(id)] on a route parameter: [None] when the cast of
    [id] throws. *)
Definition findUser (users : User.Collection) (id_ : string)
  : option (option User.t) :=
  User.findById users <$> castObjectId id_.

Section Routes.

(** Mongoose's validation of a user document against the schema. *)
Variable schemaValid : User.t -> bool.

(** Update user role. *)
Definition updateRole (users : User.Collection) (token : Auth.Token)
    (id_ : string) (role : JsValue) : Response User.t * User.Collection :=
  let failed := respond 500 (Error "Failed to update user role") in
  finish users (
    actor ← Auth.authenticateToken users token;
    _ ← Auth.requireAdmin actor;
    _ ← Leave.validationResult (roleValidators id_ role);
    match findUser users id_ with
    | None => inl failed
    | Some None => inl (respond 404 (Error "User not found"))
    | Some (Some user) =>
        _ ← returnIf (User._id user =? User._id actor)%N
              (respond 400 (Error "You cannot change your own role"));
        let user' := User.set user "role" role in
        match Profile.save schemaValid users user' with
        | inl _ => inl failed
        | inr users' =>
            inr (respond 200 (Message "User role updated successfully" user'),
                 users')
        end
    end).

(** Toggle user active status.  The flag is stored as Mongoose casts it;
    the message follows the truthiness of the value in the body. *)
Definition updateStatus (users : User.Collection) (token : Auth.Token)
    (id_ : string) (isActive : JsValue) : Response User.t * User.Collection :=
  let failed := respond 500 (Error "Failed to update user status") in
  finish users (
    actor ← Auth.authenticateToken users token;
    _ ← Auth.requireAdmin actor;
    _ ← Leave.validationResult (statusValidators id_ isActive);
    match findUser users id_ with
    | None => inl failed
    | Some None => inl (respond 404 (Error "User not found"))
    | Some (Some user) =>
        _ ← returnIf (User._id user =? User._id actor)%N
              (respond 400 (Error "You cannot deactivate your own account"));
        match Leave.castBoolean isActive with
        | None => inl failed
        | Some flag =>
            let user' := User.set user "isActive" (JBool flag) in
            match Profile.save schemaValid users user' with
            | inl _ => inl failed
            | inr users' =>
                inr (respond 200
                       (Message (if truthy isActive
                                 then "User activated successfully"
                                 else "User deactivated successfully") user'),
                     users')
            end
        end
    end).

End Routes.

End Admin.

(** ** POST /google of the auth routes *)

Module Login.

(** What Google asserts in a verified ID token. *)
Record Payload := {
  email : string;
  name : JsValue;
  picture : JsValue;
  sub : JsValue
}.

(** What [client.verifyIdToken] makes of the body: there is no token, the
    verification throws (with "Invalid Value" in its message or not), or
    it gives the payload. *)
Inductive IdToken :=
| Missing
| Rejected (invalidValue : bool)
| Verified (p : Payload).

Definition lowerChar (c : ascii) : ascii :=
  let n := nat_of_ascii c in
  if (Nat.leb 65 n && Nat.leb n 90)%bool then ascii_of_nat (n + 32) else c.

Fixpoint toLowerCase (s : string) : string :=
  match s with
  | EmptyString => EmptyString
  | String c s' => String (lowerChar c) (toLowerCase s')
  end.

(** The setters of the [email] path ([lowercase], [trim]), which Mongoose
    applies to what is assigned and to what is queried. *)
Definition emailSetters (e : string) : string := toLowerCase (trim e).

Definition hasEmail (e : string) (u : User.t) : bool :=
  match User.get u "email" with
  | JStr s => String.eqb s e
  | _ => false
  end.

(** [User.findOne({ email })] *)
Definition findOne (users : User.Collection) (email_ : string) : option User.t :=
  head (filter (fun u => hasEmail (emailSetters email_) u = true)
          ((fun kv => {| User._id := kv.1; User.doc := kv.2 |})
             <$> map_to_list users)).

(** [new User({ email, name, googleId, profilePicture: picture,
    role: 'student' })], with the defaults of the schema. *)
Definition newUser (clk : Clock) (newId : ObjectId) (p : Payload) : User.t :=
  {| User._id := newId;
     User.doc :=
       {[ "email" := JStr (emailSetters (email p));
          "name" := name p;
          "googleId" := sub p;
          "profilePicture" := if defined (picture p) then picture p else JStr "";
          "role" := JStr "student";
          "isActive" := JBool true;
          "lastLogin" := JNum (t_route clk) ]} |}.

(** The three assignments on a user who is already stored. *)
Definition touch (clk : Clock) (p : Payload) (user : User.t) : User.t :=
  User.set (User.set (User.set user "googleId" (sub p))
              "profilePicture" (picture p))
    "lastLogin" (JNum (t_route clk)).

(** A response of the route shows the session token and the user. *)
Abbreviation Session := (Auth.Token * User.t)%type.

Section Routes.

Variable schemaValid : User.t -> bool.

(** Google OAuth login.  [newId] is the [_id] a new user would be given.
    No error [save()] rejects with has "Invalid Value" in its message, so
    each of them is answered 500. *)
Definition google (clk : Clock) (newId : ObjectId) (users : User.Collection)
    (idToken : IdToken) : Response Session * User.Collection :=
  let failed := respond 500 (Error "Authentication failed") in
  match idToken with
  | Missing => (respond 400 (Error "Google ID token is required"), users)
  | Rejected true => (respond 400 (Error "Invalid Google ID token"), users)
  | Rejected false => (failed, users)
  | Verified p =>
      if negb (User.endsWith "@nitgoa.ac.in" (email p))
      then (respond 403
              (Error "Only NIT Goa email addresses are allowed (@nitgoa.ac.in)"),
            users)
      else
        let user :=
          match findOne users (email p) with
          | None => newUser clk newId p
          | Some user => touch clk p user
          end in
        match Profile.save schemaValid users user with
        | inl _ => (failed, users)
        | inr users' =>
            (respond 200 (Message "Login successful"
                            (Auth.Signed (User._id user), user)), users')
        end
  end.

End Routes.


End Login.

(** ** GET /my-requests and GET /pending of the leave routes *)

Module Lists.

(** A request as the two lists show it: with its id and its two
    virtuals.  (GET /pending sends fewer of the paths of the request.) *)
Record Item := {
  id : ObjectId;
  request : LeaveRequest.t;
  duration : Z;
  isOverdue : bool
}.

Section Lists.

(** The instant the [timestamps] option recorded when the document was
    created. *)
Variable createdAt : ObjectId -> Z.

(** The instant [new Date()] gives when [isOverdue] is read for the
    i-th request of a list. *)
Variable nows : nat -> Z.

(** [.sort({ createdAt: -1 })] *)
Definition newerFirst (x y : ObjectId * LeaveRequest.t) : Prop :=
  createdAt y.1 <= createdAt x.1.

#[local] Instance newerFirst_dec x y : Decision (newerFirst x y).
Proof. unfold newerFirst. apply _. Defined.

Definition sortNewest (l : list (ObjectId * LeaveRequest.t))
  : list (ObjectId * LeaveRequest.t) :=
  merge_sort newerFirst l.

(** Static method to get pending requests. *)
Definition getPendingRequests (db : LeaveRequest.Collection)
  : list (ObjectId * LeaveRequest.t) :=
  sortNewest
    (filter (fun kv => LeaveRequest.status kv.2 = LeaveRequest.pending)
       (map_to_list db)).

(** Static method to get student requests. *)
Definition getStudentRequests (db : LeaveRequest.Collection)
    (studentId : ObjectId) : list (ObjectId * LeaveRequest.t) :=
  sortNewest
    (filter (fun kv => LeaveRequest.student kv.2 = studentId) (map_to_list db)).

(** [requests.map(req => ({ id: req._id, ..., duration: req.duration,
    isOverdue: req.isOverdue }))] *)
Definition item (i : nat) (kv : ObjectId * LeaveRequest.t) : Item :=
  {| id := kv.1; request := kv.2;
     duration := LeaveRequest.duration kv.2;
     isOverdue := LeaveRequest.isOverdue (nows i) kv.2 |}.

Definition unwrap {A} (m : Response A + Response A) : Response A :=
  match m with
  | inl r => r
  | inr r => r
  end.

(** Get student's leave requests. *)
Definition myRequests (users : User.Collection) (db : LeaveRequest.Collection)
    (token : Auth.Token) : Response (list Item) :=
  unwrap (
    user ← Auth.authenticateToken users token;
    _ ← Auth.requireStudent user;
    inr (respond 200 (Payload (imap item (getStudentRequests db (User._id user)))))).

(** Get pending leave requests (Approvers only). *)
Definition pending (users : User.Collection) (db : LeaveRequest.Collection)
    (token : Auth.Token) : Response (list Item) :=
  unwrap (
    user ← Auth.authenticateToken users token;
    _ ← Auth.canApproveLeave user;
    inr (respond 200 (Payload (imap item (getPendingRequests db))))).

End Lists.

End Lists.

(** ** GET /stats of the user routes, for a student *)

Module Stats.

(** [LeaveRequest.countDocuments(query)] *)
Definition countDocuments (db : LeaveRequest.Collection)
    (query : LeaveRequest.t -> bool) : nat :=
  length (LeaveRequest.find db query).

Definition ofStudent (studentId : ObjectId) (d : LeaveRequest.t) : bool :=
  (LeaveRequest.student d =? studentId)%N.

Definition hasStatus (st : LeaveRequest.Status) (d : LeaveRequest.t) : bool :=
  bool_decide (LeaveRequest.status d = st).

Definition hasType (ty : LeaveRequest.LeaveType) (d : LeaveRequest.t) : bool :=
  match LeaveRequest.type d, ty with
  | LeaveRequest.day, LeaveRequest.day => true
  | LeaveRequest.home, LeaveRequest.home => true
  | _, _ => false
  end.

(** [Math.ceil(diff / (1000 * 60 * 60 * 24))], for a difference of either
    sign. *)
Definition ceilDays (diff : Z) : Z := - ((- diff) / LeaveRequest.msPerDay).

(** The counts of the student statistics.  ([approvalRate], a number
    formatted with [toFixed], is left out.) *)
Record StudentStats := {
  totalRequests : nat;
  approvedRequests : nat;
  rejectedRequests : nat;
  pendingRequests : nat;
  dayLeaves : nat;
  homeLeaves : nat;
  totalDays : Z
}.

Definition approvedLeaves (db : LeaveRequest.Collection) (studentId : ObjectId)
  : list LeaveRequest.t :=
  LeaveRequest.find db
    (fun d => ofStudent studentId d && hasStatus LeaveRequest.approved d)%bool.

Definition studentStats (db : LeaveRequest.Collection) (studentId : ObjectId)
  : StudentStats :=
  {| totalRequests := countDocuments db (ofStudent studentId);
     approvedRequests :=
       countDocuments db
         (fun d => ofStudent studentId d && hasStatus LeaveRequest.approved d)%bool;
     rejectedRequests :=
       countDocuments db
         (fun d => ofStudent studentId d && hasStatus LeaveRequest.rejected d)%bool;
     pendingRequests :=
       countDocuments db
         (fun d => ofStudent studentId d && hasStatus LeaveRequest.pending d)%bool;
     dayLeaves :=
       countDocuments db
         (fun d => ofStudent studentId d && hasStatus LeaveRequest.approved d
                   && hasType LeaveRequest.day d)%bool;
     homeLeaves :=
       countDocuments db
         (fun d => ofStudent studentId d && hasStatus LeaveRequest.approved d
                   && hasType LeaveRequest.home d)%bool;
     totalDays :=
       foldl (fun total leave =>
                total + (ceilDays (LeaveRequest.toDate leave
                                   - LeaveRequest.fromDate leave) + 1))
         0 (approvedLeaves db studentId) |}.

(** The days of the approved leaves as the virtual [duration] counts
    them. *)
Definition durations (db : LeaveRequest.Collection) (studentId : ObjectId) : Z :=
  foldr (fun leave total => LeaveRequest.duration leave + total) 0
    (approvedLeaves db studentId).

End Stats.

(** ** GET /users of the admin routes, page by page *)

Module Paging.

(** [parseInt(x) || d]: [None] stands for NaN, which [parseInt] gives for
    an absent parameter or one that starts with no number; 0 is falsy
    too. *)
Definition orDefault (parsed : option Z) (d : Z) : Z :=
  match parsed with
  | None => d
  | Some n => if n =? 0 then d else n
  end.

(** [Math.ceil(a / b)], [b] not being 0. *)
Definition ceilDiv (a b : Z) : Z := - ((- a) / b).

Record Pagination := {
  currentPage : Z;
  totalPages : Z;
  totalUsers : nat;
  hasNext : bool;
  hasPrev : bool
}.

Definition pagination (page limit : Z) (total : nat) : Pagination :=
  let pages := ceilDiv (Z.of_nat total) limit in
  {| currentPage := page;
     totalPages := pages;
     totalUsers := total;
     hasNext := page <? pages;
     hasPrev := 1 <? page |}.

(** [.skip((page - 1) * limit).limit(limit)] on the documents a query
    matches, in the order of its sort: a negative skip makes the query
    throw, a negative limit is read as its absolute value. *)
Definition window {A} (page limit : Z) (l : list A) : option (list A) :=
  let skip := (page - 1) * limit in
  if skip <? 0 then None
  else Some (take (Z.to_nat (Z.abs limit)) (drop (Z.to_nat skip) l)).

Section Routes.

(** The instant the [timestamps] option recorded for a user, and
    MongoDB's reading of a search string as a regular expression that
    disregards case: the test it makes of a string, or [None] when the
    string is no regular expression and the query throws. *)
Variable createdAt : ObjectId -> Z.
Variable regex : string -> option (string -> bool).

Definition newerFirst (x y : User.t) : Prop :=
  createdAt (User._id y) <= createdAt (User._id x).

#[local] Instance newerFirst_dec x y : Decision (newerFirst x y).
Proof. unfold newerFirst. apply _. Defined.

(** A query parameter counts when it is there and not empty. *)
Definition given (v : option string) : option string :=
  match v with
  | Some s => if String.eqb s "" then None else Some s
  | None => None
  end.

(** [query.role = role] *)
Definition hasRole (role : option string) (u : User.t) : bool :=
  match given role with
  | Some r => match User.role u with JStr s => String.eqb s r | _ => false end
  | None => true
  end.

(** [{ $regex: search, $options: 'i' }] on a path: a value that is no
    string does not match. *)
Definition matchesPath (test : string -> bool) (u : User.t) (key : string)
  : bool :=
  match User.get u key with
  | JStr s => test s
  | _ => false
  end.

(** The query the handler builds, as a test of a user: [None] when the
    search is no regular expression. *)
Definition userQuery (role search : option string) : option (User.t -> bool) :=
  match given search with
  | None => Some (hasRole role)
  | Some s =>
      test ← regex s;
      Some (fun u =>
              hasRole role u
              && existsb (matchesPath test u) ["name"; "email"; "studentId"])%bool
  end.

Definition allUsers (users : User.Collection) : list User.t :=
  (fun kv => {| User._id := kv.1; User.doc := kv.2 |}) <$> map_to_list users.

(** The users a query matches, newest first. *)
Definition matching (users : User.Collection) (query : User.t -> bool)
  : list User.t :=
  merge_sort newerFirst (filter (fun u => query u = true) (allUsers users)).

(** Get all users with pagination.  [page] and [limit] are what
    [parseInt] makes of the two parameters; [role] and [search] are the
    two others, each given once at most, and so a string. *)
Definition listUsers (users : User.Collection) (token : Auth.Token)
    (page limit : option Z) (role search : option string)
  : Response (list User.t * Pagination) :=
  let failed := respond 500 (Error "Failed to fetch users") in
  Lists.unwrap (
    actor ← Auth.authenticateToken users token;
    _ ← Auth.requireAdmin actor;
    let page := orDefault page 1 in
    let limit := orDefault limit 20 in
    match userQuery role search with
    | None => inl failed
    | Some query =>
        let found := matching users query in
        let totalUsers := length found in
        match window page limit found with
        | None => inl failed
        | Some shown =>
            inr (respond 200
                   (Payload (shown, pagination page limit totalUsers)))
        end
    end).

End Routes.

(** The pages 1 to [pages] of a list, one after the other. *)
Definition allPages {A} (pages : nat) (limit : Z) (l : list A) : list A :=
  flat_map (fun i => default [] (window (Z.of_nat (S i)) limit l)) (seq 0 pages).

End Paging.

(** ** requireOwnershipOrAdmin and GET /:id of the user routes *)

Module Ownership.

Definition hexChar (d : N) : ascii :=
  ascii_of_N (if (d <? 10)%N then 48 + d else 87 + d)%N.

(** The last [k] hexadecimal digits of [n], in front of [acc]. *)
Fixpoint hexDigits (k : nat) (n : N) (acc : string) : string :=
  match k with
  | O => acc
  | S k' => hexDigits k' (n / 16)%N (String (hexChar (n mod 16)%N) acc)
  end.

(** [_id.toString()]: the twenty-four hexadecimal digits of the id, in
    lower case. *)
Definition toHexString (oid : ObjectId) : string := hexDigits 24 oid "".

(** [obj[key]] on the parameters of a route or on a parsed body. *)
Definition prop (obj : gmap string JsValue) (key : string) : JsValue :=
  default JUndefined (obj !! key).

(** [a || b] *)
Definition orElse (a b : JsValue) : JsValue := if truthy a then a else b.

(** [s !== v] for a string [s] *)
Definition differs (s : string) (v : JsValue) : bool :=
  match v with
  | JStr s' => negb (String.eqb s s')
  | _ => true
  end.

(** Middleware to check if user can access their own data or is admin.
    [body] is the parsed body of the request, an object. *)
Definition requireOwnershipOrAdmin {A} (resourceUserIdField : string)
    (params body : gmap string JsValue) (user : User.t) : Response A + unit :=
  if User.isAdmin user then inr tt
  else
    let resourceUserId :=
      orElse (prop params resourceUserIdField) (prop body resourceUserIdField) in
    returnIf (differs (toHexString (User._id user)) resourceUserId)
      (respond 403 (Error "Access denied. You can only access your own data.")).

(** Get user by ID.  The route has the one parameter [id], and the
    middleware is built with its default, the field [student]. *)
Definition getUser (users : User.Collection) (token : Auth.Token)
    (id_ : string) (body : gmap string JsValue) : Response User.t :=
  Lists.unwrap (
    actor ← Auth.authenticateToken users token;
    _ ← requireOwnershipOrAdmin "student" {[ "id" := JStr id_ ]} body actor;
    match Admin.findUser users id_ with
    | None => inl (respond 500 (Error "Failed to fetch user"))
    | Some None => inl (respond 404 (Error "User not found"))
    | Some (Some user) => inr (respond 200 (Payload user))
    end).

End Ownership.

(** * Properties *)

Section Basics.

Lemma authenticateToken_ok {A} users token user :
  authenticated users token user ->
  Auth.authenticateToken (A := A) users token = inr user.
Proof.
  intros (-> & Hfind & Hactive). unfold Auth.authenticateToken.
  by rewrite Hfind, Hactive.
Qed.

Lemma authenticateToken_inr {A} users token user :
  Auth.authenticateToken (A := A) users token = inr user ->
  authenticated users token user.
Proof.
  unfold Auth.authenticateToken, authenticated.
  destruct token as [| | | |uid]; try discriminate.
  destruct (User.findById users uid) as [u|] eqn:Hfind; [|discriminate].
  destruct (User.isActive u) eqn:Hactive; [|discriminate].
  intros [= <-].
  assert (User._id u = uid) as Hid.
  { unfold User.findById in Hfind.
    destruct (users !! uid); simplify_eq/=; done. }
  rewrite Hid. done.
Qed.

Lemma findById_cast db id_ oid o :
  LeaveRequest.findById db id_ = Some (oid, o) <->
  castObjectId id_ = Some oid /\ db !! oid = o.
Proof.
  unfold LeaveRequest.findById.
  destruct (castObjectId id_) as [x|]; simpl; split.
  - intros [= -> <-]. done.
  - intros [[= ->] <-]. done.
  - discriminate.
  - intros [? _]. discriminate.
Qed.

Lemma findById_isMongoId db id_ oid o :
  LeaveRequest.findById db id_ = Some (oid, o) -> isMongoId id_ = true.
Proof.
  intros [Hcast _]%findById_cast. unfold castObjectId in Hcast.
  by destruct (isMongoId id_).
Qed.

End Basics.

(** Settles [authenticated] on sample data by evaluation. *)
Ltac evaluate_actor :=
  unfold authenticated; split_and!; vm_compute; reflexivity.

(** Opens a handler: the binds of the early-return chain become matches. *)
Ltac chain :=
  unfold mbind, early_return, returnIf, Leave.finish,
    Leave.validationResult in *; simpl in *.

(** ** Approve and reject *)

Section Outcomes.

Context {A : Type}.

Lemma outcome_success (res : Response A) :
  outcome res = Success <-> status res = 200 \/ status res = 201.
Proof.
  unfold outcome.
  destruct (status res =? 200) eqn:H200; [apply Z.eqb_eq in H200; simpl; tauto|].
  destruct (status res =? 201) eqn:H201; [apply Z.eqb_eq in H201; simpl; tauto|].
  apply Z.eqb_neq in H200, H201. simpl.
  split; [|tauto]. intros H. exfalso.
  repeat (match type of H with
          | context [if ?c then _ else _] => destruct c
          | context [match ?c with _ => _ end] => destruct c
          end; try discriminate).
Qed.

Lemma outcome_failure (res : Response A) :
  status res <> 200 -> status res <> 201 -> outcome res <> Success.
Proof. rewrite outcome_success. tauto. Qed.

Lemma authenticateToken_inl users token (res : Response A) :
  Auth.authenticateToken users token = inl res -> outcome res <> Success.
Proof.
  unfold Auth.authenticateToken. intros H.
  repeat (match type of H with
          | context [match ?x with _ => _ end] => destruct x
          | context [if ?x then _ else _] => destruct x
          end; simplify_eq/=; try done).
Qed.

End Outcomes.

Section Decisions.

Context {A : Type}.
Variable validators : Leave.DecisionRequest -> list FieldError.
Variable failed : Response A.
Hypothesis failed_500 : status failed = 500.

Lemma loadPending_inl users db token r res :
  Leave.loadPending validators failed users db token r = inl res ->
  outcome res <> Success.
Proof using failed_500.
  unfold Leave.loadPending, Auth.canApproveLeave. intros H. chain.
  destruct (Auth.authenticateToken users token) as [res'|user] eqn:Hauth.
  { simplify_eq. by eapply authenticateToken_inl. }
  destruct (User.canApproveLeaves user); simpl in H; [|by simplify_eq].
  destruct (validators r); simpl in H; [|by simplify_eq].
  destruct (LeaveRequest.findById db (Leave.id r)) as [[oid [doc|]]|];
    [|by simplify_eq|].
  - destruct (bool_decide _); simpl in H; by simplify_eq.
  - simplify_eq. apply outcome_failure; rewrite failed_500; done.
Qed.

Lemma loadPending_inr users db token r l :
  Leave.loadPending validators failed users db token r = inr l ->
  exists user,
    authenticated users token user /\
    User.canApproveLeaves user = true /\
    validators r = [] /\
    LeaveRequest.findById db (Leave.id r)
      = Some (Leave.leaveId l, Some (Leave.leaveRequest l)) /\
    LeaveRequest.status (Leave.leaveRequest l) = LeaveRequest.pending /\
    Leave.approverId l = User._id user /\
    Leave.givenRemarks l = Leave.remarks r.
Proof.
  unfold Leave.loadPending, Auth.canApproveLeave. intros H. chain.
  destruct (Auth.authenticateToken users token) as [|user] eqn:Hauth;
    [discriminate|].
  apply authenticateToken_inr in Hauth.
  destruct (User.canApproveLeaves user) eqn:Hcan; simpl in H; [|discriminate].
  destruct (validators r) eqn:Hval; simpl in H; [|discriminate].
  destruct (LeaveRequest.findById db (Leave.id r)) as [[oid [doc|]]|] eqn:Hfind;
    try discriminate.
  destruct (bool_decide (LeaveRequest.status doc = LeaveRequest.pending)) eqn:Hst;
    simpl in H; [|discriminate].
  apply bool_decide_eq_true in Hst. simplify_eq/=. eauto 10.
Qed.

Lemma loadPending_found users db token r user oid doc :
  authenticated users token user ->
  User.canApproveLeaves user = true ->
  validators r = [] ->
  LeaveRequest.findById db (Leave.id r) = Some (oid, Some doc) ->
  Leave.loadPending validators failed users db token r =
    if bool_decide (LeaveRequest.status doc = LeaveRequest.pending)
    then inr {| Leave.approverId := User._id user; Leave.leaveId := oid;
                Leave.leaveRequest := doc;
                Leave.givenRemarks := Leave.remarks r |}
    else inl Leave.notPending.
Proof.
  intros Hauth Hcan Hval Hfind.
  unfold Leave.loadPending, Auth.canApproveLeave. chain.
  rewrite (authenticateToken_ok _ _ _ Hauth), Hcan, Hval, Hfind. simpl.
  by destruct (bool_decide _).
Qed.

Lemma loadPending_decided users db token r oid doc :
  LeaveRequest.findById db (Leave.id r) = Some (oid, Some doc) ->
  LeaveRequest.status doc <> LeaveRequest.pending ->
  exists res,
    Leave.loadPending validators failed users db token r = inl res /\
    outcome res <> Success.
Proof using failed_500.
  intros Hfind Hst.
  destruct (Leave.loadPending validators failed users db token r) as [res|l] eqn:H.
  - exists res. split; [done|]. by eapply loadPending_inl.
  - apply loadPending_inr in H as (_ & _ & _ & _ & Hfind' & Hpend & _).
    rewrite Hfind in Hfind'. by simplify_eq/=.
Qed.

End Decisions.

(** C1.  A request whose stored status is approved or rejected is final:
    approve and reject on it write nothing and do not succeed, whoever
    calls them and with whatever body; an approver whose request passes
    the validators is answered 400 "Leave request is not pending"
    (InvalidTransition).  Conversely approve and reject succeed only on a
    request that is stored with status pending. *)
Theorem decided_request_is_final clk users db token r :
  (forall oid doc,
      LeaveRequest.findById db (Leave.id r) = Some (oid, Some doc) ->
      LeaveRequest.status doc = LeaveRequest.approved \/
      LeaveRequest.status doc = LeaveRequest.rejected ->
      (Leave.approve clk users db token r).2 = db /\
      (Leave.reject clk users db token r).2 = db /\
      outcome (Leave.approve clk users db token r).1 <> Success /\
      outcome (Leave.reject clk users db token r).1 <> Success /\
      forall user,
        authenticated users token user ->
        User.canApproveLeaves user = true ->
        (Leave.approveValidators r = [] ->
         Leave.approve clk users db token r = (Leave.notPending, db) /\
         outcome (Leave.approve clk users db token r).1 = InvalidTransition) /\
        (Leave.rejectValidators r = [] ->
         Leave.reject clk users db token r = (Leave.notPending, db) /\
         outcome (Leave.reject clk users db token r).1 = InvalidTransition)) /\
  (outcome (Leave.approve clk users db token r).1 = Success ->
   exists oid doc,
     LeaveRequest.findById db (Leave.id r) = Some (oid, Some doc) /\
     LeaveRequest.status doc = LeaveRequest.pending) /\
  (outcome (Leave.reject clk users db token r).1 = Success ->
   exists oid doc,
     LeaveRequest.findById db (Leave.id r) = Some (oid, Some doc) /\
     LeaveRequest.status doc = LeaveRequest.pending).
Proof.
  split; [|split].
  - intros oid doc Hfind Hdecided.
    assert (LeaveRequest.status doc <> LeaveRequest.pending) as Hst
      by (destruct Hdecided as [-> | ->]; done).
    destruct (loadPending_decided Leave.approveValidators Leave.approveFailed
                eq_refl users db token r oid doc Hfind Hst) as (ra & Ha & Hna).
    destruct (loadPending_decided Leave.rejectValidators Leave.rejectFailed
                eq_refl users db token r oid doc Hfind Hst) as (rr & Hr & Hnr).
    unfold Leave.approve, Leave.reject, Leave.approveLoad, Leave.rejectLoad.
    rewrite Ha, Hr. simpl. do 4 (split; [done|]).
    intros user Hauth Hcan. split; intros Hval.
    + rewrite (loadPending_found _ _ _ _ _ _ user oid doc) in Ha by done.
      rewrite bool_decide_eq_false_2 in Ha by done. by simplify_eq.
    + rewrite (loadPending_found _ _ _ _ _ _ user oid doc) in Hr by done.
      rewrite bool_decide_eq_false_2 in Hr by done. by simplify_eq.
  - unfold Leave.approve, Leave.approveLoad. intros Hok.
    destruct (Leave.loadPending Leave.approveValidators Leave.approveFailed
                users db token r) as [res|l] eqn:Hload; simpl in Hok.
    + by apply (loadPending_inl Leave.approveValidators Leave.approveFailed eq_refl) in Hload.
    + apply loadPending_inr in Hload as (user & _ & _ & _ & Hfind & Hpend & _).
      eauto.
  - unfold Leave.reject, Leave.rejectLoad. intros Hok.
    destruct (Leave.loadPending Leave.rejectValidators Leave.rejectFailed
                users db token r) as [res|l] eqn:Hload; simpl in Hok.
    + by apply (loadPending_inl Leave.rejectValidators Leave.rejectFailed eq_refl) in Hload.
    + apply loadPending_inr in Hload as (user & _ & _ & _ & Hfind & Hpend & _).
      eauto.
Qed.

Lemma decided_request_is_final_witness :
  Leave.approve (Sample.at_ 500) Sample.users Sample.db (Auth.Signed 3%N)
    (Sample.decision Sample.idB None) = (Leave.notPending, Sample.db).
Proof.
  destruct (decided_request_is_final (Sample.at_ 500) Sample.users Sample.db
              (Auth.Signed 3%N) (Sample.decision Sample.idB None)) as [Hfinal _].
  destruct (Hfinal 11%N (Sample.leave 1%N LeaveRequest.approved))
    as (_ & _ & _ & _ & Happrover).
  - vm_compute. reflexivity.
  - left. reflexivity.
  - destruct (Happrover Sample.caretaker) as [Happrove _].
    + evaluate_actor.
    + vm_compute. reflexivity.
    + apply Happrove. vm_compute. reflexivity.
Defined.

(** ** Cancel and view *)

Lemma requireStudent_pass {A} user :
  User.isStudent user = true -> Auth.requireStudent (A := A) user = inr tt.
Proof.
  unfold Auth.requireStudent, Auth.requireRole, User.isStudent, returnIf.
  by intros ->.
Qed.

Lemma requireStudent_stop {A} user :
  User.isStudent user = false ->
  Auth.requireStudent (A := A) user
    = inl (respond 403 (Error "Access denied. Insufficient permissions.")).
Proof.
  unfold Auth.requireStudent, Auth.requireRole, User.isStudent, returnIf.
  by intros ->.
Qed.

(** C8.  For a student and a stored request: cancelling a request of
    another student is answered 403 (Forbidden), cancelling an own request
    that is not pending is answered 400 "Only pending leave requests can
    be cancelled" (InvalidTransition), both leaving the collection as it
    was; cancelling succeeds exactly when the student owns the request and
    it is pending, and then the document is deleted. *)
Theorem cancel_own_pending_only users db token id_ user oid doc :
  authenticated users token user ->
  User.isStudent user = true ->
  LeaveRequest.findById db id_ = Some (oid, Some doc) ->
  (LeaveRequest.student doc <> User._id user ->
   Leave.cancel users db token id_
     = (respond 403 (Error "You can only cancel your own leave requests"), db) /\
   outcome (Leave.cancel users db token id_).1 = Forbidden) /\
  (LeaveRequest.student doc = User._id user ->
   LeaveRequest.status doc <> LeaveRequest.pending ->
   Leave.cancel users db token id_
     = (respond 400 (Error "Only pending leave requests can be cancelled"), db) /\
   outcome (Leave.cancel users db token id_).1 = InvalidTransition) /\
  (LeaveRequest.student doc = User._id user ->
   LeaveRequest.status doc = LeaveRequest.pending ->
   Leave.cancel users db token id_
     = (respond 200 (MessageOnly "Leave request cancelled successfully"),
        delete oid db) /\
   (Leave.cancel users db token id_).2 !! oid = None) /\
  (outcome (Leave.cancel users db token id_).1 = Success <->
   LeaveRequest.student doc = User._id user /\
   LeaveRequest.status doc = LeaveRequest.pending).
Proof.
  intros Hauth Hstudent Hfind.
  assert (Leave.cancel users db token id_ =
          if negb (LeaveRequest.student doc =? User._id user)%N
          then (respond 403 (Error "You can only cancel your own leave requests"), db)
          else if negb (bool_decide (LeaveRequest.status doc = LeaveRequest.pending))
               then (respond 400 (Error "Only pending leave requests can be cancelled"), db)
               else (respond 200 (MessageOnly "Leave request cancelled successfully"),
                     delete oid db)) as ->.
  { unfold Leave.cancel. chain.
    rewrite (authenticateToken_ok _ _ _ Hauth), (requireStudent_pass _ Hstudent), Hfind.
    simpl. destruct (negb _); [done|]. by destruct (negb _). }
  destruct (N.eqb_spec (LeaveRequest.student doc) (User._id user)) as [Heq|Hne];
    simpl.
  - destruct (decide (LeaveRequest.status doc = LeaveRequest.pending)) as [Hp|Hp].
    + rewrite bool_decide_eq_true_2 by done. simpl.
      repeat split; try done. apply lookup_delete_eq.
    + rewrite bool_decide_eq_false_2 by done. simpl.
      repeat split; try done. by intros [_ ?].
  - repeat split; try done. by intros [? _].
Qed.

Lemma cancel_own_pending_only_witness :
  Leave.cancel Sample.users Sample.db (Auth.Signed 1%N) Sample.idB
    = (respond 400 (Error "Only pending leave requests can be cancelled"),
       Sample.db).
Proof.
  destruct (cancel_own_pending_only Sample.users Sample.db (Auth.Signed 1%N)
              Sample.idB Sample.asha 11%N (Sample.leave 1%N LeaveRequest.approved))
    as (_ & Hdecided & _).
  - evaluate_actor.
  - vm_compute. reflexivity.
  - vm_compute. reflexivity.
  - apply Hdecided; [reflexivity | discriminate].
Defined.

(** C10, as the code has it.  For an authenticated actor and a well-formed
    id under which nothing is stored, view is answered 404 (NotFound)
    whoever the actor is, and so is cancel for a student: the lookup comes
    before the ownership check, and a student who asks for a stored
    request of another student is answered 403 instead, so the two
    answers tell whether the id exists.  For an actor who is not a
    student, cancel is answered 403 by the role gate whatever the id is,
    stored or not, well-formed or not: the role check comes before the
    lookup. *)
Theorem unknown_id_is_not_found users db token user :
  authenticated users token user ->
  (forall id_ oid,
      castObjectId id_ = Some oid ->
      db !! oid = None ->
      Leave.view users db token id_
        = respond 404 (Error "Leave request not found") /\
      outcome (Leave.view users db token id_) = NotFound /\
      (User.isStudent user = true ->
       Leave.cancel users db token id_
         = (respond 404 (Error "Leave request not found"), db) /\
       outcome (Leave.cancel users db token id_).1 = NotFound)) /\
  (User.isStudent user = true ->
   forall id_ oid doc,
     LeaveRequest.findById db id_ = Some (oid, Some doc) ->
     LeaveRequest.student doc <> User._id user ->
     Leave.cancel users db token id_
       = (respond 403 (Error "You can only cancel your own leave requests"), db) /\
     outcome (Leave.cancel users db token id_).1 = Forbidden) /\
  (User.isStudent user = false ->
   forall id_,
     Leave.cancel users db token id_
       = (respond 403 (Error "Access denied. Insufficient permissions."), db) /\
     outcome (Leave.cancel users db token id_).1 = Forbidden).
Proof.
  intros Hauth. split_and!.
  - intros id_ oid Hcast Hnone.
    assert (LeaveRequest.findById db id_ = Some (oid, None)) as Hfind
      by (by apply findById_cast).
    assert (Leave.view users db token id_
            = respond 404 (Error "Leave request not found")) as Hview.
    { unfold Leave.view. chain.
      by rewrite (authenticateToken_ok _ _ _ Hauth), Hfind. }
    rewrite Hview. do 2 (split; [done|]). intros Hrole.
    assert (Leave.cancel users db token id_
            = (respond 404 (Error "Leave request not found"), db)) as ->; [|done].
    unfold Leave.cancel. chain.
    by rewrite (authenticateToken_ok _ _ _ Hauth), (requireStudent_pass _ Hrole),
      Hfind.
  - intros Hrole id_ oid doc Hfind Hother.
    assert (Leave.cancel users db token id_
            = (respond 403 (Error "You can only cancel your own leave requests"),
               db)) as ->; [|done].
    unfold Leave.cancel. chain.
    rewrite (authenticateToken_ok _ _ _ Hauth), (requireStudent_pass _ Hrole),
      Hfind.
    simpl. by destruct (N.eqb_spec (LeaveRequest.student doc) (User._id user)).
  - intros Hrole id_.
    assert (Leave.cancel users db token id_
            = (respond 403 (Error "Access denied. Insufficient permissions."), db))
      as ->; [|done].
    unfold Leave.cancel. chain.
    by rewrite (authenticateToken_ok _ _ _ Hauth), (requireStudent_stop _ Hrole).
Qed.

Lemma unknown_id_is_not_found_witness :
  Leave.view Sample.users Sample.db (Auth.Signed 2%N) Sample.idNone
    = respond 404 (Error "Leave request not found").
Proof.
  destruct (unknown_id_is_not_found Sample.users Sample.db (Auth.Signed 2%N)
              Sample.ravi) as (Hunknown & _).
  - evaluate_actor.
  - destruct (Hunknown Sample.idNone 255%N) as (Hview & _).
    + vm_compute. reflexivity.
    + vm_compute. reflexivity.
    + exact Hview.
Defined.

(** C10 as it is written fails: a caretaker who cancels an id under which
    nothing is stored is answered 403, not 404. *)
Lemma cancel_unknown_id_not_always_not_found :
  ~ (forall users db token id_ user oid,
        authenticated users token user ->
        castObjectId id_ = Some oid ->
        db !! oid = None ->
        outcome (Leave.cancel users db token id_).1 = NotFound).
Proof.
  intros Hclaim.
  specialize (Hclaim Sample.users Sample.db (Auth.Signed 3%N) Sample.idNone
                Sample.caretaker 255%N).
  assert (outcome (Leave.cancel Sample.users Sample.db (Auth.Signed 3%N)
                     Sample.idNone).1 = Forbidden) as Hforbidden
    by (vm_compute; reflexivity).
  rewrite Hclaim in Hforbidden; [discriminate| |vm_compute; reflexivity..].
  evaluate_actor.
Qed.

(** ** Profile updates *)

Section ProfileFrame.

Variable castPath : string -> JsValue -> JsValue.
Variable schemaValid : User.t -> bool.

Lemma assignKey_id kv user :
  User._id (Profile.assignKey castPath kv user) = User._id user.
Proof. unfold Profile.assignKey. by repeat case_match. Qed.

Lemma assignKey_other kv user key :
  kv.1 <> key ->
  User.doc (Profile.assignKey castPath kv user) !! key = User.doc user !! key.
Proof.
  intros Hne. unfold Profile.assignKey. repeat case_match; try done.
  simpl. by rewrite lookup_insert_ne.
Qed.

Lemma assignAll_id updateData user :
  User._id (Profile.assignAll castPath updateData user) = User._id user.
Proof.
  unfold Profile.assignAll.
  induction (map_to_list updateData) as [|kv l IH]; simpl; [done|].
  by rewrite assignKey_id.
Qed.

(** A key that is not in the update data keeps its value. *)
Lemma assignAll_untouched (updateData : gmap string JsValue) user key :
  updateData !! key = None ->
  User.doc (Profile.assignAll castPath updateData user) !! key
    = User.doc user !! key.
Proof.
  intros Hnone. unfold Profile.assignAll.
  assert (forall kv, kv ∈ map_to_list updateData -> kv.1 <> key) as Hkeys.
  { intros [k v] Hin. simpl. intros ->.
    apply elem_of_map_to_list in Hin. congruence. }
  induction (map_to_list updateData) as [|kv l IH]; simpl; [done|].
  rewrite assignKey_other by (apply Hkeys; left).
  apply IH. intros kv' Hin. apply Hkeys. by right.
Qed.

Lemma updateProfile_frame (strip : gmap string JsValue -> gmap string JsValue)
    users token b :
  (forall updateData,
      strip updateData !! "email" = None /\
      strip updateData !! "role" = None /\
      strip updateData !! "googleId" = None) ->
  forall id_ : ObjectId,
    Profile.identity <$>
      (Profile.updateProfile castPath schemaValid strip users token b).2 !! id_
    = Profile.identity <$> users !! id_.
Proof.
  intros Hstrip id_. unfold Profile.updateProfile.
  destruct (Auth.authenticateToken users token) as [|user] eqn:Hauth; [done|].
  apply authenticateToken_inr in Hauth as (_ & Hfind & _).
  generalize (Profile.profileValidators b). intros [body' errs].
  unfold mbind, early_return, Leave.validationResult.
  destruct errs; [|done].
  destruct (Hstrip body') as (He & Hr & Hg).
  cbn [fst snd].
  generalize dependent (strip body'). intros updateData He Hr Hg.
  unfold Profile.save.
  destruct (negb _); [done|].
  destruct (User.preSaveEmail _); [done|].
  destruct (User.preSaveStudent _); [done|].
  cbn [fst snd]. rewrite assignAll_id.
  destruct (decide (User._id user = id_)) as [<-|Hne].
  - rewrite lookup_insert_eq.
    unfold User.findById in Hfind.
    destruct (users !! User._id user) as [stored|] eqn:Hstored; [|done].
    cbn in Hfind.
    assert (User.doc user = stored) as <- by (injection Hfind as <-; reflexivity).
    unfold Profile.identity. cbn [fmap option_fmap option_map].
    by rewrite !assignAll_untouched.
  - by rewrite lookup_insert_ne.
Qed.

Lemma authStrip_spec (updateData : gmap string JsValue) :
  Profile.authStrip updateData !! "email" = None /\
  Profile.authStrip updateData !! "role" = None /\
  Profile.authStrip updateData !! "googleId" = None.
Proof.
  unfold Profile.authStrip. repeat split.
  - rewrite !lookup_delete_ne by done. apply lookup_delete_eq.
  - rewrite lookup_delete_ne by done. apply lookup_delete_eq.
  - apply lookup_delete_eq.
Qed.

Lemma usersStrip_spec (updateData : gmap string JsValue) :
  Profile.usersStrip updateData !! "email" = None /\
  Profile.usersStrip updateData !! "role" = None /\
  Profile.usersStrip updateData !! "googleId" = None.
Proof.
  unfold Profile.usersStrip. rewrite !(lookup_delete_ne _ "year") by done.
  rewrite !(lookup_delete_ne _ "studentId") by done. apply authStrip_spec.
Qed.

End ProfileFrame.

(** C9.  Whatever the body of PUT /profile holds, and whether the update
    is saved or refused, every stored user keeps the email, the role and
    the external identity id it had; this holds for the handler of the
    auth routes and for the handler of the users routes. *)
Theorem profile_update_keeps_identity
    (castPath : string -> JsValue -> JsValue) (schemaValid : User.t -> bool)
    (users : User.Collection) (token : Auth.Token) (b : gmap string JsValue)
    (id_ : ObjectId) :
  Profile.identity <$>
    (Profile.authUpdateProfile castPath schemaValid users token b).2 !! id_
    = Profile.identity <$> users !! id_ /\
  Profile.identity <$>
    (Profile.usersUpdateProfile castPath schemaValid users token b).2 !! id_
    = Profile.identity <$> users !! id_.
Proof.
  split; apply updateProfile_frame; [apply authStrip_spec | apply usersStrip_spec].
Qed.

(** ** Submissions *)

Lemma find_elem db (query : LeaveRequest.t -> bool) d :
  d ∈ LeaveRequest.find db query <->
  exists k, db !! k = Some d /\ query d = true.
Proof.
  unfold LeaveRequest.find. rewrite list_elem_of_filter, list_elem_of_fmap.
  split.
  - intros (Hq & [k d'] & -> & Hin). apply elem_of_map_to_list in Hin. eauto.
  - intros (k & Hk & Hq). split; [done|]. exists (k, d). split; [done|].
    by apply elem_of_map_to_list.
Qed.

Lemma find_some db (query : LeaveRequest.t -> bool) :
  (0 <? length (LeaveRequest.find db query))%nat = true <->
  exists k d, db !! k = Some d /\ query d = true.
Proof.
  rewrite Nat.ltb_lt. split.
  - destruct (LeaveRequest.find db query) as [|d l] eqn:Hfind; simpl; [lia|].
    intros _. assert (d ∈ LeaveRequest.find db query) as Hin
      by (rewrite Hfind; left).
    apply find_elem in Hin as (k & ? & ?). eauto.
  - intros (k & d & Hk & Hq).
    assert (d ∈ LeaveRequest.find db query) as Hin by (apply find_elem; eauto).
    destruct (LeaveRequest.find db query); simpl; [|lia].
    by apply not_elem_of_nil in Hin.
Qed.

(** The handler of POST /apply for a student, as a decision table. *)
Lemma apply_table clk newId users db token b user :
  authenticated users token user ->
  User.isStudent user = true ->
  Leave.apply clk newId users db token b =
    let from := Leave.newDate (Leave.fromDate b) in
    let to := Leave.newDate (Leave.toDate b) in
    match Leave.applyValidators b with
    | e :: errs => (respond 400 (Errors (e :: errs)), db)
    | [] =>
        if Leave.dateLt from (Some (t_route clk)) then (Leave.fromDateError, db)
        else if Leave.dateLt to from then (Leave.toDateError, db)
        else
          match from, to with
          | Some f, Some t =>
              if (0 <? length (LeaveRequest.find db
                                 (Leave.overlapQuery (User._id user) f t)))%nat
              then (Leave.overlapError, db)
              else
                match Leave.newLeaveRequest (User._id user) f t b with
                | None => (Leave.applyFailed, db)
                | Some leaveRequest =>
                    match LeaveRequest.create clk db newId leaveRequest with
                    | inl _ => (Leave.applyFailed, db)
                    | inr db' =>
                        (respond 201
                           (Message "Leave request submitted successfully"
                              (newId, leaveRequest)), db')
                    end
                end
          | _, _ => (Leave.applyFailed, db)
          end
    end.
Proof.
  intros Hauth Hstudent. unfold Leave.apply.
  rewrite (authenticateToken_ok _ _ _ Hauth).
  unfold mbind at 1, early_return at 1.
  rewrite (requireStudent_pass _ Hstudent).
  unfold mbind at 1, early_return at 1.
  destruct (Leave.applyValidators b) as [|e errs]; [|reflexivity].
  unfold Leave.validationResult, Leave.dateChecks, returnIf.
  unfold mbind, early_return, Leave.finish. cbv zeta.
  destruct (Leave.dateLt _ (Some _)); [reflexivity|].
  destruct (Leave.dateLt _ _); [reflexivity|].
  destruct (Leave.newDate (Leave.fromDate b)) as [f|]; [|reflexivity].
  destruct (Leave.newDate (Leave.toDate b)) as [t|]; [|reflexivity].
  destruct (0 <? _)%nat; [reflexivity|].
  destruct (Leave.newLeaveRequest _ _ _ _); [|reflexivity].
  by destruct (LeaveRequest.create _ _ _ _).
Qed.

Lemma overlapQuery_true studentId from to d :
  Leave.overlapQuery studentId from to d = true <->
  LeaveRequest.student d = studentId /\
  (LeaveRequest.status d = LeaveRequest.pending \/
   LeaveRequest.status d = LeaveRequest.approved) /\
  LeaveRequest.fromDate d <= to /\
  LeaveRequest.toDate d >= from.
Proof.
  unfold Leave.overlapQuery.
  rewrite !andb_true_iff, N.eqb_eq, bool_decide_eq_true, Z.leb_le, Z.geb_le.
  rewrite !elem_of_cons, elem_of_nil. intuition lia.
Qed.

Lemma rejected_never_matches studentId from to d :
  LeaveRequest.status d = LeaveRequest.rejected ->
  Leave.overlapQuery studentId from to d = false.
Proof.
  intros Hst. apply not_true_iff_false. rewrite overlapQuery_true, Hst.
  intros (_ & [?|?] & _); discriminate.
Qed.

(** C3.  When a student already has a pending or approved request whose
    dates meet those of the draft (existing.from <= draft.to and
    existing.to >= draft.from), POST /apply is answered 400
    (ValidationError) and the collection stays as it was; when the draft
    passes the validators and the date checks, the answer is the overlap
    error itself.  When the only requests of the student that meet the
    draft are rejected ones, the answer is not the overlap error. *)
Theorem overlapping_submission_is_refused clk newId users db token b user from to :
  authenticated users token user ->
  User.isStudent user = true ->
  Leave.fromDate b = Leave.Instant from ->
  Leave.toDate b = Leave.Instant to ->
  ((exists k d,
       db !! k = Some d /\
       LeaveRequest.student d = User._id user /\
       (LeaveRequest.status d = LeaveRequest.pending \/
        LeaveRequest.status d = LeaveRequest.approved) /\
       LeaveRequest.fromDate d <= to /\
       LeaveRequest.toDate d >= from) ->
   outcome (Leave.apply clk newId users db token b).1 = ValidationError /\
   (Leave.apply clk newId users db token b).2 = db /\
   (Leave.applyValidators b = [] -> t_route clk <= from -> from <= to ->
    (Leave.apply clk newId users db token b).1 = Leave.overlapError)) /\
  ((forall k d,
       db !! k = Some d ->
       LeaveRequest.student d = User._id user ->
       LeaveRequest.fromDate d <= to ->
       LeaveRequest.toDate d >= from ->
       LeaveRequest.status d = LeaveRequest.rejected) ->
   (Leave.apply clk newId users db token b).1 <> Leave.overlapError).
Proof.
  intros Hauth Hstudent Hfrom Hto.
  rewrite (apply_table _ _ _ _ _ _ _ Hauth Hstudent), Hfrom, Hto.
  cbn [Leave.newDate Leave.dateLt]. cbv zeta. split.
  - intros (k & d & Hk & Hd).
    assert ((0 <? length (LeaveRequest.find db
                            (Leave.overlapQuery (User._id user) from to)))%nat
            = true) as ->.
    { apply find_some. exists k, d. split; [done|]. by apply overlapQuery_true. }
    destruct (Leave.applyValidators b); [|done].
    destruct (Z.ltb_spec from (t_route clk)); [split_and!; try done; lia|].
    destruct (Z.ltb_spec to from); [split_and!; try done; lia|]. done.
  - intros Hrejected.
    assert ((0 <? length (LeaveRequest.find db
                            (Leave.overlapQuery (User._id user) from to)))%nat
            = false) as ->.
    { apply not_true_iff_false. rewrite find_some. intros (k & d & Hk & Hq).
      pose proof Hq as (Hs & _ & Hf & Ht)%overlapQuery_true.
      rewrite (rejected_never_matches _ _ _ d) in Hq; [done|]. eauto. }
    destruct (Leave.applyValidators b); [|done].
    destruct (from <? t_route clk); [done|].
    destruct (to <? from); [done|].
    destruct (Leave.newLeaveRequest _ _ _ _); [|done].
    by destruct (LeaveRequest.create _ _ _ _).
Qed.

Lemma overlapping_submission_is_refused_witness :
  (Leave.apply (Sample.at_ 100) 20%N Sample.users Sample.db (Auth.Signed 1%N)
     (Sample.draft (Leave.Instant 1500) (Leave.Instant 2500))).1
    = Leave.overlapError.
Proof.
  destruct (overlapping_submission_is_refused (Sample.at_ 100) 20%N Sample.users
              Sample.db (Auth.Signed 1%N)
              (Sample.draft (Leave.Instant 1500) (Leave.Instant 2500))
              Sample.asha 1500 2500) as [Hblocked _].
  - evaluate_actor.
  - vm_compute. reflexivity.
  - reflexivity.
  - reflexivity.
  - destruct Hblocked as (_ & _ & Hoverlap).
    + exists 10%N, (Sample.leave 1%N LeaveRequest.pending).
      split; [vm_compute; reflexivity|]. simpl. split_and!; [done|by left|lia..].
    + apply Hoverlap; [vm_compute; reflexivity|simpl; lia..].
Defined.

(** C6.  For a student whose draft gives two instants: when [fromDate] is
    earlier than the [now] the handler reads, or [toDate] earlier than
    [fromDate], POST /apply is answered 400 (ValidationError) and the
    collection stays as it was; otherwise the date checks of the handler
    pass and the answer is neither of the two date errors. *)
Theorem bad_dates_are_refused clk newId users db token b user from to :
  authenticated users token user ->
  User.isStudent user = true ->
  Leave.fromDate b = Leave.Instant from ->
  Leave.toDate b = Leave.Instant to ->
  (from < t_route clk \/ to < from ->
   outcome (Leave.apply clk newId users db token b).1 = ValidationError /\
   (Leave.apply clk newId users db token b).2 = db) /\
  (t_route clk <= from /\ from <= to ->
   Leave.dateChecks (A := Leave.Shown) (Some from) (Some to) (t_route clk) = inr tt /\
   (Leave.apply clk newId users db token b).1 <> Leave.fromDateError /\
   (Leave.apply clk newId users db token b).1 <> Leave.toDateError).
Proof.
  intros Hauth Hstudent Hfrom Hto.
  rewrite (apply_table _ _ _ _ _ _ _ Hauth Hstudent), Hfrom, Hto.
  unfold Leave.dateChecks, returnIf.
  cbn [Leave.newDate Leave.dateLt]. cbv zeta. split.
  - intros Hbad. destruct (Leave.applyValidators b); [|done].
    destruct (Z.ltb_spec from (t_route clk)); [done|].
    destruct (Z.ltb_spec to from); [done|]. lia.
  - intros [Hnow Horder].
    destruct (Z.ltb_spec from (t_route clk)); [lia|].
    destruct (Z.ltb_spec to from); [lia|].
    split; [done|].
    destruct (Leave.applyValidators b); [|done].
    destruct (0 <? _)%nat; [done|].
    destruct (Leave.newLeaveRequest _ _ _ _); [|done].
    by destruct (LeaveRequest.create _ _ _ _).
Qed.

Lemma bad_dates_are_refused_witness :
  outcome (Leave.apply (Sample.at_ 5000) 20%N Sample.users Sample.db
             (Auth.Signed 2%N)
             (Sample.draft (Leave.Instant 3000) (Leave.Instant 6000))).1
    = ValidationError /\
  (Leave.apply (Sample.at_ 100) 20%N Sample.users Sample.db (Auth.Signed 2%N)
     (Sample.draft (Leave.Instant 3000) (Leave.Instant 6000))).1
    <> Leave.fromDateError.
Proof.
  split.
  - destruct (bad_dates_are_refused (Sample.at_ 5000) 20%N Sample.users
                Sample.db (Auth.Signed 2%N)
                (Sample.draft (Leave.Instant 3000) (Leave.Instant 6000))
                Sample.ravi 3000 6000) as [Hbad _].
    + evaluate_actor.
    + vm_compute. reflexivity.
    + reflexivity.
    + reflexivity.
    + apply Hbad. left. simpl. lia.
  - destruct (bad_dates_are_refused (Sample.at_ 100) 20%N Sample.users
                Sample.db (Auth.Signed 2%N)
                (Sample.draft (Leave.Instant 3000) (Leave.Instant 6000))
                Sample.ravi 3000 6000) as [_ Hgood].
    + evaluate_actor.
    + vm_compute. reflexivity.
    + reflexivity.
    + reflexivity.
    + apply Hgood. simpl. lia.
Defined.

(** C4, as the code has it.  For a student, the response names every
    violated field rule when there is one, and then no business rule;
    when no field rule is violated it names the first violated business
    rule only (past from-date, then to-date before from-date, then
    overlap).  Whenever some rule is violated the answer is 400
    (ValidationError) and the collection stays as it was. *)
Theorem violations_reported clk newId users db token b user :
  authenticated users token user ->
  User.isStudent user = true ->
  Rules.reported (Leave.apply clk newId users db token b).1 =
    match Leave.applyValidators b with
    | [] => take 1 (Rules.businessViolated (t_route clk) db (User._id user) b)
    | errs => Rules.fieldRules errs
    end /\
  (Rules.violated (t_route clk) db (User._id user) b <> [] ->
   outcome (Leave.apply clk newId users db token b).1 = ValidationError /\
   (Leave.apply clk newId users db token b).2 = db).
Proof.
  intros Hauth Hstudent.
  rewrite (apply_table _ _ _ _ _ _ _ Hauth Hstudent).
  unfold Rules.violated, Rules.businessViolated. cbv zeta.
  destruct (Leave.applyValidators b) as [|e errs]; [|done].
  destruct (Leave.dateLt _ (Some _)); [done|].
  destruct (Leave.dateLt _ _); [done|].
  destruct (Leave.newDate (Leave.fromDate b)) as [f|]; [|done].
  destruct (Leave.newDate (Leave.toDate b)) as [t|]; [|done].
  destruct (0 <? _)%nat; [done|].
  destruct (Leave.newLeaveRequest _ _ _ _); [|done].
  by destruct (LeaveRequest.create _ _ _ _).
Qed.

Lemma violations_reported_witness :
  Rules.reported
    (Leave.apply (Sample.at_ 100) 20%N Sample.users Sample.db (Auth.Signed 1%N)
       (Sample.draft (Leave.Instant 50) (Leave.Instant 40))).1
  = [Rules.FromDateInPast].
Proof.
  destruct (violations_reported (Sample.at_ 100) 20%N Sample.users Sample.db
              (Auth.Signed 1%N) (Sample.draft (Leave.Instant 50) (Leave.Instant 40))
              Sample.asha) as [Hreported _].
  - evaluate_actor.
  - vm_compute. reflexivity.
  - rewrite Hreported. vm_compute. reflexivity.
Defined.

(** C4 as it is written fails: a draft whose from-date is in the past and
    whose to-date is before its from-date violates two rules, and the
    response names the first only. *)
Lemma violations_not_all_reported :
  ~ (forall clk newId users db token b user,
        authenticated users token user ->
        User.isStudent user = true ->
        (1 < length (Rules.violated (t_route clk) db (User._id user) b))%nat ->
        forall rule,
          rule ∈ Rules.violated (t_route clk) db (User._id user) b ->
          rule ∈ Rules.reported (Leave.apply clk newId users db token b).1).
Proof.
  intros Hclaim.
  specialize (Hclaim (Sample.at_ 100) 20%N Sample.users Sample.db
                (Auth.Signed 1%N)
                (Sample.draft (Leave.Instant 50) (Leave.Instant 40)) Sample.asha).
  assert (Rules.violated (t_route (Sample.at_ 100)) Sample.db
            (User._id Sample.asha)
            (Sample.draft (Leave.Instant 50) (Leave.Instant 40))
          = [Rules.FromDateInPast; Rules.ToDateBeforeFromDate]) as Hviolated
    by (vm_compute; reflexivity).
  assert (Rules.reported
            (Leave.apply (Sample.at_ 100) 20%N Sample.users Sample.db
               (Auth.Signed 1%N)
               (Sample.draft (Leave.Instant 50) (Leave.Instant 40))).1
          = [Rules.FromDateInPast]) as Hreported
    by (vm_compute; reflexivity).
  rewrite Hviolated, Hreported in Hclaim.
  specialize (Hclaim ltac:(evaluate_actor)
                ltac:(vm_compute; reflexivity) ltac:(simpl; lia)
                Rules.ToDateBeforeFromDate ltac:(set_solver)).
  apply list_elem_of_singleton in Hclaim. discriminate.
Qed.

(** ** Urgent requests *)

(** A document marked urgent without a reason is refused by [save()],
    whatever else holds of it. *)
Lemma preSave_urgent_blank clk d :
  LeaveRequest.isUrgent d = true ->
  LeaveRequest.blank (LeaveRequest.urgentReason d) = true ->
  exists e, LeaveRequest.preSave clk d = inl e.
Proof.
  intros Hurgent Hblank. unfold LeaveRequest.preSave.
  destruct (LeaveRequest.validate clk d); [|eauto].
  destruct (LeaveRequest.preSaveDates clk d); [eauto|].
  unfold LeaveRequest.preSaveUrgent. rewrite Hurgent, Hblank. eauto.
Qed.

(** A document that is not marked urgent passes the urgency hook with or
    without a reason. *)
Lemma preSaveUrgent_unset d :
  LeaveRequest.isUrgent d = false -> LeaveRequest.preSaveUrgent d = None.
Proof. unfold LeaveRequest.preSaveUrgent. by intros ->. Qed.

(** The urgency rule reaches the student as a 500: the handler has no
    check of its own for it, and the error of [save()] ends in the
    catch-all. *)
Lemma urgent_without_reason_route clk newId users db token b user :
  authenticated users token user ->
  User.isStudent user = true ->
  Leave.castBoolean (if truthy (Leave.isUrgent b) then Leave.isUrgent b
                     else JBool false) = Some true ->
  LeaveRequest.blank (trim <$> Leave.urgentReason b) = true ->
  (Leave.apply clk newId users db token b).2 = db /\
  (Rules.violated (t_route clk) db (User._id user) b = [] ->
   status (Leave.apply clk newId users db token b).1 = 500).
Proof.
  intros Hauth Hstudent Hcast Hblank.
  rewrite (apply_table _ _ _ _ _ _ _ Hauth Hstudent).
  unfold Rules.violated, Rules.businessViolated. cbv zeta.
  destruct (Leave.applyValidators b) as [|e errs]; [|done].
  destruct (Leave.dateLt _ (Some _)); [done|].
  destruct (Leave.dateLt _ _); [done|].
  destruct (Leave.newDate (Leave.fromDate b)) as [f|]; [|done].
  destruct (Leave.newDate (Leave.toDate b)) as [t|]; [|done].
  destruct (0 <? _)%nat; [done|].
  destruct (Leave.newLeaveRequest _ _ _ _) as [lr|] eqn:Hnew; [|done].
  assert (LeaveRequest.isUrgent lr = true /\
          LeaveRequest.blank (LeaveRequest.urgentReason lr) = true) as [Hu Hb].
  { unfold Leave.newLeaveRequest in Hnew.
    destruct (Leave.castType _); [|done]. cbn in Hnew. rewrite Hcast in Hnew.
    cbn in Hnew. injection Hnew as <-. cbn.
    destruct (truthy (Leave.isUrgent b)); [done|]. by cbn in Hcast. }
  unfold LeaveRequest.create.
  destruct (preSave_urgent_blank clk lr Hu Hb) as [e ->]. done.
Qed.

(** C7 at a failing input.  Ravi submits a draft that passes every
    validator of the route, lies in the future and overlaps nothing, marked
    urgent with no reason.  [save()] rejects with "Urgent reason is
    required when marking as urgent"; the answer is 500 "Failed to submit
    leave request", an internal failure and not a validation error.
    Nothing is stored. *)
Theorem urgent_without_reason_is_answered_500 :
  Leave.apply (Sample.at_ 100) 20%N Sample.users Sample.db (Auth.Signed 2%N)
    Sample.urgentDraft = (Leave.applyFailed, Sample.db) /\
  outcome (Leave.apply (Sample.at_ 100) 20%N Sample.users Sample.db
             (Auth.Signed 2%N) Sample.urgentDraft).1 = InternalFailure /\
  Rules.violated 100 Sample.db 2%N Sample.urgentDraft = [] /\
  (exists leaveRequest,
      Leave.newLeaveRequest 2%N 3000 4000 Sample.urgentDraft = Some leaveRequest /\
      LeaveRequest.create (Sample.at_ 100) Sample.db 20%N leaveRequest
        = inl "Urgent reason is required when marking as urgent").
Proof.
  split; [vm_compute; reflexivity|].
  split; [vm_compute; reflexivity|].
  split; [vm_compute; reflexivity|].
  eexists. split; [vm_compute; reflexivity|].
  vm_compute. reflexivity.
Qed.

(** ** Remarks *)

(** Rejecting with remarks that are absent, empty or shorter than five
    characters once trimmed is answered 400 with the error of the
    [remarks] chain, and writes nothing. *)
Lemma reject_needs_remarks clk users db token r user :
  authenticated users token user ->
  User.canApproveLeaves user = true ->
  isLength 5 200 (trim (Leave.str (Leave.remarks r))) = false ->
  Leave.reject clk users db token r
    = (respond 400 (Errors (Leave.rejectValidators r)), db) /\
  outcome (Leave.reject clk users db token r).1 = ValidationError.
Proof.
  intros Hauth Hcan Hshort.
  assert (exists e errs, Leave.rejectValidators r = e :: errs) as (e & errs & Hval).
  { unfold Leave.rejectValidators. rewrite Hshort.
    destruct (Leave.check (isMongoId (Leave.id r)) _ _); simpl; eauto. }
  unfold Leave.reject, Leave.rejectLoad, Leave.loadPending, Auth.canApproveLeave.
  unfold mbind, early_return, returnIf, Leave.validationResult.
  rewrite (authenticateToken_ok _ _ _ Hauth), Hcan, Hval. done.
Qed.

(** A pending request whose from-date has passed when the hook runs
    cannot be approved: [save()] rejects and the answer is 500. *)
Lemma approve_overdue clk users db token r user oid doc :
  authenticated users token user ->
  User.canApproveLeaves user = true ->
  Leave.approveValidators r = [] ->
  LeaveRequest.findById db (Leave.id r) = Some (oid, Some doc) ->
  LeaveRequest.status doc = LeaveRequest.pending ->
  LeaveRequest.fromDate doc < t_hook clk ->
  Leave.approve clk users db token r = (Leave.approveFailed, db).
Proof.
  intros Hauth Hcan Hval Hfind Hpending Hpast.
  unfold Leave.approve, Leave.approveLoad.
  rewrite (loadPending_found _ _ _ _ _ _ user oid doc) by done.
  rewrite bool_decide_eq_true_2 by done.
  unfold Leave.approveStore, LeaveRequest.approve, LeaveRequest.save.
  cbn [mbind early_return Leave.leaveId Leave.leaveRequest Leave.approverId
       Leave.givenRemarks].
  unfold LeaveRequest.preSave.
  destruct (LeaveRequest.validate clk _); [|done].
  unfold LeaveRequest.preSaveDates. cbn [LeaveRequest.assign LeaveRequest.fromDate].
  destruct (Z.ltb_spec (LeaveRequest.fromDate doc) (t_hook clk)); [done|lia].
Qed.

(** Approving in time, with no remarks in the body: the request is stored
    approved, with the empty string as its remarks. *)
Lemma approve_without_remarks clk users db token r user oid doc :
  authenticated users token user ->
  User.canApproveLeaves user = true ->
  isMongoId (Leave.id r) = true ->
  Leave.remarks r = None ->
  LeaveRequest.findById db (Leave.id r) = Some (oid, Some doc) ->
  LeaveRequest.status doc = LeaveRequest.pending ->
  LeaveRequest.preSave clk
    (LeaveRequest.assign LeaveRequest.approved clk doc (User._id user) None)
    = inr tt ->
  exists stored,
    Leave.approve clk users db token r
      = (respond 200 (Message "Leave request approved successfully"
                        (oid, LeaveRequest.assign LeaveRequest.approved clk doc
                                (User._id user) None)),
         <[oid := stored]> db) /\
    LeaveRequest.status stored = LeaveRequest.approved /\
    LeaveRequest.remarks stored = Some "" /\
    LeaveRequest.approvedBy stored = Some (User._id user) /\
    LeaveRequest.approvedAt stored = Some (t_route clk).
Proof.
  intros Hauth Hcan Hid Hremarks Hfind Hpending Hsave.
  assert (Leave.approveValidators r = []) as Hval.
  { unfold Leave.approveValidators. by rewrite Hid, Hremarks. }
  pose proof Hfind as [_ Hstored]%findById_cast.
  unfold Leave.approve, Leave.approveLoad.
  rewrite (loadPending_found _ _ _ _ _ _ user oid doc) by done.
  rewrite bool_decide_eq_true_2 by done.
  unfold Leave.approveStore, LeaveRequest.approve, LeaveRequest.save.
  cbn [mbind early_return Leave.leaveId Leave.leaveRequest Leave.approverId
       Leave.givenRemarks].
  rewrite Hremarks. cbn [fmap option_fmap option_map].
  rewrite Hsave, Hstored. eexists. split; [reflexivity|]. done.
Qed.

(** C5 at a failing input.  The caretaker approves, with no remarks,
    Asha's pending request 10, whose leave starts at instant 1000.  Before
    that instant the request is stored approved with empty remarks; after
    it (the request is then overdue, as the pending list shows it) the
    date hook of [save()] throws and the answer is 500 "Failed to approve
    leave request", the request staying pending. *)
Theorem approve_overdue_is_answered_500 :
  Leave.approve (Sample.at_ 5000) Sample.users Sample.db (Auth.Signed 3%N)
    (Sample.decision Sample.idA None) = (Leave.approveFailed, Sample.db) /\
  outcome (Leave.approve (Sample.at_ 5000) Sample.users Sample.db
             (Auth.Signed 3%N) (Sample.decision Sample.idA None)).1
    = InternalFailure /\
  LeaveRequest.isOverdue 5000 (Sample.leave 1%N LeaveRequest.pending) = true /\
  outcome (Leave.approve (Sample.at_ 500) Sample.users Sample.db
             (Auth.Signed 3%N) (Sample.decision Sample.idA None)).1 = Success /\
  (LeaveRequest.remarks <$>
     (Leave.approve (Sample.at_ 500) Sample.users Sample.db
        (Auth.Signed 3%N) (Sample.decision Sample.idA None)).2 !! 10%N)
    = Some (Some "").
Proof. split_and!; vm_compute; reflexivity. Qed.

(** ** Two decisions on one request *)

Lemma load_inl users db c res :
  Interleaving.load users db c = inl res -> outcome res <> Success.
Proof.
  unfold Interleaving.load, Leave.approveLoad, Leave.rejectLoad.
  destruct (Interleaving.verdict c).
  - destruct (Leave.loadPending Leave.approveValidators _ _ _ _ _) eqn:Hload;
      [|done].
    intros [= <-].
    by apply (loadPending_inl Leave.approveValidators Leave.approveFailed eq_refl)
      in Hload.
  - destruct (Leave.loadPending Leave.rejectValidators _ _ _ _ _) eqn:Hload;
      [|done].
    intros [= <-].
    by apply (loadPending_inl Leave.rejectValidators Leave.rejectFailed eq_refl)
      in Hload.
Qed.

(** What a call holds after its first turn. *)
Lemma load_inr users db c l :
  Interleaving.load users db c = inr l ->
  exists user,
    authenticated users (Interleaving.token c) user /\
    User.canApproveLeaves user = true /\
    Interleaving.validatorsOf c = [] /\
    LeaveRequest.findById db (Leave.id (Interleaving.request c))
      = Some (Leave.leaveId l, Some (Leave.leaveRequest l)) /\
    LeaveRequest.status (Leave.leaveRequest l) = LeaveRequest.pending.
Proof.
  unfold Interleaving.load, Interleaving.validatorsOf,
    Leave.approveLoad, Leave.rejectLoad.
  destruct (Interleaving.verdict c).
  - destruct (Leave.loadPending Leave.approveValidators _ _ _ _ _) as [|l']
      eqn:Hload; [done|].
    intros [= <-]. cbn [Leave.leaveId Leave.leaveRequest].
    apply loadPending_inr in Hload as (user & ? & ? & ? & ? & ? & _). eauto 10.
  - destruct (Leave.loadPending Leave.rejectValidators _ _ _ _ _) as [|l']
      eqn:Hload; [done|].
    intros [= <-]. cbn [Leave.leaveId Leave.leaveRequest].
    apply loadPending_inr in Hload as (user & ? & ? & ? & ? & ? & _). eauto 10.
Qed.

(** The second turn of a call: on failure nothing is written, on success
    the four paths of the stored document are overwritten. *)
Lemma store_cases db c l :
  let d := LeaveRequest.assign (Interleaving.asked c) (Interleaving.clock c)
             (Leave.leaveRequest l) (Leave.approverId l) (Leave.givenRemarks l) in
  match LeaveRequest.preSave (Interleaving.clock c) d, db !! Leave.leaveId l with
  | inr _, Some stored =>
      outcome (Interleaving.store db c l).1 = Success /\
      (Interleaving.store db c l).2
        = <[Leave.leaveId l := LeaveRequest.setModified d stored]> db
  | _, _ =>
      outcome (Interleaving.store db c l).1 <> Success /\
      (Interleaving.store db c l).2 = db
  end.
Proof.
  unfold Interleaving.store, Interleaving.asked, Leave.approveStore,
    Leave.rejectStore, LeaveRequest.approve, LeaveRequest.reject,
    LeaveRequest.save.
  destruct (Interleaving.verdict c); cbv zeta;
    cbn [mbind early_return];
    destruct (LeaveRequest.preSave _ _) as [e|[]]; cbn [mbind early_return];
    try done;
    by destruct (db !! Leave.leaveId l).
Qed.

(** Two turns of a call with nothing in between are its handler. *)
Lemma step_step users db c :
  Interleaving.step users c
    ((Interleaving.step users c (Interleaving.Start, db)).1,
     (Interleaving.step users c (Interleaving.Start, db)).2)
  = (Interleaving.Sent (Interleaving.handler users db c).1,
     (Interleaving.handler users db c).2).
Proof.
  unfold Interleaving.step, Interleaving.handler, Interleaving.load,
    Interleaving.store, Leave.approve, Leave.reject.
  cbn [fst snd].
  destruct (Interleaving.verdict c).
  - by destruct (Leave.approveLoad _ _ _ _).
  - by destruct (Leave.rejectLoad _ _ _ _).
Qed.

Lemma step_start users db c l :
  Interleaving.load users db c = inr l ->
  Interleaving.step users c (Interleaving.Start, db) = (Interleaving.Holding l, db).
Proof. unfold Interleaving.step. cbn [fst snd]. by intros ->. Qed.

Lemma step_holding users db c l :
  Interleaving.step users c (Interleaving.Holding l, db)
  = (Interleaving.Sent (Interleaving.store db c l).1,
     (Interleaving.store db c l).2).
Proof. reflexivity. Qed.

Lemma handler_load_store users db c :
  Interleaving.handler users db c =
    match Interleaving.load users db c with
    | inl res => (res, db)
    | inr l => Interleaving.store db c l
    end.
Proof.
  unfold Interleaving.handler, Interleaving.load, Interleaving.store,
    Leave.approve, Leave.reject.
  by destruct (Interleaving.verdict c).
Qed.

(** After a decision has succeeded the request is stored decided. *)
Lemma handler_success users db c :
  outcome (Interleaving.handler users db c).1 = Success ->
  exists oid stored,
    castObjectId (Leave.id (Interleaving.request c)) = Some oid /\
    (Interleaving.handler users db c).2 !! oid = Some stored /\
    LeaveRequest.status stored = Interleaving.asked c.
Proof.
  rewrite handler_load_store.
  destruct (Interleaving.load users db c) as [res|l] eqn:Hload.
  { intros Hok. by apply load_inl in Hload. }
  apply load_inr in Hload as (user & _ & _ & _ & [Hcast _]%findById_cast & _).
  pose proof (store_cases db c l) as Hstore. cbv zeta in Hstore.
  destruct (LeaveRequest.preSave _ _); [by intros ?; destruct Hstore|].
  destruct (db !! Leave.leaveId l) as [stored|];
    [|by intros ?; destruct Hstore].
  destruct Hstore as [_ ->]. intros _.
  eexists _, _. split; [done|]. split; [apply lookup_insert_eq|done].
Qed.

(** C2, as the code has it.  The status check ([findById], then the
    comparison) and the write ([save()]) are two operations on the
    collection, and the write does not look at the stored status.  For two
    decisions on the same request:
    - run one after the other, they never both succeed, and once the
      first has succeeded the second, when it comes from an approver and
      passes its validators, is answered 400 "Leave request is not pending";
    - when each has loaded the request before the other saves, and both
      pass the checks of [save()], both succeed, and the request ends with
      the status the second writer asked for. *)
Theorem decisions_on_one_request users db c1 c2 :
  Leave.id (Interleaving.request c1) = Leave.id (Interleaving.request c2) ->
  let seq := Interleaving.run users c1 c2 Interleaving.oneAfterTheOther db in
  let mix := Interleaving.run users c1 c2 Interleaving.readsBeforeWrites db in
  let out1 := Interleaving.handler users db c1 in
  let out2 := Interleaving.handler users out1.2 c2 in
  (Interleaving.first seq = Interleaving.Sent out1.1 /\
   Interleaving.second seq = Interleaving.Sent out2.1 /\
   Interleaving.db seq = out2.2) /\
  ~ (Interleaving.succeeded (Interleaving.first seq) = true /\
     Interleaving.succeeded (Interleaving.second seq) = true) /\
  (outcome out1.1 = Success ->
   forall user,
     authenticated users (Interleaving.token c2) user ->
     User.canApproveLeaves user = true ->
     Interleaving.validatorsOf c2 = [] ->
     out2 = (Leave.notPending, out1.2)) /\
  (forall l1 l2,
      Interleaving.load users db c1 = inr l1 ->
      Interleaving.load users db c2 = inr l2 ->
      LeaveRequest.preSave (Interleaving.clock c1)
        (LeaveRequest.assign (Interleaving.asked c1) (Interleaving.clock c1)
           (Leave.leaveRequest l1) (Leave.approverId l1) (Leave.givenRemarks l1))
        = inr tt ->
      LeaveRequest.preSave (Interleaving.clock c2)
        (LeaveRequest.assign (Interleaving.asked c2) (Interleaving.clock c2)
           (Leave.leaveRequest l2) (Leave.approverId l2) (Leave.givenRemarks l2))
        = inr tt ->
      Interleaving.succeeded (Interleaving.first mix) = true /\
      Interleaving.succeeded (Interleaving.second mix) = true /\
      LeaveRequest.status <$> Interleaving.db mix !! Leave.leaveId l2
        = Some (Interleaving.asked c2)).
Proof.
  intros Hsame. cbv zeta.
  assert (Interleaving.run users c1 c2 Interleaving.oneAfterTheOther db =
          {| Interleaving.first :=
               Interleaving.Sent (Interleaving.handler users db c1).1;
             Interleaving.second :=
               Interleaving.Sent
                 (Interleaving.handler users
                    (Interleaving.handler users db c1).2 c2).1;
             Interleaving.db :=
               (Interleaving.handler users
                  (Interleaving.handler users db c1).2 c2).2 |}) as ->.
  { unfold Interleaving.run, Interleaving.oneAfterTheOther.
    cbn [foldl Interleaving.turn Interleaving.first Interleaving.second
         Interleaving.db].
    rewrite !step_step. cbn [fst snd]. done. }
  cbn [Interleaving.first Interleaving.second Interleaving.db].
  split; [done|].
  assert (outcome (Interleaving.handler users db c1).1 = Success ->
          exists oid stored,
            LeaveRequest.findById (Interleaving.handler users db c1).2
              (Leave.id (Interleaving.request c2)) = Some (oid, Some stored) /\
            LeaveRequest.status stored <> LeaveRequest.pending) as Hdecided.
  { intros (oid & stored & Hcast & Hstored & Hst)%handler_success.
    exists oid, stored. split.
    - apply findById_cast. by rewrite <- Hsame.
    - rewrite Hst. unfold Interleaving.asked.
      by destruct (Interleaving.verdict c1). }
  split; [|split].
  - unfold Interleaving.succeeded. cbn [Interleaving.sent].
    rewrite !bool_decide_eq_true. intros [Hok1 Hok2].
    destruct (Hdecided Hok1) as (oid & stored & Hfind & Hst).
    rewrite handler_load_store in Hok2.
    destruct (Interleaving.load users _ c2) as [res|l] eqn:Hload.
    + by apply load_inl in Hload.
    + apply load_inr in Hload as (user & _ & _ & _ & Hfind' & Hpending).
      rewrite Hfind in Hfind'. by simplify_eq.
  - intros Hok1 user Hauth Hcan Hval.
    destruct (Hdecided Hok1) as (oid & stored & Hfind & Hst).
    set (db1 := (Interleaving.handler users db c1).2) in *. clearbody db1.
    unfold Interleaving.validatorsOf in Hval. unfold Interleaving.handler.
    unfold Leave.approve, Leave.reject, Leave.approveLoad, Leave.rejectLoad.
    destruct (Interleaving.verdict c2);
      rewrite (loadPending_found _ _ _ _ _ _ user oid stored) by done;
      by rewrite bool_decide_eq_false_2 by done.
  - intros l1 l2 Hload1 Hload2 Hsave1 Hsave2.
    pose proof Hload1 as (_ & _ & _ & _ & [Hcast1 Hdoc1]%findById_cast & _)%load_inr.
    pose proof Hload2 as (_ & _ & _ & _ & [Hcast2 Hdoc2]%findById_cast & _)%load_inr.
    assert (Leave.leaveId l1 = Leave.leaveId l2) as Hid by congruence.
    unfold Interleaving.run, Interleaving.readsBeforeWrites.
    cbn [foldl Interleaving.turn Interleaving.first Interleaving.second
         Interleaving.db].
    rewrite (step_start _ _ _ _ Hload1). cbn [fst snd].
    rewrite (step_start _ _ _ _ Hload2). cbn [fst snd].
    rewrite !step_holding. cbn [fst snd].
    pose proof (store_cases db c1 l1) as Hstore1. cbv zeta in Hstore1.
    rewrite Hsave1, Hdoc1 in Hstore1. destruct Hstore1 as [Hok1 Hdb1].
    set (db1 := (Interleaving.store db c1 l1).2) in *.
    assert (is_Some (db1 !! Leave.leaveId l2)) as [stored Hstored]
      by (rewrite Hdb1, Hid, lookup_insert_eq; eauto).
    pose proof (store_cases db1 c2 l2) as Hstore2. cbv zeta in Hstore2.
    rewrite Hsave2, Hstored in Hstore2. destruct Hstore2 as [Hok2 Hdb2].
    unfold Interleaving.succeeded. cbn [Interleaving.sent].
    rewrite !bool_decide_eq_true. do 2 (split; [done|]).
    rewrite Hdb2, lookup_insert_eq. done.
Qed.

Lemma decisions_on_one_request_witness :
  Interleaving.succeeded
    (Interleaving.first
       (Interleaving.run Sample.users Sample.caretakerApproves Sample.adminRejects
          Interleaving.readsBeforeWrites Sample.db)) = true /\
  Interleaving.succeeded
    (Interleaving.second
       (Interleaving.run Sample.users Sample.caretakerApproves Sample.adminRejects
          Interleaving.readsBeforeWrites Sample.db)) = true /\
  LeaveRequest.status <$>
    Interleaving.db
      (Interleaving.run Sample.users Sample.caretakerApproves Sample.adminRejects
         Interleaving.readsBeforeWrites Sample.db) !! 10%N
    = Some LeaveRequest.rejected.
Proof.
  destruct (decisions_on_one_request Sample.users Sample.db
              Sample.caretakerApproves Sample.adminRejects eq_refl)
    as (_ & _ & _ & Hmix).
  apply (Hmix
           {| Leave.approverId := 3%N; Leave.leaveId := 10%N;
              Leave.leaveRequest := Sample.leave 1%N LeaveRequest.pending;
              Leave.givenRemarks := None |}
           {| Leave.approverId := 4%N; Leave.leaveId := 10%N;
              Leave.leaveRequest := Sample.leave 1%N LeaveRequest.pending;
              Leave.givenRemarks := Some "Exams that week" |});
    vm_compute; reflexivity.
Defined.

(** C2 as it is written fails: when the caretaker and the admin approve
    the same pending request and both have loaded it before either saves,
    both are answered 200. *)
Lemma concurrent_approvals_both_succeed :
  ~ (forall users db c1 c2 schedule,
        Leave.id (Interleaving.request c1) = Leave.id (Interleaving.request c2) ->
        ~ (Interleaving.succeeded
             (Interleaving.first (Interleaving.run users c1 c2 schedule db)) = true /\
           Interleaving.succeeded
             (Interleaving.second (Interleaving.run users c1 c2 schedule db)) = true)).
Proof.
  intros Hclaim.
  apply (Hclaim Sample.users Sample.db Sample.caretakerApproves Sample.adminApproves
           Interleaving.readsBeforeWrites eq_refl).
  split; vm_compute; reflexivity.
Qed.

(** ** The model checks inside [save()]

    With a clock that does not run backwards, whatever the schema
    validators of [fromDate], [toDate] and [urgentReason] refuse, the two
    pre-save hooks refuse as well: for these three paths it makes no
    difference to the result of [save()] whether Mongoose validates them
    again when a loaded document is saved. *)
Lemma hooks_cover_validators clk d :
  monotone clk ->
  (LeaveRequest.fromDate d <? t_validator clk) = true \/
  (LeaveRequest.toDate d <? LeaveRequest.fromDate d) = true \/
  match LeaveRequest.urgentReason d with
  | Some r => if LeaveRequest.isUrgent d then String.eqb r "" else false
  | None => false
  end = true ->
  LeaveRequest.preSaveDates clk d <> None \/ LeaveRequest.preSaveUrgent d <> None.
Proof.
  intros [_ Hclock]. unfold LeaveRequest.preSaveDates, LeaveRequest.preSaveUrgent.
  intros [Hfrom | [Hto | Hurgent]].
  - apply Z.ltb_lt in Hfrom. left.
    destruct (Z.ltb_spec (LeaveRequest.fromDate d) (t_hook clk)); [done|lia].
  - left. rewrite Hto. by destruct (_ <? t_hook clk).
  - right. destruct (LeaveRequest.urgentReason d) as [r|]; [|done].
    destruct (LeaveRequest.isUrgent d); [|done]. simpl. by rewrite Hurgent.
Qed.

(** A document whose dates the hook refuses is not stored. *)
Lemma create_refuses_bad_dates clk db id_ d :
  LeaveRequest.fromDate d < t_hook clk \/
  LeaveRequest.toDate d < LeaveRequest.fromDate d ->
  exists e, LeaveRequest.create clk db id_ d = inl e.
Proof.
  intros Hbad. unfold LeaveRequest.create, LeaveRequest.preSave.
  destruct (LeaveRequest.validate clk d); [|by eexists].
  unfold LeaveRequest.preSaveDates.
  destruct (Z.ltb_spec (LeaveRequest.fromDate d) (t_hook clk)); [by eexists|].
  destruct (Z.ltb_spec (LeaveRequest.toDate d) (LeaveRequest.fromDate d));
    [by eexists|lia].
Qed.

(** ** The library predicates on sample strings *)

Example trim_sample : trim "  12 Beach Road  " = "12 Beach Road".
Proof. reflexivity. Qed.

Example isPhone_sample :
  isPhone "9876543210" = true /\ isPhone "98765 4321" = false /\
  isPhone "98765432101" = false.
Proof. split_and!; reflexivity. Qed.

Example isMongoId_sample :
  isMongoId Sample.idA = true /\ isMongoId "abc" = false /\
  castObjectId Sample.idA = Some 10%N /\
  castObjectId "00000000000000000000000A" = Some 10%N.
Proof. split_and!; reflexivity. Qed.

(** ** The scenarios of the specification, run on the sample data *)

(** Ravi submits a leave from instant 3000 to 4000: it is stored pending
    under the new id.  Submitting the days 3500 to 4500 next is refused
    with the overlap error. *)
Example submit_then_overlap :
  let first := Leave.apply (Sample.at_ 100) 20%N Sample.users Sample.db
                 (Auth.Signed 2%N)
                 (Sample.draft (Leave.Instant 3000) (Leave.Instant 4000)) in
  status first.1 = 201 /\
  LeaveRequest.status <$> first.2 !! 20%N = Some LeaveRequest.pending /\
  LeaveRequest.student <$> first.2 !! 20%N = Some 2%N /\
  Leave.apply (Sample.at_ 200) 21%N Sample.users first.2 (Auth.Signed 2%N)
    (Sample.draft (Leave.Instant 3500) (Leave.Instant 4500))
  = (Leave.overlapError, first.2).
Proof. cbv zeta. split_and!; vm_compute; reflexivity. Qed.

(** A rejected request does not block: Asha, whose request 12 over the
    same dates was rejected, may apply again once requests 10 and 11 are
    gone. *)
Example rejected_does_not_block :
  status (Leave.apply (Sample.at_ 100) 20%N Sample.users
            (delete 10%N (delete 11%N Sample.db)) (Auth.Signed 1%N)
            (Sample.draft (Leave.Instant 1000) (Leave.Instant 2000))).1 = 201.
Proof. vm_compute. reflexivity. Qed.

(** A leave from day 10 to day 12 lasts three days. *)
Example duration_three_days :
  LeaveRequest.duration
    {| LeaveRequest.student := 1%N;
       LeaveRequest.fromDate := 10 * LeaveRequest.msPerDay;
       LeaveRequest.toDate := 12 * LeaveRequest.msPerDay;
       LeaveRequest.reason := "Family function at home";
       LeaveRequest.type := LeaveRequest.day;
       LeaveRequest.status := LeaveRequest.approved;
       LeaveRequest.remarks := Some "Approved, safe travels";
       LeaveRequest.approvedBy := Some 3%N;
       LeaveRequest.approvedAt := Some 500;
       LeaveRequest.contactDetails := Sample.contact;
       LeaveRequest.isUrgent := false;
       LeaveRequest.urgentReason := None |} = 3.
Proof. vm_compute. reflexivity. Qed.

(** The admin rejects request 10 with remarks; the caretaker who rejects
    it with none is answered 400 and the request stays pending. *)
Example reject_with_and_without_remarks :
  LeaveRequest.status <$>
    (Leave.reject (Sample.at_ 500) Sample.users Sample.db (Auth.Signed 4%N)
       (Sample.decision Sample.idA (Some "Exams that week"))).2 !! 10%N
    = Some LeaveRequest.rejected /\
  outcome (Leave.reject (Sample.at_ 500) Sample.users Sample.db (Auth.Signed 3%N)
             (Sample.decision Sample.idA None)).1 = ValidationError /\
  (Leave.reject (Sample.at_ 500) Sample.users Sample.db (Auth.Signed 3%N)
     (Sample.decision Sample.idA None)).2 = Sample.db.
Proof. split_and!; vm_compute; reflexivity. Qed.

(** A student who is not the owner is refused the view of a request, the
    owner and the caretaker are shown it, and an id that is no ObjectId
    ends in the catch-all of the handler. *)
Example view_access :
  status (Leave.view Sample.users Sample.db (Auth.Signed 2%N) Sample.idA) = 403 /\
  status (Leave.view Sample.users Sample.db (Auth.Signed 1%N) Sample.idA) = 200 /\
  status (Leave.view Sample.users Sample.db (Auth.Signed 3%N) Sample.idA) = 200 /\
  status (Leave.view Sample.users Sample.db (Auth.Signed 1%N) "abc") = 500.
Proof. split_and!; vm_compute; reflexivity. Qed.

(** Asha sends a new name together with another email and the admin
    role: the name is stored trimmed, the email and the role stay. *)
Example profile_update_sample :
  let body : gmap string JsValue :=
    {[ "name" := JStr "  Asha K  "; "email" := JStr "root@nitgoa.ac.in";
       "role" := JStr "admin" ]} in
  let users' := (Profile.authUpdateProfile (fun _ v => v) (fun _ => true)
                   Sample.users (Auth.Signed 1%N) body).2 in
  (users' !! 1%N ≫= (.!! "name")) = Some (JStr "Asha K") /\
  (users' !! 1%N ≫= (.!! "email")) = Some (JStr "asha@nitgoa.ac.in") /\
  (users' !! 1%N ≫= (.!! "role")) = Some (JStr "student").
Proof. cbv zeta. split_and!; vm_compute; reflexivity. Qed.

(** * Further properties *)

(** ** What a handler of the leave routes writes *)

Lemma approve_is_handler clk users db token r :
  Leave.approve clk users db token r =
  Interleaving.handler users db
    {| Interleaving.verdict := Interleaving.Approve; Interleaving.clock := clk;
       Interleaving.token := token; Interleaving.request := r |}.
Proof. reflexivity. Qed.

Lemma reject_is_handler clk users db token r :
  Leave.reject clk users db token r =
  Interleaving.handler users db
    {| Interleaving.verdict := Interleaving.Reject; Interleaving.clock := clk;
       Interleaving.token := token; Interleaving.request := r |}.
Proof. reflexivity. Qed.

(** A decision either writes nothing or overwrites, in the pending
    document it loaded, the four paths it assigns. *)
Lemma handler_writes users db c :
  (Interleaving.handler users db c).2 = db \/
  exists oid doc by_ remarks_,
    db !! oid = Some doc /\
    LeaveRequest.status doc = LeaveRequest.pending /\
    (Interleaving.handler users db c).2 =
      <[oid := LeaveRequest.setModified
                 (LeaveRequest.assign (Interleaving.asked c)
                    (Interleaving.clock c) doc by_ remarks_) doc]> db.
Proof.
  rewrite handler_load_store.
  destruct (Interleaving.load users db c) as [res|l] eqn:Hload; [by left|].
  apply load_inr in Hload as (user & _ & _ & _ & [_ Hdoc]%findById_cast & Hpending).
  pose proof (store_cases db c l) as Hstore. cbv zeta in Hstore.
  destruct (LeaveRequest.preSave _ _); [left; by destruct Hstore|].
  rewrite Hdoc in Hstore. destruct Hstore as [_ ->].
  right. eauto 10.
Qed.

(** The handler of POST /apply either writes nothing, and then does not
    answer 201, or stores, under a free [_id], a document that passed the
    checks of [save()] and that the overlap query found no partner for. *)
Lemma apply_writes clk newId users db token b :
  ((Leave.apply clk newId users db token b).2 = db /\
   status (Leave.apply clk newId users db token b).1 <> 201) \/
  exists user from to leaveRequest,
    authenticated users token user /\
    User.isStudent user = true /\
    Leave.fromDate b = Leave.Instant from /\
    Leave.toDate b = Leave.Instant to /\
    t_route clk <= from /\ from <= to /\
    Leave.newLeaveRequest (User._id user) from to b = Some leaveRequest /\
    LeaveRequest.preSave clk leaveRequest = inr tt /\
    LeaveRequest.find db (Leave.overlapQuery (User._id user) from to) = [] /\
    db !! newId = None /\
    Leave.apply clk newId users db token b =
      (respond 201 (Message "Leave request submitted successfully"
                      (newId, leaveRequest)), <[newId := leaveRequest]> db).
Proof.
  destruct (Auth.authenticateToken (A := Leave.Shown) users token)
    as [res|user] eqn:Hauth.
  { left. unfold Leave.apply. rewrite Hauth. split; [done|].
    apply authenticateToken_inl in Hauth. rewrite outcome_success in Hauth.
    cbn. tauto. }
  apply authenticateToken_inr in Hauth.
  destruct (User.isStudent user) eqn:Hstudent; cycle 1.
  { left.
    assert (Leave.apply clk newId users db token b
            = (respond 403 (Error "Access denied. Insufficient permissions."), db))
      as ->; [|by split].
    unfold Leave.apply. rewrite (authenticateToken_ok _ _ _ Hauth).
    unfold mbind at 1, early_return at 1.
    by rewrite (requireStudent_stop _ Hstudent). }
  rewrite (apply_table _ _ _ _ _ _ _ Hauth Hstudent). cbv zeta.
  destruct (Leave.applyValidators b); [|left; by split].
  destruct (Leave.fromDate b) as [| |from] eqn:Hfrom;
    cbn [Leave.newDate Leave.dateLt];
    try (destruct (Leave.newDate (Leave.toDate b)); left; by split).
  destruct (Z.ltb_spec from (t_route clk)); [left; by split|].
  destruct (Leave.toDate b) as [| |to] eqn:Hto;
    cbn [Leave.newDate Leave.dateLt]; try (left; by split).
  destruct (Z.ltb_spec to from); [left; by split|].
  destruct (LeaveRequest.find db _) as [|x l] eqn:Hfind; [|left; by split].
  cbn [length Nat.ltb Nat.leb].
  destruct (Leave.newLeaveRequest _ _ _ _) as [lr|] eqn:Hnew; [|left; by split].
  unfold LeaveRequest.create.
  destruct (LeaveRequest.preSave clk lr) as [e|[]] eqn:Hsave;
    cbn [mbind early_return]; [left; by split|].
  destruct (db !! newId) eqn:Hfree; [left; by split|].
  right. exists user, from, to, lr. split_and!; done.
Qed.

Lemma newLeaveRequest_fields studentId from to b leaveRequest :
  Leave.newLeaveRequest studentId from to b = Some leaveRequest ->
  LeaveRequest.student leaveRequest = studentId /\
  LeaveRequest.fromDate leaveRequest = from /\
  LeaveRequest.toDate leaveRequest = to /\
  LeaveRequest.status leaveRequest = LeaveRequest.pending /\
  LeaveRequest.remarks leaveRequest = None /\
  LeaveRequest.approvedBy leaveRequest = None /\
  LeaveRequest.approvedAt leaveRequest = None.
Proof.
  unfold Leave.newLeaveRequest.
  destruct (Leave.castType _); [|done]. cbn.
  destruct (Leave.castBoolean _); [|done]. cbn.
  by intros [= <-].
Qed.

(** The handler of DELETE /:id writes nothing or deletes one document. *)
Lemma cancel_writes users db token id_ :
  (Leave.cancel users db token id_).2 = db \/
  exists oid, (Leave.cancel users db token id_).2 = delete oid db.
Proof.
  unfold Leave.cancel, Leave.finish, LeaveRequest.findByIdAndDelete.
  destruct (Auth.authenticateToken users token) as [|user]; [by left|].
  cbn [mbind early_return].
  destruct (Auth.requireStudent user); [by left|]. cbn [mbind early_return].
  destruct (LeaveRequest.findById db id_) as [[oid [doc|]]|]; try by left.
  unfold returnIf.
  destruct (negb (_ =? _)%N); [by left|]. cbn [mbind early_return].
  destruct (negb (bool_decide _)); [by left|]. cbn [mbind early_return].
  right. eauto.
Qed.

(** X1.  POST /apply is answered 201 only by storing the draft: the
    sender is an authenticated student, the [_id] was free, the new document is
    pending, belongs to the sender, carries the two instants of the
    draft, with the from-date not before the [now] of the handler and not
    after the to-date, and records no decision; every other document is
    as it was.  With any other answer the collection is as it was. *)
Theorem submission_stores_one_pending_request clk newId users db token b :
  (status (Leave.apply clk newId users db token b).1 <> 201 ->
   (Leave.apply clk newId users db token b).2 = db) /\
  (status (Leave.apply clk newId users db token b).1 = 201 ->
   exists user leaveRequest,
     authenticated users token user /\
     User.isStudent user = true /\
     db !! newId = None /\
     (Leave.apply clk newId users db token b).2 = <[newId := leaveRequest]> db /\
     (forall k, k <> newId ->
        (Leave.apply clk newId users db token b).2 !! k = db !! k) /\
     LeaveRequest.student leaveRequest = User._id user /\
     LeaveRequest.status leaveRequest = LeaveRequest.pending /\
     Leave.fromDate b = Leave.Instant (LeaveRequest.fromDate leaveRequest) /\
     Leave.toDate b = Leave.Instant (LeaveRequest.toDate leaveRequest) /\
     t_route clk <= LeaveRequest.fromDate leaveRequest /\
     LeaveRequest.fromDate leaveRequest <= LeaveRequest.toDate leaveRequest /\
     LeaveRequest.remarks leaveRequest = None /\
     LeaveRequest.approvedBy leaveRequest = None /\
     LeaveRequest.approvedAt leaveRequest = None).
Proof.
  destruct (apply_writes clk newId users db token b)
    as [[Hsame Hcode] |
        (user & from & to & lr & Hauth & Hstudent & Hfrom & Hto & Hnow & Horder
           & Hnew & _ & _ & Hfree & Happly)].
  - split; [done|]. intros Hok. by destruct Hcode.
  - rewrite Happly. cbn [fst snd]. split; [by intros []|]. intros _.
    apply newLeaveRequest_fields in Hnew
      as (Hs & Hf & Ht & Hst & Hr & Hby & Hat).
    exists user, lr. rewrite Hf, Ht.
    split_and!; try done.
    intros k Hk. by rewrite lookup_insert_ne.
Qed.

Lemma submission_stores_one_pending_request_witness :
  exists leaveRequest,
    (Leave.apply (Sample.at_ 100) 20%N Sample.users Sample.db (Auth.Signed 2%N)
       (Sample.draft (Leave.Instant 3000) (Leave.Instant 4000))).2
      = <[20%N := leaveRequest]> Sample.db /\
    LeaveRequest.status leaveRequest = LeaveRequest.pending.
Proof.
  destruct (submission_stores_one_pending_request (Sample.at_ 100) 20%N
              Sample.users Sample.db (Auth.Signed 2%N)
              (Sample.draft (Leave.Instant 3000) (Leave.Instant 4000)))
    as [_ Hstored].
  destruct Hstored as (user & lr & _ & _ & _ & Hdb & _ & _ & Hst & _).
  - vm_compute. reflexivity.
  - exists lr. split; [exact Hdb | exact Hst].
Defined.

(** ** Invariants of the leave collection *)

Lemma meet_sym d1 d2 : Invariants.meet d1 d2 -> Invariants.meet d2 d1.
Proof. unfold Invariants.meet. tauto. Qed.

Lemma noOverlap_insert db k d :
  Invariants.noOverlap db ->
  (forall k' d',
      k' <> k -> db !! k' = Some d' ->
      LeaveRequest.student d' = LeaveRequest.student d ->
      Invariants.blocking d' -> Invariants.blocking d ->
      ~ Invariants.meet d' d) ->
  Invariants.noOverlap (<[k := d]> db).
Proof.
  intros Hdb Hnew k1 k2 d1 d2 Hne H1 H2 Hs Hb1 Hb2.
  destruct (decide (k1 = k)) as [->|Hk1]; destruct (decide (k2 = k)) as [->|Hk2];
    try done.
  - rewrite lookup_insert_eq in H1. rewrite lookup_insert_ne in H2 by done.
    simplify_eq. intros Hm%meet_sym. by eapply (Hnew k2 d2).
  - rewrite lookup_insert_ne in H1 by done. rewrite lookup_insert_eq in H2.
    simplify_eq. by eapply (Hnew k1 d1).
  - rewrite lookup_insert_ne in H1, H2 by done. by eapply (Hdb k1 k2).
Qed.

Lemma noOverlap_delete db k :
  Invariants.noOverlap db -> Invariants.noOverlap (delete k db).
Proof.
  intros Hdb k1 k2 d1 d2 Hne [_ H1]%lookup_delete_Some [_ H2]%lookup_delete_Some.
  by eapply Hdb.
Qed.

Lemma noOverlap_handler users db c :
  Invariants.noOverlap db ->
  Invariants.noOverlap (Interleaving.handler users db c).2.
Proof.
  intros Hdb.
  destruct (handler_writes users db c)
    as [-> | (oid & doc & by_ & remarks_ & Hdoc & Hpending & ->)]; [done|].
  apply noOverlap_insert; [done|].
  intros k' d' Hk' Hd' Hs Hb' _. cbn in Hs.
  intros [Hm1 Hm2]. cbn in Hm1, Hm2.
  apply (Hdb k' oid d' doc); try done. by left.
Qed.

(** X2.  Run one at a time, each from its first read of the collection
    to its write with no other request served in between, the handlers of
    the leave routes keep the collection free of overlaps: when no student
    has two pending or approved requests whose dates meet, the same holds
    after a submission, an approval, a rejection and a cancellation,
    whatever their answer.  Interleaved they do not: [save()] writes by
    [_id] whatever the stored status is, so when a caretaker has loaded a
    pending request, the admin rejects it, the student submits a request
    for dates that meet it, and only then the caretaker's approval is
    saved, the student ends up with an approved and a pending request
    whose dates meet. *)
Theorem requests_stay_apart_one_at_a_time :
  (forall clk newId users db token b r id_,
      Invariants.noOverlap db ->
      Invariants.noOverlap (Leave.apply clk newId users db token b).2 /\
      Invariants.noOverlap (Leave.approve clk users db token r).2 /\
      Invariants.noOverlap (Leave.reject clk users db token r).2 /\
      Invariants.noOverlap (Leave.cancel users db token id_).2) /\
  (exists (db0 : LeaveRequest.Collection) (loaded : Leave.Loaded),
      Invariants.noOverlap db0 /\
      Leave.approveLoad Sample.users db0 (Auth.Signed 3%N)
        (Sample.decision Sample.idA None) = inr loaded /\
      let db1 :=
        (Leave.reject (Sample.at_ 500) Sample.users db0 (Auth.Signed 4%N)
           (Sample.decision Sample.idA (Some "Not this week"))).2 in
      let db2 :=
        (Leave.apply (Sample.at_ 500) 20%N Sample.users db1 (Auth.Signed 1%N)
           (Sample.draft (Leave.Instant 1500) (Leave.Instant 2500))).2 in
      ~ Invariants.noOverlap (Leave.approveStore (Sample.at_ 500) db2 loaded).2).
Proof.
  split.
  - intros clk newId users db token b r id_ Hdb. split_and!.
    + destruct (apply_writes clk newId users db token b)
        as [[-> _] |
            (user & from & to & lr & _ & _ & _ & _ & _ & _ & Hnew & _ & Hfind & _ & ->)];
        [done|].
      cbn [snd]. apply noOverlap_insert; [done|].
      apply newLeaveRequest_fields in Hnew as (Hs & Hf & Ht & _).
      intros k' d' _ Hd' Hsame Hb' _ [Hm1 Hm2]. rewrite Hs in Hsame.
      rewrite Hf in Hm2. rewrite Ht in Hm1.
      assert (d' ∈ LeaveRequest.find db
                     (Leave.overlapQuery (User._id user) from to)) as Hin.
      { apply find_elem. exists k'. split; [done|].
        apply overlapQuery_true. split_and!; [done|done|lia..]. }
      rewrite Hfind in Hin. by apply not_elem_of_nil in Hin.
    + rewrite approve_is_handler. by apply noOverlap_handler.
    + rewrite reject_is_handler. by apply noOverlap_handler.
    + destruct (cancel_writes users db token id_) as [-> | [oid ->]]; [done|].
      by apply noOverlap_delete.
  - exists {[ 10%N := Sample.leave 1%N LeaveRequest.pending ]}.
    eexists. split_and!.
    + intros k1 k2 d1 d2 Hne [-> _]%lookup_singleton_Some
        [-> _]%lookup_singleton_Some. done.
    + vm_compute. reflexivity.
    + cbv zeta. intros Hapart.
      match type of Hapart with
      | Invariants.noOverlap ?db => set (db3 := db) in Hapart
      end.
      destruct (db3 !! 10%N) as [d1|] eqn:H1; [|by vm_compute in H1].
      destruct (db3 !! 20%N) as [d2|] eqn:H2; [|by vm_compute in H2].
      apply (Hapart 10%N 20%N d1 d2); [done|done|done|..];
        vm_compute in H1; vm_compute in H2;
        injection H1 as <-; injection H2 as <-.
      * reflexivity.
      * by right.
      * by left.
      * split; cbn; lia.
Qed.

Lemma requests_stay_apart_one_at_a_time_witness :
  Invariants.noOverlap
    (Leave.apply (Sample.at_ 100) 20%N Sample.users
       {[ 10%N := Sample.leave 2%N LeaveRequest.pending ]} (Auth.Signed 2%N)
       (Sample.draft (Leave.Instant 3000) (Leave.Instant 4000))).2.
Proof.
  assert (Invariants.noOverlap
            ({[ 10%N := Sample.leave 2%N LeaveRequest.pending ]}
             : LeaveRequest.Collection)) as Hdb.
  { intros k1 k2 d1 d2 Hne [-> _]%lookup_singleton_Some
      [-> _]%lookup_singleton_Some. done. }
  exact (proj1 (proj1 requests_stay_apart_one_at_a_time (Sample.at_ 100) 20%N
                  Sample.users _ (Auth.Signed 2%N)
                  (Sample.draft (Leave.Instant 3000) (Leave.Instant 4000))
                  (Sample.decision Sample.idA None) Sample.idA Hdb)).
Defined.

Lemma preSave_inr clk d :
  LeaveRequest.preSave clk d = inr tt ->
  LeaveRequest.preSaveDates clk d = None /\ LeaveRequest.preSaveUrgent d = None.
Proof.
  unfold LeaveRequest.preSave.
  destruct (LeaveRequest.validate clk d); [|done].
  destruct (LeaveRequest.preSaveDates clk d); [done|].
  by destruct (LeaveRequest.preSaveUrgent d).
Qed.

Lemma consistent_handler users db c :
  Invariants.allConsistent db ->
  Invariants.allConsistent (Interleaving.handler users db c).2.
Proof.
  intros Hdb.
  destruct (handler_writes users db c)
    as [-> | (oid & doc & by_ & remarks_ & Hdoc & Hpending & ->)]; [done|].
  intros k d. destruct (decide (k = oid)) as [->|Hk].
  - rewrite lookup_insert_eq. intros [= <-].
    destruct (Hdb oid doc Hdoc) as (Hdates & Hurgent & _).
    unfold Invariants.consistent. cbn. split_and!; [done..|].
    unfold Interleaving.asked. destruct (Interleaving.verdict c); cbn; eauto.
  - rewrite lookup_insert_ne by done. apply Hdb.
Qed.

(** X3.  The handlers of the leave routes keep every stored request
    consistent: its to-date is not before its from-date, an urgent request
    has a reason, a pending request records no remarks, approver or
    instant of decision, and an approved or rejected one records all
    three.  This holds after a submission, an approval, a rejection and a
    cancellation, whatever their answer. *)
Theorem handlers_keep_requests_consistent clk newId users db token b r id_ :
  Invariants.allConsistent db ->
  Invariants.allConsistent (Leave.apply clk newId users db token b).2 /\
  Invariants.allConsistent (Leave.approve clk users db token r).2 /\
  Invariants.allConsistent (Leave.reject clk users db token r).2 /\
  Invariants.allConsistent (Leave.cancel users db token id_).2.
Proof.
  intros Hdb. split_and!.
  - destruct (apply_writes clk newId users db token b)
      as [[-> _] |
          (user & from & to & lr & _ & _ & _ & _ & _ & Horder & Hnew & Hsave
             & _ & _ & ->)];
      [done|].
    cbn [snd]. intros k d. destruct (decide (k = newId)) as [->|Hk].
    + rewrite lookup_insert_eq. intros [= <-].
      apply newLeaveRequest_fields in Hnew
        as (_ & Hf & Ht & Hst & Hr & Hby & Hat).
      apply preSave_inr in Hsave as [_ Hurgent].
      unfold Invariants.consistent. rewrite Hf, Ht, Hst. split_and!; try done.
      intros Hu. unfold LeaveRequest.preSaveUrgent in Hurgent.
      rewrite Hu in Hurgent. cbn in Hurgent.
      by destruct (LeaveRequest.blank _).
    + rewrite lookup_insert_ne by done. apply Hdb.
  - rewrite approve_is_handler. by apply consistent_handler.
  - rewrite reject_is_handler. by apply consistent_handler.
  - destruct (cancel_writes users db token id_) as [-> | [oid ->]]; [done|].
    intros k d [_ Hd]%lookup_delete_Some. by eapply Hdb.
Qed.

Lemma handlers_keep_requests_consistent_witness :
  Invariants.allConsistent
    (Leave.approve (Sample.at_ 500) Sample.users
       {[ 10%N := Sample.leave 1%N LeaveRequest.pending ]} (Auth.Signed 3%N)
       (Sample.decision Sample.idA None)).2.
Proof.
  assert (Invariants.allConsistent
            ({[ 10%N := Sample.leave 1%N LeaveRequest.pending ]}
             : LeaveRequest.Collection)) as Hdb.
  { intros k d [_ <-]%lookup_singleton_Some.
    unfold Invariants.consistent. cbn. split_and!; [lia|done..]. }
  exact (proj1 (proj2 (handlers_keep_requests_consistent (Sample.at_ 500) 20%N
                         Sample.users _ (Auth.Signed 3%N)
                         (Sample.draft (Leave.Instant 3000) (Leave.Instant 4000))
                         (Sample.decision Sample.idA None) Sample.idA Hdb))).
Defined.

(** X4.  An approval or a rejection, whatever its answer, leaves in every
    stored request the student, the two dates, the reason, the type, the
    contact details and the urgency as they were, and neither adds nor
    removes a request: it can only write status, remarks, approver and
    instant of decision. *)
Theorem decisions_keep_what_was_submitted clk users db token r (k : ObjectId) :
  Invariants.submitted <$> (Leave.approve clk users db token r).2 !! k
    = Invariants.submitted <$> db !! k /\
  Invariants.submitted <$> (Leave.reject clk users db token r).2 !! k
    = Invariants.submitted <$> db !! k.
Proof.
  assert (forall c,
             Invariants.submitted <$> (Interleaving.handler users db c).2 !! k
             = Invariants.submitted <$> db !! k) as Hhandler.
  { intros c.
    destruct (handler_writes users db c)
      as [-> | (oid & doc & by_ & remarks_ & Hdoc & _ & ->)]; [done|].
    destruct (decide (k = oid)) as [->|Hk].
    - by rewrite lookup_insert_eq, Hdoc.
    - by rewrite lookup_insert_ne. }
  rewrite approve_is_handler, reject_is_handler. split; apply Hhandler.
Qed.

(** ** Who is shown a request *)

(** X5.  GET /:id on a stored request: an admin, a caretaker or a warden
    is shown it, and so is the student who owns it; another student is
    answered 403 "Access denied", or 500 when the owner is no longer in
    the directory (the access check then reads the id of a null
    student). *)
Theorem view_is_for_owner_and_approvers users db token id_ user oid doc :
  authenticated users token user ->
  LeaveRequest.findById db id_ = Some (oid, Some doc) ->
  ((User.isAdmin user || User.canApproveLeaves user)%bool = true \/
   LeaveRequest.student doc = User._id user ->
   Leave.view users db token id_ = respond 200 (Payload (oid, doc))) /\
  ((User.isAdmin user || User.canApproveLeaves user)%bool = false ->
   LeaveRequest.student doc <> User._id user ->
   (is_Some (users !! LeaveRequest.student doc) ->
    Leave.view users db token id_ = respond 403 (Error "Access denied")) /\
   (users !! LeaveRequest.student doc = None ->
    Leave.view users db token id_
      = respond 500 (Error "Failed to fetch leave request"))).
Proof.
  intros Hauth Hfind.
  assert (Leave.view users db token id_ =
          if (negb (User.isAdmin user) && negb (User.canApproveLeaves user))%bool
          then match users !! LeaveRequest.student doc with
               | None => respond 500 (Error "Failed to fetch leave request")
               | Some _ =>
                   if negb (LeaveRequest.student doc =? User._id user)%N
                   then respond 403 (Error "Access denied")
                   else respond 200 (Payload (oid, doc))
               end
          else respond 200 (Payload (oid, doc))) as ->.
  { unfold Leave.view. rewrite (authenticateToken_ok _ _ _ Hauth).
    cbn [mbind early_return]. rewrite Hfind.
    destruct (negb _ && negb _)%bool; [|done].
    destruct (users !! LeaveRequest.student doc); [|done].
    by destruct (negb _). }
  destruct Hauth as (_ & Huser & _).
  assert (is_Some (users !! User._id user)) as Hin.
  { unfold User.findById in Huser. destruct (users !! User._id user); [eauto|done]. }
  rewrite <- negb_orb. split.
  - intros [-> | Howner]; [done|].
    destruct (negb _); [|done]. rewrite Howner.
    destruct Hin as [x ->]. by rewrite N.eqb_refl.
  - intros -> Hother. cbn [negb]. split.
    + intros [x ->]. by apply N.eqb_neq in Hother as ->.
    + by intros ->.
Qed.

Lemma view_is_for_owner_and_approvers_witness :
  Leave.view Sample.users Sample.db (Auth.Signed 2%N) Sample.idA
    = respond 403 (Error "Access denied").
Proof.
  destruct (view_is_for_owner_and_approvers Sample.users Sample.db
              (Auth.Signed 2%N) Sample.idA Sample.ravi 10%N
              (Sample.leave 1%N LeaveRequest.pending)) as [_ Hother].
  - evaluate_actor.
  - vm_compute. reflexivity.
  - destruct Hother as [Hdenied _].
    + vm_compute. reflexivity.
    + discriminate.
    + apply Hdenied. vm_compute. eauto.
Defined.

(** ** What a decision records *)

Lemma decision_recorded users db c :
  outcome (Interleaving.handler users db c).1 = Success ->
  exists user l stored,
    Interleaving.load users db c = inr l /\
    authenticated users (Interleaving.token c) user /\
    User.canApproveLeaves user = true /\
    Leave.approverId l = User._id user /\
    db !! Leave.leaveId l = Some (Leave.leaveRequest l) /\
    LeaveRequest.status (Leave.leaveRequest l) = LeaveRequest.pending /\
    t_hook (Interleaving.clock c) <= LeaveRequest.fromDate (Leave.leaveRequest l) /\
    (Interleaving.handler users db c).2 = <[Leave.leaveId l := stored]> db /\
    LeaveRequest.status stored = Interleaving.asked c /\
    LeaveRequest.approvedBy stored = Some (User._id user) /\
    LeaveRequest.approvedAt stored = Some (t_route (Interleaving.clock c)) /\
    LeaveRequest.remarks stored = Some (default "" (Leave.givenRemarks l)).
Proof.
  rewrite handler_load_store.
  destruct (Interleaving.load users db c) as [res|l] eqn:Hload.
  { intros Hok. by apply load_inl in Hload. }
  assert (exists user,
             authenticated users (Interleaving.token c) user /\
             User.canApproveLeaves user = true /\
             Leave.approverId l = User._id user /\
             db !! Leave.leaveId l = Some (Leave.leaveRequest l) /\
             LeaveRequest.status (Leave.leaveRequest l) = LeaveRequest.pending)
    as (user & Hauth & Hcan & Hby & Hdoc & Hpending).
  { unfold Interleaving.load, Leave.approveLoad, Leave.rejectLoad in Hload.
    destruct (Interleaving.verdict c).
    - destruct (Leave.loadPending Leave.approveValidators _ _ _ _ _) as [|l']
        eqn:Hl; [done|]. injection Hload as <-.
      apply loadPending_inr
        in Hl as (user & ? & ? & ? & [_ ?]%findById_cast & ? & ? & _).
      exists user. by cbn.
    - destruct (Leave.loadPending Leave.rejectValidators _ _ _ _ _) as [|l']
        eqn:Hl; [done|]. injection Hload as <-.
      apply loadPending_inr
        in Hl as (user & ? & ? & ? & [_ ?]%findById_cast & ? & ? & _).
      exists user. by cbn. }
  pose proof (store_cases db c l) as Hstore. cbv zeta in Hstore.
  destruct (LeaveRequest.preSave _ _) as [e|[]] eqn:Hsave;
    [by intros ?; destruct Hstore|].
  rewrite Hdoc in Hstore. destruct Hstore as [_ ->]. intros _.
  apply preSave_inr in Hsave as [Hdates _].
  unfold LeaveRequest.preSaveDates in Hdates. cbn in Hdates.
  destruct (Z.ltb_spec (LeaveRequest.fromDate (Leave.leaveRequest l))
              (t_hook (Interleaving.clock c))); [done|].
  exists user, l. eexists. split_and!; try done. cbn. by rewrite Hby.
Qed.

(** X6.  An approval that is answered with success was asked by an
    authenticated caretaker, warden or admin, of a request that was
    pending and whose leave had not started when [save()] ran; the request
    is then stored approved, with that actor as approver, the instant read
    in the model method, and as remarks those of the body, trimmed, or the
    empty string when the body had none.  A rejection likewise, with
    remarks of five to two hundred characters. *)
Theorem decision_is_recorded clk users db token r :
  (outcome (Leave.approve clk users db token r).1 = Success ->
   exists user oid doc stored,
     authenticated users token user /\
     User.canApproveLeaves user = true /\
     LeaveRequest.findById db (Leave.id r) = Some (oid, Some doc) /\
     LeaveRequest.status doc = LeaveRequest.pending /\
     t_hook clk <= LeaveRequest.fromDate doc /\
     (Leave.approve clk users db token r).2 = <[oid := stored]> db /\
     LeaveRequest.status stored = LeaveRequest.approved /\
     LeaveRequest.approvedBy stored = Some (User._id user) /\
     LeaveRequest.approvedAt stored = Some (t_route clk) /\
     LeaveRequest.remarks stored = Some (default "" (trim <$> Leave.remarks r))) /\
  (outcome (Leave.reject clk users db token r).1 = Success ->
   exists user oid doc stored,
     authenticated users token user /\
     User.canApproveLeaves user = true /\
     LeaveRequest.findById db (Leave.id r) = Some (oid, Some doc) /\
     LeaveRequest.status doc = LeaveRequest.pending /\
     t_hook clk <= LeaveRequest.fromDate doc /\
     (Leave.reject clk users db token r).2 = <[oid := stored]> db /\
     LeaveRequest.status stored = LeaveRequest.rejected /\
     LeaveRequest.approvedBy stored = Some (User._id user) /\
     LeaveRequest.approvedAt stored = Some (t_route clk) /\
     LeaveRequest.remarks stored = Some (trim (Leave.str (Leave.remarks r))) /\
     isLength 5 200 (trim (Leave.str (Leave.remarks r))) = true).
Proof.
  split.
  - rewrite approve_is_handler.
    intros (user & l & stored & Hload & Hauth & Hcan & _ & Hdoc & Hpending
              & Hdate & Hdb & Hst & Hby & Hat & Hrem)%decision_recorded.
    cbn in *. unfold Interleaving.load, Leave.approveLoad in Hload. cbn in Hload.
    destruct (Leave.loadPending Leave.approveValidators _ _ _ _ _) as [|l']
      eqn:Hl; [done|]. injection Hload as <-.
    apply loadPending_inr
      in Hl as (user' & _ & _ & _ & Hfind & _ & _ & Hgiven).
    cbn in *. rewrite Hgiven in Hrem.
    exists user, (Leave.leaveId l'), (Leave.leaveRequest l'), stored.
    split_and!; done.
  - rewrite reject_is_handler.
    intros (user & l & stored & Hload & Hauth & Hcan & _ & Hdoc & Hpending
              & Hdate & Hdb & Hst & Hby & Hat & Hrem)%decision_recorded.
    cbn in *. unfold Interleaving.load, Leave.rejectLoad in Hload. cbn in Hload.
    destruct (Leave.loadPending Leave.rejectValidators _ _ _ _ _) as [|l']
      eqn:Hl; [done|]. injection Hload as <-.
    apply loadPending_inr
      in Hl as (user' & _ & _ & Hval & Hfind & _ & _ & Hgiven).
    cbn in *. rewrite Hgiven in Hrem.
    exists user, (Leave.leaveId l'), (Leave.leaveRequest l'), stored.
    split_and!; try done.
    unfold Leave.rejectValidators, Leave.check in Hval.
    destruct (isLength 5 200 _); [done|]. by destruct (isMongoId _).
Qed.

Lemma decision_is_recorded_witness :
  exists stored,
    (Leave.approve (Sample.at_ 500) Sample.users Sample.db (Auth.Signed 3%N)
       (Sample.decision Sample.idA (Some "  Approved, safe travels "))).2
      !! 10%N = Some stored /\
    LeaveRequest.remarks stored = Some "Approved, safe travels" /\
    LeaveRequest.approvedBy stored = Some 3%N.
Proof.
  destruct (decision_is_recorded (Sample.at_ 500) Sample.users Sample.db
              (Auth.Signed 3%N)
              (Sample.decision Sample.idA (Some "  Approved, safe travels ")))
    as [Happroved _].
  destruct Happroved
    as (user & oid & doc & stored & Hauth & _ & Hfind & _ & _ & Hdb & _ & Hby
          & _ & Hrem).
  - vm_compute. reflexivity.
  - assert (oid = 10%N) as -> by (vm_compute in Hfind; congruence).
    assert (User._id user = 3%N) as Hid
      by (destruct Hauth as (Htok & _); congruence).
    exists stored. rewrite Hdb, lookup_insert_eq, Hby, Hid, Hrem.
    split_and!; reflexivity.
Defined.

(** ** Days of leave *)

(** X7.  The duration of a leave counts both of its end days and every
    started day in full: it is 1 when the two dates coincide, and n + 2
    when they lie more than n and at most n + 1 whole days apart, in
    either order; it is never less than 1.  This is for two dates at most
    2^53 milliseconds (some 285000 years) apart: the code computes on
    doubles, where the difference of two dates is exact up to 2^53 and the
    quotient by the 86400000 milliseconds of a day, being below 2^27, is
    rounded by less than the 1/86400000 that separates an inexact quotient
    from a whole number, so that [Math.ceil] gives what it gives here.
    Further apart the difference itself is rounded and the days may be one
    off. *)
Theorem duration_counts_started_days d :
  Z.abs (LeaveRequest.toDate d - LeaveRequest.fromDate d) <= 2 ^ 53 ->
  (LeaveRequest.toDate d = LeaveRequest.fromDate d -> LeaveRequest.duration d = 1) /\
  (forall n,
      0 <= n ->
      n * LeaveRequest.msPerDay
        < Z.abs (LeaveRequest.toDate d - LeaveRequest.fromDate d)
        <= (n + 1) * LeaveRequest.msPerDay ->
      LeaveRequest.duration d = n + 2) /\
  1 <= LeaveRequest.duration d.
Proof.
  intros _. unfold LeaveRequest.duration. cbv zeta.
  assert (LeaveRequest.msPerDay = 86400000) as -> by reflexivity.
  set (span := Z.abs (LeaveRequest.toDate d - LeaveRequest.fromDate d)).
  assert (0 <= span) as Hspan by apply Z.abs_nonneg.
  split_and!.
  - intros Heq. unfold span. rewrite Heq, Z.sub_diag. reflexivity.
  - intros n Hn [Hlo Hhi].
    assert ((span + 86400000 - 1) / 86400000 = n + 1) as ->; [|lia].
    symmetry. apply Z.div_unique with (r := span - 1 - n * 86400000); lia.
  - assert (0 <= (span + 86400000 - 1) / 86400000) by (apply Z.div_pos; lia).
    lia.
Qed.

Lemma duration_counts_started_days_witness :
  LeaveRequest.duration (Sample.leave 1%N LeaveRequest.pending) = 2.
Proof.
  destruct (duration_counts_started_days (Sample.leave 1%N LeaveRequest.pending))
    as (_ & Hdays & _).
  - vm_compute. discriminate.
  - apply (Hdays 0); [lia|]. vm_compute. split; [reflexivity|discriminate].
Defined.

(** ** Requests whose leave has started *)

(** X8.  Once the from-date of a pending request is earlier than the
    instant the pre-save hook reads (the request is then overdue), a
    caretaker, warden or admin can neither approve nor reject it: a request that
    passes the validators is answered 500 and the request stays as it was. *)
Theorem overdue_request_cannot_be_decided clk users db token r user oid doc :
  authenticated users token user ->
  User.canApproveLeaves user = true ->
  LeaveRequest.findById db (Leave.id r) = Some (oid, Some doc) ->
  LeaveRequest.status doc = LeaveRequest.pending ->
  LeaveRequest.fromDate doc < t_hook clk ->
  LeaveRequest.isOverdue (t_hook clk) doc = true /\
  (Leave.approveValidators r = [] ->
   Leave.approve clk users db token r = (Leave.approveFailed, db)) /\
  (Leave.rejectValidators r = [] ->
   Leave.reject clk users db token r = (Leave.rejectFailed, db)).
Proof.
  intros Hauth Hcan Hfind Hpending Hpast.
  assert (forall verdict by_ remarks_,
             exists e, LeaveRequest.preSave clk
                         (LeaveRequest.assign verdict clk doc by_ remarks_)
                       = inl e) as Hsave.
  { intros verdict by_ remarks_. unfold LeaveRequest.preSave.
    destruct (LeaveRequest.validate clk _); [|eauto].
    unfold LeaveRequest.preSaveDates. cbn [LeaveRequest.assign LeaveRequest.fromDate].
    destruct (Z.ltb_spec (LeaveRequest.fromDate doc) (t_hook clk)); [eauto|lia]. }
  split_and!.
  - unfold LeaveRequest.isOverdue. rewrite bool_decide_eq_true_2 by done.
    by apply Z.ltb_lt in Hpast as ->.
  - intros Hval. unfold Leave.approve, Leave.approveLoad.
    rewrite (loadPending_found _ _ _ _ _ _ user oid doc) by done.
    rewrite bool_decide_eq_true_2 by done.
    unfold Leave.approveStore, LeaveRequest.approve, LeaveRequest.save.
    cbn [mbind early_return Leave.leaveId Leave.leaveRequest Leave.approverId
         Leave.givenRemarks].
    by destruct (Hsave LeaveRequest.approved (User._id user)
                   (trim <$> Leave.remarks r)) as [e ->].
  - intros Hval. unfold Leave.reject, Leave.rejectLoad.
    rewrite (loadPending_found _ _ _ _ _ _ user oid doc) by done.
    rewrite bool_decide_eq_true_2 by done.
    unfold Leave.rejectStore, LeaveRequest.reject, LeaveRequest.save.
    cbn [mbind early_return Leave.leaveId Leave.leaveRequest Leave.approverId
         Leave.givenRemarks].
    by destruct (Hsave LeaveRequest.rejected (User._id user)
                   (Some (trim (Leave.str (Leave.remarks r))))) as [e ->].
Qed.

Lemma overdue_request_cannot_be_decided_witness :
  Leave.reject (Sample.at_ 5000) Sample.users Sample.db (Auth.Signed 4%N)
    (Sample.decision Sample.idA (Some "Exams that week"))
    = (Leave.rejectFailed, Sample.db).
Proof.
  destruct (overdue_request_cannot_be_decided (Sample.at_ 5000) Sample.users
              Sample.db (Auth.Signed 4%N)
              (Sample.decision Sample.idA (Some "Exams that week"))
              {| User._id := 4%N;
                 User.doc := Sample.person "admin" "admin@nitgoa.ac.in" |}
              10%N (Sample.leave 1%N LeaveRequest.pending))
    as (_ & _ & Hreject).
  - evaluate_actor.
  - vm_compute. reflexivity.
  - vm_compute. reflexivity.
  - reflexivity.
  - simpl. lia.
  - apply Hreject. vm_compute. reflexivity.
Defined.

(** ** More on profile updates *)

Section ProfileLocal.

Variable castPath : string -> JsValue -> JsValue.
Variable schemaValid : User.t -> bool.

(** The collection after a profile update: as it was, or with the
    document of the caller replaced. *)
Lemma updateProfile_writes (strip : gmap string JsValue -> gmap string JsValue)
    users token b :
  (Profile.updateProfile castPath schemaValid strip users token b).2 = users \/
  exists user updateData,
    authenticated users token user /\
    updateData = strip (Profile.profileValidators b).1 /\
    (Profile.updateProfile castPath schemaValid strip users token b).2 =
      <[User._id user := User.doc (Profile.assignAll castPath updateData user)]>
        users.
Proof.
  unfold Profile.updateProfile.
  destruct (Auth.authenticateToken users token) as [|user] eqn:Hauth; [by left|].
  apply authenticateToken_inr in Hauth.
  generalize (Profile.profileValidators b). intros [body' errs].
  unfold mbind, early_return, Leave.validationResult.
  destruct errs; [|by left]. cbn [fst snd].
  unfold Profile.save.
  destruct (negb _); [by left|].
  destruct (User.preSaveEmail _); [by left|].
  destruct (User.preSaveStudent _); [by left|].
  cbn [fst snd]. rewrite assignAll_id. right. eauto.
Qed.

Lemma stored_doc users token user :
  authenticated users token user -> users !! User._id user = Some (User.doc user).
Proof.
  intros (_ & Hfind & _). unfold User.findById in Hfind.
  destruct (users !! User._id user) as [stored|]; [|done].
  cbn in Hfind. by injection Hfind as <-.
Qed.

Lemma usersUpdateProfile_enrolment users token b (id_ : ObjectId) :
  Enrolment.enrolment <$>
    (Profile.usersUpdateProfile castPath schemaValid users token b).2 !! id_
  = Enrolment.enrolment <$> users !! id_.
Proof.
  unfold Profile.usersUpdateProfile.
  destruct (updateProfile_writes Profile.usersStrip users token b)
    as [-> | (user & updateData & Hauth & -> & ->)]; [done|].
  destruct (decide (User._id user = id_)) as [<-|Hne].
  - rewrite lookup_insert_eq, (stored_doc _ _ _ Hauth). cbn.
    unfold Enrolment.enrolment.
    rewrite !assignAll_untouched; [done|..]; unfold Profile.usersStrip.
    + apply lookup_delete_eq.
    + rewrite lookup_delete_ne by done. apply lookup_delete_eq.
  - by rewrite lookup_insert_ne.
Qed.

Lemma updateProfile_local (strip : gmap string JsValue -> gmap string JsValue)
    users token b :
  (forall id_ : ObjectId,
      token <> Auth.Signed id_ ->
      (Profile.updateProfile castPath schemaValid strip users token b).2 !! id_
      = users !! id_) /\
  dom (Profile.updateProfile castPath schemaValid strip users token b).2
    = dom users.
Proof.
  destruct (updateProfile_writes strip users token b)
    as [-> | (user & updateData & Hauth & -> & ->)]; [done|].
  split.
  - intros id_ Hother. rewrite lookup_insert_ne; [done|].
    destruct Hauth as (-> & _). congruence.
  - rewrite dom_insert_L.
    assert (User._id user ∈ dom users).
    { apply elem_of_dom. rewrite (stored_doc _ _ _ Hauth). eauto. }
    apply subseteq_union_1_L. by apply singleton_subseteq_l.
Qed.

End ProfileLocal.

(** X9.  PUT /profile of the user routes also keeps the student id and
    the year of every stored user, whatever the body holds and whether
    the update is saved or refused. *)
Theorem users_profile_update_keeps_enrolment
    (castPath : string -> JsValue -> JsValue) (schemaValid : User.t -> bool)
    (users : User.Collection) (token : Auth.Token) (b : gmap string JsValue)
    (id_ : ObjectId) :
  Enrolment.enrolment <$>
    (Profile.usersUpdateProfile castPath schemaValid users token b).2 !! id_
  = Enrolment.enrolment <$> users !! id_.
Proof. apply usersUpdateProfile_enrolment. Qed.

(** PUT /profile of the auth routes does not: there a student who sends
    another student id has it stored. *)
Example auth_profile_update_changes_student_id :
  (Profile.authUpdateProfile (fun _ v => v) (fun _ => true) Sample.users
     (Auth.Signed 1%N) {[ "studentId" := JStr "21CS9999" ]}).2 !! 1%N
    ≫= (.!! "studentId") = Some (JStr "21CS9999").
Proof. vm_compute. reflexivity. Qed.

(** X10.  A profile update whose body has no keys but the paths the user
    schema declares writes, through either route, to no document but that
    of the user the token names, and neither adds nor removes a user.
    (The handlers assign every key of the body they do not delete; a key
    outside the declared paths, such as [_id], is outside this
    statement.) *)
Theorem profile_update_is_local
    (castPath : string -> JsValue -> JsValue) (schemaValid : User.t -> bool)
    (users : User.Collection) (token : Auth.Token) (b : gmap string JsValue) :
  (forall key, is_Some (b !! key) -> isIn Profile.schemaPaths key = true) ->
  (forall id_ : ObjectId,
      token <> Auth.Signed id_ ->
      (Profile.authUpdateProfile castPath schemaValid users token b).2 !! id_
        = users !! id_ /\
      (Profile.usersUpdateProfile castPath schemaValid users token b).2 !! id_
        = users !! id_) /\
  dom (Profile.authUpdateProfile castPath schemaValid users token b).2
    = dom users /\
  dom (Profile.usersUpdateProfile castPath schemaValid users token b).2
    = dom users.
Proof.
  intros _. unfold Profile.authUpdateProfile, Profile.usersUpdateProfile.
  destruct (updateProfile_local castPath schemaValid Profile.authStrip
              users token b) as [Ha Hda].
  destruct (updateProfile_local castPath schemaValid Profile.usersStrip
              users token b) as [Hu Hdu].
  split_and!; [|done..]. intros id_ Hother. split; [by apply Ha | by apply Hu].
Qed.

Lemma profile_update_is_local_witness :
  (Profile.authUpdateProfile (fun _ v => v) (fun _ => true) Sample.users
     (Auth.Signed 1%N) {[ "name" := JStr "Asha K" ]}).2 !! 2%N
  = Sample.users !! 2%N.
Proof.
  destruct (profile_update_is_local (fun _ v => v) (fun _ => true) Sample.users
              (Auth.Signed 1%N) {[ "name" := JStr "Asha K" ]}) as [Hlocal _].
  - intros key [v [<- _]%lookup_singleton_Some]. reflexivity.
  - apply Hlocal. discriminate.
Defined.

(** ** The admin routes on users *)

Lemma requireAdmin_cases {A} user :
  Auth.requireAdmin (A := A) user =
    if User.isAdmin user then inr tt
    else inl (respond 403 (Error "Access denied. Insufficient permissions.")).
Proof.
  unfold Auth.requireAdmin, Auth.requireRole, User.isAdmin, returnIf.
  by destruct (User.roleIn _ _).
Qed.

(** Only a string passes the role validator. *)
Lemma role_is_string (role : JsValue) :
  isIn Admin.allRoles (toString role) = true -> exists r, role = JStr r.
Proof.
  destruct role as [| |[]|n|s|]; try discriminate; [|eauto].
  cbn [toString]. destruct (Z.to_int n) as [[]|[]]; discriminate.
Qed.

Section AdminRoutes.

Variable schemaValid : User.t -> bool.

(** What the two handlers may write: nothing, or one path of the document
    of a stored user who is not the admin asking. *)
Lemma save_path_writes users user key value :
  match Profile.save schemaValid users (User.set user key value) with
  | inl _ => True
  | inr users' =>
      users' = <[User._id user := <[key := value]> (User.doc user)]> users
  end.
Proof.
  unfold Profile.save.
  destruct (negb _); [done|].
  destruct (User.preSaveEmail _); [done|].
  by destruct (User.preSaveStudent _).
Qed.

Lemma updateRole_writes users token id_ role :
  ((Admin.updateRole schemaValid users token id_ role).2 = users /\
   status (Admin.updateRole schemaValid users token id_ role).1 <> 200) \/
  exists actor oid target,
    authenticated users token actor /\
    User.isAdmin actor = true /\
    isIn Admin.allRoles (toString role) = true /\
    castObjectId id_ = Some oid /\
    users !! oid = Some target /\
    oid <> User._id actor /\
    Admin.updateRole schemaValid users token id_ role =
      (respond 200 (Message "User role updated successfully"
                      {| User._id := oid; User.doc := <["role" := role]> target |}),
       <[oid := <["role" := role]> target]> users).
Proof.
  unfold Admin.updateRole, Admin.finish. cbv zeta.
  destruct (Auth.authenticateToken users token) as [res|actor] eqn:Hauth.
  { left. split; [done|]. apply authenticateToken_inl in Hauth.
    rewrite outcome_success in Hauth. cbn. tauto. }
  apply authenticateToken_inr in Hauth. cbn [mbind early_return].
  rewrite requireAdmin_cases.
  destruct (User.isAdmin actor) eqn:Hadmin; [|left; by split].
  cbn [mbind early_return].
  destruct (Admin.roleValidators id_ role) as [|e errs] eqn:Hval;
    [|left; by split].
  cbn [Leave.validationResult mbind early_return].
  assert (isIn Admin.allRoles (toString role) = true) as Hrole.
  { unfold Admin.roleValidators, Leave.check in Hval.
    destruct (isIn Admin.allRoles _); [done|]. by destruct (isMongoId id_). }
  unfold Admin.findUser.
  destruct (castObjectId id_) as [oid|] eqn:Hcast; [|left; by split].
  cbn [fmap option_fmap option_map]. unfold User.findById.
  destruct (users !! oid) as [target|] eqn:Htarget; [|left; by split].
  cbn [fmap option_fmap option_map User._id]. unfold returnIf.
  destruct (N.eqb_spec oid (User._id actor)) as [Heq|Hne]; [left; by split|].
  cbn [mbind early_return].
  pose proof (save_path_writes users {| User._id := oid; User.doc := target |}
                "role" role) as Hsave.
  destruct (Profile.save _ _ _) as [e|users']; [left; by split|].
  cbn in Hsave. subst users'. right. exists actor, oid, target. by split_and!.
Qed.

Lemma updateStatus_writes users token id_ isActive :
  ((Admin.updateStatus schemaValid users token id_ isActive).2 = users /\
   status (Admin.updateStatus schemaValid users token id_ isActive).1 <> 200) \/
  exists actor oid target flag,
    authenticated users token actor /\
    User.isAdmin actor = true /\
    Leave.castBoolean isActive = Some flag /\
    castObjectId id_ = Some oid /\
    users !! oid = Some target /\
    oid <> User._id actor /\
    Admin.updateStatus schemaValid users token id_ isActive =
      (respond 200
         (Message (if truthy isActive then "User activated successfully"
                   else "User deactivated successfully")
            {| User._id := oid;
               User.doc := <["isActive" := JBool flag]> target |}),
       <[oid := <["isActive" := JBool flag]> target]> users).
Proof.
  unfold Admin.updateStatus, Admin.finish. cbv zeta.
  destruct (Auth.authenticateToken users token) as [res|actor] eqn:Hauth.
  { left. split; [done|]. apply authenticateToken_inl in Hauth.
    rewrite outcome_success in Hauth. cbn. tauto. }
  apply authenticateToken_inr in Hauth. cbn [mbind early_return].
  rewrite requireAdmin_cases.
  destruct (User.isAdmin actor) eqn:Hadmin; [|left; by split].
  cbn [mbind early_return].
  destruct (Admin.statusValidators id_ isActive) as [|e errs] eqn:Hval;
    [|left; by split].
  cbn [Leave.validationResult mbind early_return].
  unfold Admin.findUser.
  destruct (castObjectId id_) as [oid|] eqn:Hcast; [|left; by split].
  cbn [fmap option_fmap option_map]. unfold User.findById.
  destruct (users !! oid) as [target|] eqn:Htarget; [|left; by split].
  cbn [fmap option_fmap option_map User._id]. unfold returnIf.
  destruct (N.eqb_spec oid (User._id actor)) as [Heq|Hne]; [left; by split|].
  cbn [mbind early_return].
  destruct (Leave.castBoolean isActive) as [flag|] eqn:Hflag; [|left; by split].
  pose proof (save_path_writes users {| User._id := oid; User.doc := target |}
                "isActive" (JBool flag)) as Hsave.
  destruct (Profile.save _ _ _) as [e|users']; [left; by split|].
  cbn in Hsave. subst users'. right. exists actor, oid, target, flag.
  by split_and!.
Qed.

End AdminRoutes.

(** X11.  PUT /users/:id/role, whatever it is sent and whatever it
    answers: the document of the user the token names stays as it was (an
    admin cannot change their own role), in every document every path
    other than [role] and [updatedAt] stays as it was ([updatedAt] is what
    the [timestamps] option writes along with a change), and no user is
    added or removed.  An authenticated user who is not an admin is
    answered 403. *)
Theorem role_update_writes_one_role (schemaValid : User.t -> bool)
    users token id_ role :
  (forall uid,
      token = Auth.Signed uid ->
      (Admin.updateRole schemaValid users token id_ role).2 !! uid
        = users !! uid) /\
  (forall (uid : ObjectId) (key : string),
      key <> "role" ->
      key <> "updatedAt" ->
      (Admin.updateRole schemaValid users token id_ role).2 !! uid ≫= (.!! key)
        = users !! uid ≫= (.!! key)) /\
  dom (Admin.updateRole schemaValid users token id_ role).2 = dom users /\
  (forall actor,
      authenticated users token actor ->
      User.isAdmin actor = false ->
      Admin.updateRole schemaValid users token id_ role
        = (respond 403 (Error "Access denied. Insufficient permissions."), users)).
Proof.
  split_and!.
  - intros uid ->.
    destruct (updateRole_writes schemaValid users (Auth.Signed uid) id_ role)
      as [[-> _] | (actor & oid & target & (Htok & _) & _ & _ & _ & _ & Hne & ->)];
      [done|].
    cbn [snd]. rewrite lookup_insert_ne; [done|]. congruence.
  - intros uid key Hkey _.
    destruct (updateRole_writes schemaValid users token id_ role)
      as [[-> _] | (actor & oid & target & _ & _ & _ & _ & Htarget & _ & ->)];
      [done|].
    cbn [snd]. destruct (decide (oid = uid)) as [->|Hne].
    + rewrite lookup_insert_eq, Htarget. cbn. by rewrite lookup_insert_ne.
    + by rewrite lookup_insert_ne.
  - destruct (updateRole_writes schemaValid users token id_ role)
      as [[-> _] | (actor & oid & target & _ & _ & _ & _ & Htarget & _ & ->)];
      [done|].
    cbn [snd]. rewrite dom_insert_L. apply subseteq_union_1_L.
    apply singleton_subseteq_l, elem_of_dom. eauto.
  - intros actor Hauth Hadmin. unfold Admin.updateRole, Admin.finish.
    rewrite (authenticateToken_ok _ _ _ Hauth). cbn [mbind early_return].
    by rewrite requireAdmin_cases, Hadmin.
Qed.

Lemma role_update_writes_one_role_witness :
  (Admin.updateRole (fun _ => true) Sample.users (Auth.Signed 4%N)
     "000000000000000000000004" (JStr "student")).2 !! 4%N
  = Sample.users !! 4%N.
Proof.
  destruct (role_update_writes_one_role (fun _ => true) Sample.users
              (Auth.Signed 4%N) "000000000000000000000004" (JStr "student"))
    as [Hown _].
  apply Hown. reflexivity.
Defined.

(** X12.  A role change applies at once: when PUT /users/:id/role is
    answered 200, the user addressed is another user than the admin, the
    new role is one of the four, and from the next request on
    [authenticateToken] hands that user on with the new role, so that the
    user may approve leaves exactly when the new role is caretaker, warden
    or admin. *)
Theorem role_update_applies_at_once (schemaValid : User.t -> bool)
    users token id_ role :
  status (Admin.updateRole schemaValid users token id_ role).1 = 200 ->
  exists oid r,
    castObjectId id_ = Some oid /\
    token <> Auth.Signed oid /\
    role = JStr r /\ isIn Admin.allRoles r = true /\
    forall user',
      authenticated (Admin.updateRole schemaValid users token id_ role).2
        (Auth.Signed oid) user' ->
      User.role user' = JStr r /\
      User.canApproveLeaves user' = isIn ["caretaker"; "warden"; "admin"] r /\
      User.isStudent user' = isIn ["student"] r.
Proof.
  intros Hok.
  destruct (updateRole_writes schemaValid users token id_ role)
    as [[_ Hcode] |
        (actor & oid & target & (Htok & _) & _ & Hrole & Hcast & _ & Hne & ->)];
    [done|].
  destruct (role_is_string role Hrole) as [r ->]. cbn [toString] in Hrole.
  exists oid, r. split_and!; [done|congruence|done|done|].
  intros user' (Htok' & Hfind & _). cbn [snd User._id] in Hfind.
  injection Htok' as Hid.
  assert (User.role user' = JStr r) as Hr.
  { unfold User.findById in Hfind. rewrite <- Hid, lookup_insert_eq in Hfind.
    cbn in Hfind. injection Hfind as <-.
    unfold User.role, User.get. cbn. by rewrite lookup_insert_eq. }
  unfold User.canApproveLeaves, User.isStudent, User.roleIn. by rewrite Hr.
Qed.

Lemma role_update_applies_at_once_witness :
  exists oid r,
    castObjectId Sample.idB = Some oid /\ JStr "caretaker" = JStr r.
Proof.
  destruct (role_update_applies_at_once (fun _ => true)
              (<[11%N := Sample.person "student" "tara@nitgoa.ac.in"]> Sample.users)
              (Auth.Signed 4%N) Sample.idB (JStr "caretaker"))
    as (oid & r & Hcast & _ & Hrole & _).
  - vm_compute. reflexivity.
  - exists oid, r. split; [exact Hcast | exact Hrole].
Defined.

(** A student cannot approve; once the admin has made her a caretaker she
    can, with the token she already had. *)
Example promoted_student_approves :
  let users := <[11%N := Sample.person "student" "tara@nitgoa.ac.in"]> Sample.users in
  let users' := (Admin.updateRole (fun _ => true) users (Auth.Signed 4%N)
                   Sample.idB (JStr "caretaker")).2 in
  status (Leave.approve (Sample.at_ 500) users Sample.db (Auth.Signed 11%N)
            (Sample.decision Sample.idA None)).1 = 403 /\
  status (Leave.approve (Sample.at_ 500) users' Sample.db (Auth.Signed 11%N)
            (Sample.decision Sample.idA None)).1 = 200.
Proof. cbv zeta. split; vm_compute; reflexivity. Qed.

(** X13.  PUT /users/:id/status: the document of the user the token names
    stays as it was (an admin cannot change their own status).  When the
    answer is 200 the flag of the user addressed is stored as Mongoose
    casts the value sent, and if that is false every later request with a
    token of that user is stopped by [authenticateToken] with 401
    "Account is deactivated.". *)
Theorem status_update_locks_out (schemaValid : User.t -> bool)
    users token id_ isActive :
  (forall uid,
      token = Auth.Signed uid ->
      (Admin.updateStatus schemaValid users token id_ isActive).2 !! uid
        = users !! uid) /\
  (status (Admin.updateStatus schemaValid users token id_ isActive).1 = 200 ->
   exists oid flag,
     castObjectId id_ = Some oid /\
     Leave.castBoolean isActive = Some flag /\
     (Admin.updateStatus schemaValid users token id_ isActive).2 !! oid
       ≫= (.!! "isActive") = Some (JBool flag) /\
     (flag = false ->
      Auth.authenticateToken (A := Leave.Shown)
        (Admin.updateStatus schemaValid users token id_ isActive).2
        (Auth.Signed oid)
      = inl (respond 401 (Error "Account is deactivated.")))).
Proof.
  split.
  - intros uid ->.
    destruct (updateStatus_writes schemaValid users (Auth.Signed uid) id_ isActive)
      as [[-> _] |
          (actor & oid & target & flag & (Htok & _) & _ & _ & _ & _ & Hne & ->)];
      [done|].
    cbn [snd]. rewrite lookup_insert_ne; [done|]. congruence.
  - intros Hok.
    destruct (updateStatus_writes schemaValid users token id_ isActive)
      as [[_ Hcode] |
          (actor & oid & target & flag & _ & _ & Hflag & Hcast & _ & _ & ->)];
      [done|].
    exists oid, flag. cbn [snd]. rewrite lookup_insert_eq. cbn.
    rewrite lookup_insert_eq. split_and!; try done.
    intros ->. unfold Auth.authenticateToken, User.findById.
    rewrite lookup_insert_eq. cbn. unfold User.isActive, User.get. cbn.
    by rewrite lookup_insert_eq.
Qed.

Lemma status_update_locks_out_witness :
  exists oid flag,
    castObjectId "000000000000000000000002" = Some oid /\
    Leave.castBoolean (JBool false) = Some flag.
Proof.
  destruct (status_update_locks_out (fun _ => true) Sample.users
              (Auth.Signed 4%N) "000000000000000000000002" (JBool false))
    as [_ Hlocked].
  destruct Hlocked as (oid & flag & Hcast & Hflag & _).
  - vm_compute. reflexivity.
  - exists oid, flag. split; [exact Hcast | exact Hflag].
Defined.

(** Once deactivated, Ravi is refused by every route; and a body that
    says ["false"] in a string deactivates while the message says
    activated. *)
Example deactivated_student_is_refused :
  let users' := (Admin.updateStatus (fun _ => true) Sample.users
                   (Auth.Signed 4%N) "000000000000000000000002" (JBool false)).2 in
  (Leave.apply (Sample.at_ 100) 20%N users' Sample.db (Auth.Signed 2%N)
     (Sample.draft (Leave.Instant 3000) (Leave.Instant 4000)))
  = (respond 401 (Error "Account is deactivated."), Sample.db) /\
  body (Admin.updateStatus (fun _ => true) Sample.users (Auth.Signed 4%N)
          "000000000000000000000002" (JStr "false")).1
  = Message "User activated successfully"
      {| User._id := 2%N;
         User.doc := <["isActive" := JBool false]>
                       (Sample.person "student" "ravi@nitgoa.ac.in") |}.
Proof. cbv zeta. split; vm_compute; reflexivity. Qed.

(** ** Signing in *)

Lemma findOne_stored users email_ user :
  Login.findOne users email_ = Some user ->
  users !! User._id user = Some (User.doc user) /\
  Login.hasEmail (Login.emailSetters email_) user = true.
Proof.
  unfold Login.findOne. intros Hhead.
  apply head_Some_elem_of in Hhead.
  apply list_elem_of_filter in Hhead as [Hemail Hin].
  apply list_elem_of_fmap in Hin as ([k d] & -> & Hin).
  apply elem_of_map_to_list in Hin. done.
Qed.

Section LoginRoutes.

Variable schemaValid : User.t -> bool.

(** The hook on student fields refuses every new user: the route creates
    students, and gives them no student id. *)
Lemma newUser_refused clk newId users p :
  exists e, Profile.save schemaValid users (Login.newUser clk newId p) = inl e.
Proof.
  unfold Profile.save. destruct (negb _); [eauto|].
  destruct (User.preSaveEmail _); [eauto|].
  assert (User.preSaveStudent (Login.newUser clk newId p)
          = Some "Student ID is required for students") as ->; [|eauto].
  unfold User.preSaveStudent, User.isStudent, User.roleIn, User.role, User.get,
    Login.newUser. cbn [User.doc].
  rewrite !lookup_insert_ne, lookup_insert_eq by done. cbn.
  rewrite !lookup_insert_ne by done. by rewrite lookup_singleton_ne.
Qed.

Lemma google_writes clk newId users idToken :
  ((Login.google schemaValid clk newId users idToken).2 = users /\
   status (Login.google schemaValid clk newId users idToken).1 <> 200) \/
  exists p user,
    idToken = Login.Verified p /\
    User.endsWith "@nitgoa.ac.in" (Login.email p) = true /\
    Login.findOne users (Login.email p) = Some user /\
    Login.google schemaValid clk newId users idToken =
      (respond 200 (Message "Login successful"
                      (Auth.Signed (User._id user), Login.touch clk p user)),
       <[User._id user := User.doc (Login.touch clk p user)]> users).
Proof.
  unfold Login.google. cbv zeta.
  destruct idToken as [|[]|p]; try (left; by split).
  destruct (User.endsWith _ _) eqn:Hdomain; cbn [negb]; [|left; by split].
  destruct (Login.findOne users (Login.email p)) as [user|] eqn:Hfind.
  - unfold Profile.save.
    destruct (negb _); [left; by split|].
    destruct (User.preSaveEmail _); [left; by split|].
    destruct (User.preSaveStudent _); [left; by split|].
    right. exists p, user. by split_and!.
  - destruct (newUser_refused clk newId users p) as [e ->]. left. by split.
Qed.

End LoginRoutes.

(** X14.  POST /google never adds a user to the directory.  For an
    address of the institute that no stored user has, the new user is
    built as a student without student id, the pre-save hook of the model
    refuses it, nothing is stored and the answer is 500 "Authentication
    failed". *)
Theorem sign_in_adds_no_user (schemaValid : User.t -> bool)
    clk newId users idToken :
  dom (Login.google schemaValid clk newId users idToken).2 = dom users /\
  (forall p,
      idToken = Login.Verified p ->
      Login.findOne users (Login.email p) = None ->
      (Login.google schemaValid clk newId users idToken).2 = users /\
      (User.endsWith "@nitgoa.ac.in" (Login.email p) = true ->
       (Login.google schemaValid clk newId users idToken).1
         = respond 500 (Error "Authentication failed"))).
Proof.
  split.
  - destruct (google_writes schemaValid clk newId users idToken)
      as [[-> _] | (p & user & _ & _ & [Hstored _]%findOne_stored & ->)];
      [done|].
    cbn [snd]. rewrite dom_insert_L. apply subseteq_union_1_L.
    apply singleton_subseteq_l, elem_of_dom. eauto.
  - intros p -> Hnone. unfold Login.google. cbv zeta. rewrite Hnone.
    destruct (newUser_refused schemaValid clk newId users p) as [e ->].
    destruct (User.endsWith _ _); cbn [negb]; [by split|]. by split.
Qed.

Lemma sign_in_adds_no_user_witness :
  (Login.google (fun _ => true) (Sample.at_ 100) 30%N Sample.users
     (Login.Verified
        {| Login.email := "new@nitgoa.ac.in"; Login.name := JStr "New";
           Login.picture := JUndefined; Login.sub := JStr "g-7" |})).1
  = respond 500 (Error "Authentication failed").
Proof.
  destruct (sign_in_adds_no_user (fun _ => true) (Sample.at_ 100) 30%N
              Sample.users
              (Login.Verified
                 {| Login.email := "new@nitgoa.ac.in"; Login.name := JStr "New";
                    Login.picture := JUndefined; Login.sub := JStr "g-7" |}))
    as [_ Hnew].
  destruct (Hnew _ eq_refl) as [_ Hfailed].
  - vm_compute. reflexivity.
  - apply Hfailed. vm_compute. reflexivity.
Defined.



(** Asha, who is stored, signs in and her Google id is recorded; the
    address is matched as the [email] path stores it, in lower case. *)
Example stored_user_signs_in :
  let out := Login.google (fun _ => true) (Sample.at_ 100) 30%N Sample.users
               (Login.Verified
                  {| Login.email := "Asha@nitgoa.ac.in"; Login.name := JStr "Asha";
                     Login.picture := JStr "a.png"; Login.sub := JStr "g-1" |}) in
  status out.1 = 200 /\
  out.2 !! 1%N ≫= (.!! "googleId") = Some (JStr "g-1") /\
  out.2 !! 1%N ≫= (.!! "lastLogin") = Some (JNum 100).
Proof. cbv zeta. split_and!; vm_compute; reflexivity. Qed.

(** ** The two lists of requests *)

Section ListsFacts.

Variable createdAt : ObjectId -> Z.
Variable nows : nat -> Z.

#[local] Existing Instance Lists.newerFirst_dec.

#[local] Instance newerFirst_total : Total (Lists.newerFirst createdAt).
Proof. intros x y. unfold Lists.newerFirst. lia. Qed.

(** What a sorted selection of the collection holds: the documents that
    pass the filter, each once, newest first. *)
Lemma selection (db : LeaveRequest.Collection)
    (P : ObjectId * LeaveRequest.t -> Prop) `{!forall kv, Decision (P kv)} :
  let l := Lists.sortNewest createdAt (filter P (map_to_list db)) in
  (forall k d, (k, d) ∈ l <-> db !! k = Some d /\ P (k, d)) /\
  NoDup l.*1 /\
  Sorted (fun a b => createdAt b <= createdAt a) l.*1.
Proof.
  cbv zeta. unfold Lists.sortNewest.
  pose proof (merge_sort_Permutation (Lists.newerFirst createdAt)
                (filter P (map_to_list db))) as Hperm.
  split_and!.
  - intros k d. rewrite Hperm, list_elem_of_filter, elem_of_map_to_list. tauto.
  - rewrite Hperm. apply NoDup_fmap_2_strong.
    + intros [k1 d1] [k2 d2] [_ H1%elem_of_map_to_list]%list_elem_of_filter
        [_ H2%elem_of_map_to_list]%list_elem_of_filter Heq.
      cbn in Heq. subst k2. congruence.
    + apply NoDup_filter, NoDup_map_to_list.
  - apply (Sorted_fmap fst (Lists.newerFirst createdAt)); [done|].
    apply Sorted_merge_sort, _.
Qed.

Lemma imap_item_ids (l : list (ObjectId * LeaveRequest.t)) :
  Lists.id <$> imap (Lists.item nows) l = l.*1.
Proof.
  assert (forall g : nat -> ObjectId * LeaveRequest.t -> Lists.Item,
             (forall i kv, Lists.id (g i kv) = kv.1) ->
             Lists.id <$> imap g l = l.*1) as Hgen.
  { induction l as [|x l IH]; intros g Hg; [done|].
    cbn. rewrite Hg. f_equal. apply IH. intros i kv. apply Hg. }
  by apply Hgen.
Qed.

Lemma imap_item_lookup (l : list (ObjectId * LeaveRequest.t)) i it :
  imap (Lists.item nows) l !! i = Some it <->
  exists kv, l !! i = Some kv /\ it = Lists.item nows i kv.
Proof.
  rewrite list_lookup_imap. destruct (l !! i) as [kv|]; cbn.
  - split; [intros [= <-]; eauto | intros (kv' & [= <-] & ->); done].
  - split; [done | by intros (? & ? & _)].
Qed.

End ListsFacts.

(** X16.  GET /my-requests shows a student their own requests and no
    others: the list holds exactly the stored requests whose student is
    the sender, each once, the newest first, each with its duration and
    with the overdue flag as of the instant it was read.  Who is not a
    student is answered 403. *)
Theorem my_requests_are_the_senders (createdAt : ObjectId -> Z) (nows : nat -> Z)
    users db token user :
  authenticated users token user ->
  (User.isStudent user = false ->
   Lists.myRequests createdAt nows users db token
     = respond 403 (Error "Access denied. Insufficient permissions.")) /\
  (User.isStudent user = true ->
   exists items,
     Lists.myRequests createdAt nows users db token
       = respond 200 (Payload items) /\
     (forall k d,
         (exists it, it ∈ items /\ Lists.id it = k /\ Lists.request it = d) <->
         db !! k = Some d /\ LeaveRequest.student d = User._id user) /\
     NoDup (Lists.id <$> items) /\
     Sorted (fun a b => createdAt b <= createdAt a) (Lists.id <$> items) /\
     (forall i it,
         items !! i = Some it ->
         Lists.duration it = LeaveRequest.duration (Lists.request it) /\
         Lists.isOverdue it
           = LeaveRequest.isOverdue (nows i) (Lists.request it))).
Proof.
  intros Hauth. unfold Lists.myRequests.
  rewrite (authenticateToken_ok _ _ _ Hauth). cbn [mbind early_return].
  split; intros Hrole.
  - by rewrite (requireStudent_stop _ Hrole).
  - rewrite (requireStudent_pass _ Hrole). cbn [mbind early_return Lists.unwrap].
    eexists. split; [reflexivity|].
    unfold Lists.getStudentRequests.
    destruct (selection createdAt db
                (fun kv => LeaveRequest.student kv.2 = User._id user))
      as (Hin & Hnodup & Hsorted).
    rewrite imap_item_ids. split_and!; [|done|done|].
    + intros k d. rewrite <- (Hin k d). split.
      * intros (it & [i Hi]%list_elem_of_lookup & <- & <-).
        apply imap_item_lookup in Hi as ([k' d'] & Hkv & ->). cbn.
        apply list_elem_of_lookup. eauto.
      * intros [i Hi]%list_elem_of_lookup.
        exists (Lists.item nows i (k, d)). split_and!; [|done..].
        apply list_elem_of_lookup. exists i. apply imap_item_lookup. eauto.
    + intros i it Hi. by apply imap_item_lookup in Hi as (kv & _ & ->).
Qed.

Lemma my_requests_are_the_senders_witness :
  Lists.myRequests (fun k => Z.of_N k) (fun _ => 100) Sample.users Sample.db
    (Auth.Signed 3%N)
  = respond 403 (Error "Access denied. Insufficient permissions.").
Proof.
  destruct (my_requests_are_the_senders (fun k => Z.of_N k) (fun _ => 100)
              Sample.users Sample.db (Auth.Signed 3%N) Sample.caretaker)
    as [Hdenied _].
  - evaluate_actor.
  - apply Hdenied. vm_compute. reflexivity.
Defined.

(** X17.  GET /pending shows a caretaker, warden or admin exactly the
    stored requests that are pending, each once, the newest first, each
    with the overdue flag as of the instant it was read.  Who cannot
    approve is answered 403. *)
Theorem pending_list_is_the_pending (createdAt : ObjectId -> Z) (nows : nat -> Z)
    users db token user :
  authenticated users token user ->
  (User.canApproveLeaves user = false ->
   Lists.pending createdAt nows users db token
     = respond 403 (Error "Access denied. You cannot approve leave requests.")) /\
  (User.canApproveLeaves user = true ->
   exists items,
     Lists.pending createdAt nows users db token = respond 200 (Payload items) /\
     (forall k d,
         (exists it, it ∈ items /\ Lists.id it = k /\ Lists.request it = d) <->
         db !! k = Some d /\ LeaveRequest.status d = LeaveRequest.pending) /\
     NoDup (Lists.id <$> items) /\
     Sorted (fun a b => createdAt b <= createdAt a) (Lists.id <$> items) /\
     (forall i it,
         items !! i = Some it ->
         Lists.isOverdue it
           = (LeaveRequest.fromDate (Lists.request it) <? nows i))).
Proof.
  intros Hauth. unfold Lists.pending, Auth.canApproveLeave, returnIf.
  rewrite (authenticateToken_ok _ _ _ Hauth). cbn [mbind early_return].
  split; intros ->; cbn [negb mbind early_return Lists.unwrap]; [done|].
  eexists. split; [reflexivity|].
  unfold Lists.getPendingRequests.
  destruct (selection createdAt db
              (fun kv => LeaveRequest.status kv.2 = LeaveRequest.pending))
    as (Hin & Hnodup & Hsorted).
  rewrite imap_item_ids. split_and!; [|done|done|].
  - intros k d. rewrite <- (Hin k d). split.
    + intros (it & [i Hi]%list_elem_of_lookup & <- & <-).
      apply imap_item_lookup in Hi as ([k' d'] & Hkv & ->). cbn.
      apply list_elem_of_lookup. eauto.
    + intros [i Hi]%list_elem_of_lookup.
      exists (Lists.item nows i (k, d)). split_and!; [|done..].
      apply list_elem_of_lookup. exists i. apply imap_item_lookup. eauto.
  - intros i it Hi.
    pose proof Hi as (kv & Hkv & ->)%imap_item_lookup. cbn.
    assert (kv ∈ Lists.sortNewest createdAt
                   (filter (fun kv => LeaveRequest.status kv.2 = LeaveRequest.pending)
                      (map_to_list db))) as Hel
      by (apply list_elem_of_lookup; eauto).
    destruct kv as [k d]. apply Hin in Hel as [_ Hpending]. cbn in Hpending.
    unfold LeaveRequest.isOverdue. cbn. by rewrite bool_decide_eq_true_2.
Qed.

Lemma pending_list_is_the_pending_witness :
  exists items,
    Lists.pending (fun k => Z.of_N k) (fun _ => 5000) Sample.users Sample.db
      (Auth.Signed 3%N) = respond 200 (Payload items) /\
    Lists.id <$> items = [10%N].
Proof.
  destruct (pending_list_is_the_pending (fun k => Z.of_N k) (fun _ => 5000)
              Sample.users Sample.db (Auth.Signed 3%N) Sample.caretaker)
    as [_ Hshown].
  - evaluate_actor.
  - destruct Hshown as (items & Hres & _); [vm_compute; reflexivity|].
    exists items. split; [exact Hres|].
    assert (Lists.pending (fun k => Z.of_N k) (fun _ => 5000) Sample.users
              Sample.db (Auth.Signed 3%N)
            = respond 200
                (Payload [Lists.item (fun _ => 5000) 0
                            (10%N, Sample.leave 1%N LeaveRequest.pending)]))
      as Hrun by (vm_compute; reflexivity).
    rewrite Hres in Hrun. injection Hrun as ->. reflexivity.
Defined.

(** ** The statistics of a student *)

Lemma count_split {A} (q a b c : A -> bool) (l : list A) :
  (forall x, q x = true ->
             (a x = true /\ b x = false /\ c x = false) \/
             (a x = false /\ b x = true /\ c x = false) \/
             (a x = false /\ b x = false /\ c x = true)) ->
  length (filter (fun x => q x = true) l) =
    (length (filter (fun x => (q x && a x)%bool = true) l) +
     length (filter (fun x => (q x && b x)%bool = true) l) +
     length (filter (fun x => (q x && c x)%bool = true) l))%nat.
Proof.
  intros Hcase. induction l as [|x l IH]; [done|].
  rewrite !filter_cons. destruct (q x) eqn:Hq; cbn [andb].
  - destruct (Hcase x Hq) as [(-> & -> & ->) | [(-> & -> & ->) | (-> & -> & ->)]];
      repeat case_decide; try done; cbn [length]; lia.
  - repeat case_decide; try done.
Qed.

Lemma ceilDays_duration d :
  LeaveRequest.fromDate d <= LeaveRequest.toDate d ->
  Stats.ceilDays (LeaveRequest.toDate d - LeaveRequest.fromDate d) + 1
    = LeaveRequest.duration d.
Proof.
  intros Horder. unfold Stats.ceilDays, LeaveRequest.duration. cbv zeta.
  rewrite Z.abs_eq by lia.
  assert (LeaveRequest.msPerDay = 86400000) as -> by reflexivity.
  set (span := LeaveRequest.toDate d - LeaveRequest.fromDate d).
  assert (0 <= span) by (unfold span; lia).
  f_equal.
  pose proof (Z.div_mod (- span) 86400000 ltac:(lia)) as Hneg.
  pose proof (Z.mod_pos_bound (- span) 86400000 ltac:(lia)) as Hbound.
  apply Z.div_unique with (r := 86400000 - 1 - (- span) mod 86400000); lia.
Qed.

Lemma duration_positive d : 1 <= LeaveRequest.duration d.
Proof.
  unfold LeaveRequest.duration. cbv zeta.
  assert (LeaveRequest.msPerDay = 86400000) as -> by reflexivity.
  pose proof (Z.abs_nonneg (LeaveRequest.toDate d - LeaveRequest.fromDate d)).
  assert (0 <= (Z.abs (LeaveRequest.toDate d - LeaveRequest.fromDate d)
                + 86400000 - 1) / 86400000) by (apply Z.div_pos; lia).
  lia.
Qed.

(** X18.  The numbers GET /stats gives a student add up: the total of
    their requests is the sum of the approved, the rejected and the
    pending ones, and the approved ones are the day leaves and the home
    leaves together.  When every stored request is consistent (so that
    its to-date is not before its from-date), the total of days is the sum
    of the durations of the approved leaves, and is at least their
    number. *)
Theorem student_stats_add_up db studentId :
  let stats := Stats.studentStats db studentId in
  (Stats.totalRequests stats
   = Stats.approvedRequests stats + Stats.rejectedRequests stats
     + Stats.pendingRequests stats)%nat /\
  (Stats.approvedRequests stats
   = Stats.dayLeaves stats + Stats.homeLeaves stats)%nat /\
  (Invariants.allConsistent db ->
   Stats.totalDays stats = Stats.durations db studentId /\
   Z.of_nat (Stats.approvedRequests stats) <= Stats.totalDays stats).
Proof.
  cbv zeta. unfold Stats.studentStats, Stats.countDocuments, LeaveRequest.find.
  cbn [Stats.totalRequests Stats.approvedRequests Stats.rejectedRequests
       Stats.pendingRequests Stats.dayLeaves Stats.homeLeaves Stats.totalDays].
  split_and!.
  - apply (count_split (Stats.ofStudent studentId)
             (Stats.hasStatus LeaveRequest.approved)
             (Stats.hasStatus LeaveRequest.rejected)
             (Stats.hasStatus LeaveRequest.pending)).
    intros d _. unfold Stats.hasStatus.
    destruct (LeaveRequest.status d); cbn; tauto.
  - pose proof (count_split
                  (fun d => Stats.ofStudent studentId d
                            && Stats.hasStatus LeaveRequest.approved d)%bool
                  (Stats.hasType LeaveRequest.day)
                  (Stats.hasType LeaveRequest.home)
                  (fun _ => false) (snd <$> map_to_list db)) as Hsplit.
    rewrite Hsplit.
    + assert (forall l : list LeaveRequest.t,
                 filter (fun d => (Stats.ofStudent studentId d
                                   && Stats.hasStatus LeaveRequest.approved d
                                   && false)%bool = true) l = []) as ->;
        [|cbn [length]; lia].
      induction l as [|x l IH]; [done|]. rewrite filter_cons.
      rewrite andb_false_r. by case_decide.
    + intros d _. unfold Stats.hasType. destruct (LeaveRequest.type d); tauto.
  - intros Hdb. unfold Stats.durations, Stats.approvedLeaves, LeaveRequest.find.
    assert (forall d, d ∈ (snd <$> map_to_list db) ->
                      LeaveRequest.fromDate d <= LeaveRequest.toDate d) as Hordered.
    { intros d ([k d'] & -> & Hin%elem_of_map_to_list)%list_elem_of_fmap.
      by destruct (Hdb k d' Hin). }
    revert Hordered. generalize (snd <$> map_to_list db). intros l Hordered.
    set (q := fun d => (Stats.ofStudent studentId d
                        && Stats.hasStatus LeaveRequest.approved d)%bool).
    assert (forall acc,
               foldl (fun total leave =>
                        total + (Stats.ceilDays (LeaveRequest.toDate leave
                                                 - LeaveRequest.fromDate leave) + 1))
                 acc (filter (fun d => q d = true) l)
               = acc + foldr (fun leave total => LeaveRequest.duration leave + total)
                         0 (filter (fun d => q d = true) l) /\
               Z.of_nat (length (filter (fun d => q d = true) l))
               <= foldr (fun leave total => LeaveRequest.duration leave + total)
                    0 (filter (fun d => q d = true) l)) as Hsum.
    { induction l as [|x l IH]; intros acc; [cbn; lia|].
      rewrite filter_cons.
      assert (forall d, d ∈ l ->
                        LeaveRequest.fromDate d <= LeaveRequest.toDate d) as Hl
        by (intros d Hd; apply Hordered; by right).
      case_decide; [|by apply IH].
      cbn [foldl foldr length].
      rewrite ceilDays_duration by (apply Hordered; left).
      destruct (IH Hl (acc + LeaveRequest.duration x)) as [-> Hle].
      pose proof (duration_positive x) as Hone.
      split; lia. }
    destruct (Hsum 0) as [Heq Hle]. subst q. cbn beta in Heq, Hle.
    rewrite Heq. split; [lia|done].
Qed.

Lemma student_stats_add_up_witness :
  let taken : LeaveRequest.t :=
    LeaveRequest.assign LeaveRequest.approved (Sample.at_ 500)
      (Sample.leave 1%N LeaveRequest.pending) 3%N None in
  Stats.totalDays (Stats.studentStats {[ 11%N := taken ]} 1%N)
  = Stats.durations {[ 11%N := taken ]} 1%N.
Proof.
  cbv zeta.
  destruct (student_stats_add_up
              {[ 11%N := LeaveRequest.assign LeaveRequest.approved (Sample.at_ 500)
                           (Sample.leave 1%N LeaveRequest.pending) 3%N None ]}
              1%N)
    as (_ & _ & Hdays).
  apply Hdays.
  intros k d [_ <-]%lookup_singleton_Some.
  unfold Invariants.consistent. cbn. split_and!; [lia|done|eauto..].
Defined.

(** ** The list of users, page by page *)

Lemma ceilDiv_lt (a b p : Z) :
  1 <= b -> (p < Paging.ceilDiv a b <-> p * b < a).
Proof.
  intros Hb. unfold Paging.ceilDiv.
  pose proof (Z.div_mod (- a) b ltac:(lia)) as Hdiv.
  pose proof (Z.mod_pos_bound (- a) b ltac:(lia)) as Hmod.
  split; intros H; nia.
Qed.

Lemma window_page {A} (page limit : Z) (l : list A) :
  1 <= page -> 1 <= limit ->
  Paging.window page limit l
    = Some (take (Z.to_nat limit)
              (drop (Z.to_nat (page - 1) * Z.to_nat limit) l)).
Proof.
  intros Hpage Hlimit. unfold Paging.window.
  destruct (Z.ltb_spec ((page - 1) * limit) 0) as [Hneg|_]; [nia|].
  rewrite Z.abs_eq by lia. do 3 f_equal. nia.
Qed.

Lemma allPages_take {A} (pages : nat) (limit : Z) (l : list A) :
  1 <= limit ->
  Paging.allPages pages limit l = take (pages * Z.to_nat limit) l.
Proof.
  intros Hlimit. unfold Paging.allPages.
  induction pages as [|k IH]; [by rewrite take_0|].
  rewrite seq_S, flat_map_app, IH. cbn [flat_map Nat.add].
  rewrite app_nil_r, window_page by lia. cbn [default].
  replace (Z.to_nat (Z.of_nat (S k) - 1)) with k by lia.
  unfold id. rewrite take_take_drop. f_equal. lia.
Qed.

(** X19.  With a limit of at least 1, every page from 1 on is served and
    holds at most [limit] entries; [hasNext] is set exactly when the next
    page shows an entry; and the pages 1 to [totalPages], one after the
    other, are the whole list: no entry is left out and none comes
    twice. *)
Theorem pages_split_the_list {A} (l : list A) (limit : Z) :
  1 <= limit ->
  (forall page, 1 <= page ->
     exists shown,
       Paging.window page limit l = Some shown /\
       Z.of_nat (length shown) <= limit /\
       (Paging.hasNext (Paging.pagination page limit (length l)) = true <->
        exists next, Paging.window (page + 1) limit l = Some next /\
                     next <> [])) /\
  Paging.allPages
    (Z.to_nat (Paging.totalPages (Paging.pagination 1 limit (length l))))
    limit l = l.
Proof.
  intros Hlimit. split.
  - intros page Hpage. eexists. split; [by apply window_page|]. split.
    { rewrite length_take. lia. }
    cbn [Paging.hasNext Paging.pagination].
    rewrite Z.ltb_lt, ceilDiv_lt by done.
    rewrite window_page by lia.
    replace (Z.to_nat (page + 1 - 1)) with (Z.to_nat page) by lia.
    split.
    + intros Hlt. eexists. split; [done|].
      intros Hnil%(f_equal length). rewrite length_take, length_drop in Hnil.
      cbn in Hnil. nia.
    + intros (next & [= <-] & Hne).
      destruct (Z.lt_ge_cases (page * limit) (Z.of_nat (length l)))
        as [|Hge]; [done|].
      exfalso. apply Hne. rewrite drop_ge; [by rewrite take_nil|]. nia.
  - rewrite allPages_take by done. apply take_ge.
    cbn [Paging.totalPages Paging.pagination].
    set (pages := Paging.ceilDiv (Z.of_nat (length l)) limit).
    destruct (Z.lt_ge_cases (Z.of_nat (Z.to_nat pages * Z.to_nat limit))
                (Z.of_nat (length l))) as [Hlt|Hge]; [|lia].
    exfalso.
    assert (Z.max pages 0 < pages) as Hmax; [|lia].
    apply ceilDiv_lt; [done|]. nia.
Qed.

Lemma pages_split_the_list_witness :
  Paging.allPages 3 2 [1; 2; 3; 4; 5] = [1; 2; 3; 4; 5].
Proof.
  exact (proj2 (pages_split_the_list [1; 2; 3; 4; 5] 2 ltac:(lia))).
Defined.

Section PagingFacts.

Variable createdAt : ObjectId -> Z.

#[local] Existing Instance Paging.newerFirst_dec.

#[local] Instance newerUser_total : Total (Paging.newerFirst createdAt).
Proof. intros x y. unfold Paging.newerFirst. lia. Qed.

(** What a query finds: the stored users it matches, each once, newest
    first. *)
Lemma matching_users users (query : User.t -> bool) :
  let found := Paging.matching createdAt users query in
  (forall u, u ∈ found <->
     users !! User._id u = Some (User.doc u) /\ query u = true) /\
  NoDup (User._id <$> found) /\
  Sorted (fun a b => createdAt b <= createdAt a) (User._id <$> found).
Proof.
  cbv zeta. unfold Paging.matching.
  pose proof (merge_sort_Permutation (Paging.newerFirst createdAt)
                (filter (fun u => query u = true) (Paging.allUsers users)))
    as Hperm.
  assert (forall u, u ∈ Paging.allUsers users <->
                    users !! User._id u = Some (User.doc u)) as Hall.
  { intros [k d]. unfold Paging.allUsers. rewrite list_elem_of_fmap. split.
    - intros ([k' d'] & [= -> ->] & Hin%elem_of_map_to_list). done.
    - intros Hin. exists (k, d). split; [done|]. by apply elem_of_map_to_list. }
  split_and!.
  - intros u. rewrite Hperm, list_elem_of_filter, Hall. tauto.
  - rewrite Hperm. apply NoDup_fmap_2_strong.
    + intros [k1 d1] [k2 d2] [_ H1%Hall]%list_elem_of_filter
        [_ H2%Hall]%list_elem_of_filter Heq.
      cbn in *. subst k2. congruence.
    + apply NoDup_filter. unfold Paging.allUsers.
      apply NoDup_fmap_2; [|apply NoDup_map_to_list].
      intros [k1 d1] [k2 d2] [= -> ->]. done.
  - apply (Sorted_fmap User._id (Paging.newerFirst createdAt)); [done|].
    apply Sorted_merge_sort, _.
Qed.

End PagingFacts.

(** X20.  GET /users of the admin routes answers an admin who asks for
    page [p] of [n] users, both at least 1, with the [p]-th stretch of
    [n] of the users the query matches: the stored users that have the
    role asked for and, when a search is given, whose name, email or
    student id is a string the search matches; each once, the newest
    first.  The count it reports is the number of them all, and [hasNext]
    says whether users come after the ones shown.  A search that is no
    regular expression is answered 500: the handler hands it to the query
    as it is.  An absent, unreadable or zero [page] counts as 1, such a
    [limit] as 20.  Who is not an admin is answered 403. *)
Theorem user_list_is_paged (createdAt : ObjectId -> Z)
    (regex : string -> option (string -> bool)) users token user page limit
    role search :
  authenticated users token user ->
  let p := Paging.orDefault page 1 in
  let n := Paging.orDefault limit 20 in
  (page = None \/ page = Some 0 -> p = 1) /\
  (limit = None \/ limit = Some 0 -> n = 20) /\
  (User.isAdmin user = false ->
   Paging.listUsers createdAt regex users token page limit role search
     = respond 403 (Error "Access denied. Insufficient permissions.")) /\
  (User.isAdmin user = true ->
   forall s,
     Paging.given search = Some s -> regex s = None ->
     Paging.listUsers createdAt regex users token page limit role search
       = respond 500 (Error "Failed to fetch users")) /\
  (User.isAdmin user = true -> 1 <= p -> 1 <= n ->
   forall test,
     match Paging.given search with
     | Some s => regex s = Some test
     | None => True
     end ->
     exists found pg,
       (forall u, u ∈ found <->
          users !! User._id u = Some (User.doc u) /\
          Paging.hasRole role u = true /\
          (is_Some (Paging.given search) ->
           exists key v,
             key ∈ ["name"; "email"; "studentId"] /\
             User.get u key = JStr v /\ test v = true)) /\
       NoDup (User._id <$> found) /\
       Sorted (fun a b => createdAt b <= createdAt a) (User._id <$> found) /\
       Paging.listUsers createdAt regex users token page limit role search
         = respond 200
             (Payload (take (Z.to_nat n)
                        (drop (Z.to_nat (p - 1) * Z.to_nat n) found), pg)) /\
       Paging.currentPage pg = p /\
       Paging.totalUsers pg = length found /\
       (Paging.hasNext pg = true <-> p * n < Z.of_nat (length found)) /\
       (Paging.hasPrev pg = true <-> 1 < p)).
Proof.
  intros Hauth p n. split_and!.
  - by intros [->| ->].
  - by intros [->| ->].
  - intros Hadmin. unfold Paging.listUsers.
    rewrite (authenticateToken_ok _ _ _ Hauth). cbn [mbind early_return].
    by rewrite requireAdmin_cases, Hadmin.
  - intros Hadmin s Hgiven Hregex. unfold Paging.listUsers.
    rewrite (authenticateToken_ok _ _ _ Hauth). cbn [mbind early_return].
    rewrite requireAdmin_cases, Hadmin. cbn [mbind early_return]. cbv zeta.
    unfold Paging.userQuery. by rewrite Hgiven, Hregex.
  - intros Hadmin Hp Hn test Htest.
    assert (exists query,
               Paging.userQuery regex role search = Some query /\
               forall u, query u = true <->
                 Paging.hasRole role u = true /\
                 (is_Some (Paging.given search) ->
                  exists key v,
                    key ∈ ["name"; "email"; "studentId"] /\
                    User.get u key = JStr v /\ test v = true))
      as (query & Hquery & Hspec).
    { unfold Paging.userQuery.
      destruct (Paging.given search) as [s|].
      - rewrite Htest. cbn [mbind option_bind]. eexists. split; [reflexivity|].
        intros u. rewrite andb_true_iff, existsb_exists. split.
        + intros [Hrole (key & Hkey%list_elem_of_In & Hmatch)].
          split; [done|]. intros _. unfold Paging.matchesPath in Hmatch.
          destruct (User.get u key) as [| | | |v|] eqn:Hget; try done.
          by exists key, v.
        + intros [Hrole Hsearch].
          destruct Hsearch as (key & v & Hkey & Hget & Hv); [by eexists|].
          split; [done|]. exists key. split; [by apply list_elem_of_In|].
          unfold Paging.matchesPath. by rewrite Hget.
      - eexists. split; [reflexivity|]. intros u. split.
        + intros Hrole. split; [done|]. by intros [? ?].
        + by intros [Hrole _]. }
    destruct (matching_users createdAt users query)
      as (Hin & Hnodup & Hsorted).
    eexists _, _. split_and!; [|exact Hnodup|exact Hsorted|..].
    + intros u. rewrite Hin, Hspec. tauto.
    + unfold Paging.listUsers.
      rewrite (authenticateToken_ok _ _ _ Hauth). cbn [mbind early_return].
      rewrite requireAdmin_cases, Hadmin. cbn [mbind early_return]. cbv zeta.
      rewrite Hquery. fold p n. rewrite window_page by done. reflexivity.
    + done.
    + done.
    + cbn [Paging.hasNext Paging.pagination].
      by rewrite Z.ltb_lt, ceilDiv_lt.
    + cbn [Paging.hasPrev Paging.pagination]. by rewrite Z.ltb_lt.
Qed.

Lemma user_list_is_paged_witness :
  exists shown pg,
    Paging.listUsers (fun k => Z.of_N k) (fun _ => None) Sample.users
      (Auth.Signed 4%N) None (Some 1) (Some "student") None
    = respond 200 (Payload (shown, pg)) /\
    User._id <$> shown = [2%N] /\
    Paging.hasNext pg = true.
Proof.
  pose proof (user_list_is_paged (fun k => Z.of_N k) (fun _ => None)
                Sample.users (Auth.Signed 4%N)
                {| User._id := 4%N;
                   User.doc := Sample.person "admin" "admin@nitgoa.ac.in" |}
                None (Some 1) (Some "student") None) as Hpaged.
  cbv zeta in Hpaged.
  destruct Hpaged as (_ & _ & _ & _ & Hshown).
  - evaluate_actor.
  - destruct (Hshown eq_refl ltac:(vm_compute; discriminate)
                ltac:(vm_compute; discriminate) (fun _ => true) I)
      as (found & pg & _ & _ & _ & Hres & _).
    eexists _, pg. split; [exact Hres|].
    assert (Paging.listUsers (fun k => Z.of_N k) (fun _ => None) Sample.users
              (Auth.Signed 4%N) None (Some 1) (Some "student") None
            = respond 200
                (Payload ([Sample.ravi],
                          Paging.pagination 1 1 2)))
      as Hrun by (vm_compute; reflexivity).
    rewrite Hres in Hrun. injection Hrun as Hs Hp. split.
    + etrans; [apply (f_equal (fmap User._id)); exact Hs | reflexivity].
    + by rewrite Hp.
Defined.

(** X21.  A page before the first is not refused as a bad request: the
    skip of the query is negative, the query throws, and the admin is
    answered 500. *)
Theorem page_before_first_is_answered_500 (createdAt : ObjectId -> Z)
    (regex : string -> option (string -> bool)) users token user page limit
    role search :
  authenticated users token user ->
  User.isAdmin user = true ->
  page < 0 ->
  1 <= Paging.orDefault limit 20 ->
  Paging.listUsers createdAt regex users token (Some page) limit role search
    = respond 500 (Error "Failed to fetch users").
Proof.
  intros Hauth Hadmin Hpage Hlimit. unfold Paging.listUsers.
  rewrite (authenticateToken_ok _ _ _ Hauth). cbn [mbind early_return].
  rewrite requireAdmin_cases, Hadmin. cbn [mbind early_return]. cbv zeta.
  destruct (Paging.userQuery regex role search) as [query|]; [|done].
  assert (Paging.orDefault (Some page) 1 = page) as ->.
  { unfold Paging.orDefault. destruct (Z.eqb_spec page 0); [lia|done]. }
  unfold Paging.window.
  destruct (Z.ltb_spec ((page - 1) * Paging.orDefault limit 20) 0) as [_|Hge];
    [done|nia].
Qed.

Lemma page_before_first_is_answered_500_witness :
  Paging.listUsers (fun k => Z.of_N k) (fun _ => None) Sample.users
    (Auth.Signed 4%N) (Some (-1)) None None None
  = respond 500 (Error "Failed to fetch users").
Proof.
  apply (page_before_first_is_answered_500 _ _ _ _
           {| User._id := 4%N;
              User.doc := Sample.person "admin" "admin@nitgoa.ac.in" |}).
  - evaluate_actor.
  - vm_compute. reflexivity.
  - lia.
  - vm_compute. discriminate.
Defined.

(** ** Who may look a user up *)

Lemma differs_false s v : Ownership.differs s v = false <-> v = JStr s.
Proof.
  destruct v as [| | | |s'|]; cbn; try (split; intros; discriminate).
  rewrite negb_false_iff, String.eqb_eq.
  split; [by intros -> | by intros [= ->]].
Qed.

(** X22.  GET /:id of the user routes does not compare the id asked for
    with the sender's: the check reads the field [student], which the
    route does not have as a parameter, so it is taken from the body.  A
    sender who is not an admin is answered 403 whatever the id, their own
    included, unless the body gives their own id as [student]; and with
    that body they are shown whichever stored user the id names. *)
Theorem user_lookup_checks_the_body user users token body :
  authenticated users token user ->
  User.isAdmin user = false ->
  (body !! "student" <> Some (JStr (Ownership.toHexString (User._id user))) ->
   forall id_,
     Ownership.getUser users token id_ body
       = respond 403
           (Error "Access denied. You can only access your own data.")) /\
  (body !! "student" = Some (JStr (Ownership.toHexString (User._id user))) ->
   forall id_ oid d,
     castObjectId id_ = Some oid ->
     users !! oid = Some d ->
     Ownership.getUser users token id_ body
       = respond 200 (Payload {| User._id := oid; User.doc := d |})).
Proof.
  intros Hauth Hadmin.
  assert (forall id_,
             Ownership.prop {[ "id" := JStr id_ ]} "student" = JUndefined)
    as Hparam.
  { intros id_. unfold Ownership.prop. by rewrite lookup_singleton_ne. }
  split; intros Hbody id_.
  - unfold Ownership.getUser, Ownership.requireOwnershipOrAdmin.
    rewrite (authenticateToken_ok _ _ _ Hauth). cbn [mbind early_return].
    rewrite Hadmin, Hparam. cbn [Ownership.orElse truthy].
    destruct (Ownership.differs _ _) eqn:Hdiff; [done|].
    apply differs_false in Hdiff. exfalso. apply Hbody.
    unfold Ownership.prop in Hdiff.
    destruct (body !! "student") as [j|]; cbn [default] in Hdiff;
      unfold id in Hdiff; [by rewrite Hdiff | discriminate Hdiff].
  - intros oid d Hcast Hstored.
    unfold Ownership.getUser, Ownership.requireOwnershipOrAdmin.
    rewrite (authenticateToken_ok _ _ _ Hauth). cbn [mbind early_return].
    rewrite Hadmin, Hparam. cbn [Ownership.orElse truthy].
    unfold Ownership.prop. rewrite Hbody. cbn [default]. unfold id.
    rewrite (proj2 (differs_false _ _) eq_refl).
    cbn [returnIf mbind early_return].
    unfold Admin.findUser, User.findById. rewrite Hcast.
    cbn [fmap option_fmap option_map]. by rewrite Hstored.
Qed.

Lemma user_lookup_checks_the_body_witness :
  Ownership.getUser Sample.users (Auth.Signed 1%N)
    "000000000000000000000001" ∅
  = respond 403 (Error "Access denied. You can only access your own data.").
Proof.
  apply (proj1 (user_lookup_checks_the_body Sample.asha Sample.users
                  (Auth.Signed 1%N) ∅ ltac:(evaluate_actor) eq_refl)).
  by rewrite lookup_empty.
Defined.

(** A student who sends their own id as [student] reads the record of the
    admin. *)
Example student_reads_the_admin :
  Ownership.getUser Sample.users (Auth.Signed 1%N)
    "000000000000000000000004"
    {[ "student" := JStr "000000000000000000000001" ]}
  = respond 200
      (Payload {| User._id := 4%N;
                  User.doc := Sample.person "admin" "admin@nitgoa.ac.in" |}).
Proof. vm_compute. reflexivity. Qed.
